(** * The ICSE study/test agents: prompt builders, response parser, workflows

    A shallow embedding of [ICSE_8th_Physics_test_agent.py] and
    [ICSE_8th_Physicsstudy_agent.py], and of what [app.py] does around
    them with texts: reading an upload, keeping the documents for the
    generator, building the outputs that are saved.

    Conventions of the embedding.
    - A Python [str] is a [list ascii]; the character with code [n] stands
      for the code point U+00[n], so the texts covered are those whose code
      points are below 256.
    - Indices are [Z], as in Python: [find] answers [-1] when there is no
      occurrence and slices accept negative bounds.
    - A dict with fixed, identifier-like keys (the LangGraph states) is a
      [gmap string value]; a JSON object is an association list in insertion
      order.
    - The completion client ([ChatOpenAI.invoke]) is an oracle threaded
      through a world; every call is recorded in a ghost trace.
    - What the agents use of the Python library ([str.find], [str.rfind],
      slices, [str.strip], [str.join]), of [json] and of LangGraph
      ([StateGraph], [invoke]) is embedded next to them, from the behaviour
      of these libraries.
    - [json] is embedded for the values built from [None], booleans,
      integers, strings, lists and dicts; a float literal and an escape of a
      code point above U+00FF make the decoder answer [Unmodelled].  The
      recursion limit of the interpreter and its limit of 4300 digits on
      an integer, where [json.loads] raises [RecursionError] and
      [ValueError], are not part of the embedding: the decoder is that of
      an interpreter without them.
    - The bytes of an upload are a [list Byte.byte]; PyPDF2 and python-docx
      are functions given as parameters.  The pages Streamlit draws and the
      tables of the database are outside the embedding. *)

From Stdlib Require Import ZArith Ascii String List Lia Bool.
From Stdlib Require Import DecimalFacts DecimalPos DecimalN DecimalZ.
From stdpp Require Import base list gmap strings.

Local Open Scope Z_scope.
Local Open Scope list_scope.

Abbreviation text := (list ascii).

(** String literals of the source, as texts. *)
Definition str (s : string) : text := list_ascii_of_string s.

(* ===================================================================== *)
(** * Python string operations used by the agents *)
(* ===================================================================== *)

Module Py.

(** [s.startswith(p)]. *)
Fixpoint startswith (p s : text) : bool :=
  match p, s with
  | [], _ => true
  | _ :: _, [] => false
  | a :: p', b :: s' => Ascii.eqb a b && startswith p' s'
  end.

(** Lowest offset at which [sub] occurs in [s], searching from offset 0. *)
Fixpoint index_of (sub s : text) : option nat :=
  if startswith sub s then Some 0%nat
  else match s with
       | [] => None
       | _ :: s' => S <$> index_of sub s'
       end.

(** Highest offset at which [sub] occurs in [s]. *)
Fixpoint rindex_of (sub s : text) : option nat :=
  match s with
  | [] => if startswith sub [] then Some 0%nat else None
  | _ :: s' =>
      match rindex_of sub s' with
      | Some i => Some (S i)
      | None => if startswith sub s then Some 0%nat else None
      end
  end.

Definition len (s : text) : Z := Z.of_nat (length s).

(** Bound adjustment shared by slices and by the [start] argument of
    [find]: a negative bound counts from the end, then the bound is
    clamped to [0 .. len s]. *)
Definition adjust (s : text) (i : Z) : Z :=
  if i <? 0 then Z.max 0 (len s + i) else Z.min (len s) i.

(** [s[start:stop]]. *)
Definition slice (s : text) (start stop : Z) : text :=
  let a := adjust s start in
  let b := adjust s stop in
  take (Z.to_nat (b - a)) (drop (Z.to_nat a) s).

(** [s.find(sub, start)]: lowest index [>= start] of an occurrence, or -1. *)
Definition find (s sub : text) (start : Z) : Z :=
  if (0 <=? start) && (len s <? start) then -1
  else
    let a := adjust s start in
    match index_of sub (drop (Z.to_nat a) s) with
    | Some i => a + Z.of_nat i
    | None => -1
    end.

(** [s.rfind(sub)]: highest index of an occurrence, or -1. *)
Definition rfind (s sub : text) : Z :=
  match rindex_of sub s with
  | Some i => Z.of_nat i
  | None => -1
  end.

(** [sub in s]. *)
Definition contains (sub s : text) : bool :=
  match index_of sub s with Some _ => true | None => false end.

(** [c.isspace()] for a code point below 256: the C0 white space and
    separators, the space, NEL and the no-break space. *)
Definition isspace (c : ascii) : bool :=
  let n := N_of_ascii c in
  ((9 <=? n) && (n <=? 13) || (28 <=? n) && (n <=? 32)
   || (n =? 133) || (n =? 160))%N.

Fixpoint lstrip (s : text) : text :=
  match s with
  | c :: s' => if isspace c then lstrip s' else s
  | [] => []
  end.

Definition rstrip (s : text) : text := rev (lstrip (rev s)).

(** [s.strip()]. *)
Definition strip (s : text) : text := rstrip (lstrip s).

(** [sep.join(parts)]. *)
Fixpoint join (sep : text) (parts : list text) : text :=
  match parts with
  | [] => []
  | [p] => p
  | p :: ps => p ++ sep ++ join sep ps
  end.

End Py.

(* ===================================================================== *)
(** * The response parser: choosing the text handed to [json.loads] *)
(* ===================================================================== *)

Definition fence_json : text := str "```json".
Definition fence : text := str "```".
Definition lbrace : text := str "{".
Definition rbrace : text := str "}".

(** The body of the [try] block up to the call of [json.loads], the same in
    [generate_test_questions] and in [evaluate_answers]. *)
Definition extract_json_str (response_text : text) : text :=
  if Py.contains fence_json response_text then
    let json_start := Py.find response_text fence_json 0 + 7 in
    let json_end := Py.find response_text fence json_start in
    Py.strip (Py.slice response_text json_start json_end)
  else if Py.contains lbrace response_text then
    let json_start := Py.find response_text lbrace 0 in
    let json_end := Py.rfind response_text rbrace + 1 in
    Py.slice response_text json_start json_end
  else
    response_text.

(* ===================================================================== *)
(** * Outcomes *)
(* ===================================================================== *)

(** The exceptions the agents can meet. [ServiceError] stands for whatever
    the completion client raises (authentication, rate limit, network). *)
Inductive exn : Type :=
| JSONDecodeError
| KeyError (key : string)
| GraphRecursionError
| ServiceError (info : text).

(** What a call does: it returns, it raises, or it leaves the fragment the
    embedding covers ([Unmodelled]: a float literal, an escape of a code
    point above U+00FF, a fan-out in a graph); [OutOfFuel] is the bound of a
    bounded recursion being reached. *)
Inductive result (A : Type) : Type :=
| Ok (a : A)
| Raise (e : exn)
| Unmodelled
| OutOfFuel.

Arguments Ok {A} a.
Arguments Raise {A} e.
Arguments Unmodelled {A}.
Arguments OutOfFuel {A}.

Definition rbind {A B : Type} (r : result A) (k : A -> result B) : result B :=
  match r with
  | Ok a => k a
  | Raise e => Raise e
  | Unmodelled => Unmodelled
  | OutOfFuel => OutOfFuel
  end.

Notation "'let?' x := r 'in' k" := (rbind r (fun x => k))
  (at level 10, x pattern, r at level 100, k at level 200).

(* ===================================================================== *)
(** * JSON values, [json.dumps] and [json.loads] *)
(* ===================================================================== *)

(** The Python values of the fragment: [None], [bool], [int], [str], [list]
    and [dict] with [str] keys.  A [dict] lists its items in insertion
    order; it stands for a Python dict when its keys are pairwise distinct
    (see [wf_json]).  Floats are outside the fragment. *)
#[local] Unset Elimination Schemes.
Inductive json : Type :=
| JNull
| JBool (b : bool)
| JInt (n : Z)
| JStr (s : text)
| JArr (items : list json)
| JObj (members : list (text * json)).
#[local] Set Elimination Schemes.

Definition dquote : ascii := "034"%char.
Definition backslash : ascii := "\"%char.

(** A template literal: the source text with [^] written for the double
    quote. *)
Definition tmpl (s : string) : text :=
  map (fun c => if Ascii.eqb c "^" then dquote else c) (str s).

Module Json.

(** ** Integers: [int.__repr__] and [int(...)] *)

Fixpoint digits_of_uint (d : Decimal.uint) : text :=
  match d with
  | Decimal.Nil => []
  | Decimal.D0 d => "0"%char :: digits_of_uint d
  | Decimal.D1 d => "1"%char :: digits_of_uint d
  | Decimal.D2 d => "2"%char :: digits_of_uint d
  | Decimal.D3 d => "3"%char :: digits_of_uint d
  | Decimal.D4 d => "4"%char :: digits_of_uint d
  | Decimal.D5 d => "5"%char :: digits_of_uint d
  | Decimal.D6 d => "6"%char :: digits_of_uint d
  | Decimal.D7 d => "7"%char :: digits_of_uint d
  | Decimal.D8 d => "8"%char :: digits_of_uint d
  | Decimal.D9 d => "9"%char :: digits_of_uint d
  end.

(** [repr(n)] for an [int]; also what an f-string prints for it. *)
Definition int_repr (n : Z) : text :=
  match Z.to_int n with
  | Decimal.Pos d => digits_of_uint d
  | Decimal.Neg d => "-"%char :: digits_of_uint d
  end.

Definition is_digit (c : ascii) : bool :=
  ((48 <=? N_of_ascii c) && (N_of_ascii c <=? 57))%N.

Fixpoint uint_of_digits (s : text) : Decimal.uint :=
  match s with
  | [] => Decimal.Nil
  | c :: s' =>
      let d := uint_of_digits s' in
      match N_of_ascii c with
      | 48%N => Decimal.D0 d
      | 49%N => Decimal.D1 d
      | 50%N => Decimal.D2 d
      | 51%N => Decimal.D3 d
      | 52%N => Decimal.D4 d
      | 53%N => Decimal.D5 d
      | 54%N => Decimal.D6 d
      | 55%N => Decimal.D7 d
      | 56%N => Decimal.D8 d
      | _ => Decimal.D9 d
      end
  end.

(** [int(s)] on a text matched by the integer part of [NUMBER_RE]. *)
Definition parse_int (s : text) : Z :=
  match s with
  | "-"%char :: ds => Z.of_int (Decimal.Neg (uint_of_digits ds))
  | ds => Z.of_int (Decimal.Pos (uint_of_digits ds))
  end.

(** ** [encode_basestring_ascii] *)

Definition hex_digit (n : N) : ascii :=
  nth (N.to_nat n) (str "0123456789abcdef") "0"%char.

(** The replacement of one character: the short escapes of [ESCAPE_DCT],
    the printable ASCII characters as they are, [\u00xx] for the rest. *)
Definition escape_char (c : ascii) : text :=
  let n := N_of_ascii c in
  if (n =? 34)%N then [backslash; dquote]
  else if (n =? 92)%N then [backslash; backslash]
  else if (n =? 10)%N then [backslash; "n"%char]
  else if (n =? 13)%N then [backslash; "r"%char]
  else if (n =? 9)%N then [backslash; "t"%char]
  else if (n =? 8)%N then [backslash; "b"%char]
  else if (n =? 12)%N then [backslash; "f"%char]
  else if ((32 <=? n) && (n <=? 126))%N then [c]
  else [backslash; "u"%char; "0"%char; "0"%char;
        hex_digit (n / 16); hex_digit (n mod 16)].

Definition encode_basestring_ascii (s : text) : text :=
  dquote :: flat_map escape_char s ++ [dquote].

(** ** The encoder ([_make_iterencode]) *)

(** ['\n' + _indent * level], empty when [indent] is [None]. *)
Definition newline_indent (indent : option nat) (level : nat) : text :=
  match indent with
  | None => []
  | Some k => "010"%char :: repeat " "%char (k * level)
  end.

Definition item_separator (indent : option nat) : text :=
  match indent with
  | None => str ", "
  | Some _ => str ","
  end.

Definition key_separator : text := str ": ".

Fixpoint encode (indent : option nat) (level : nat) (o : json) : text :=
  match o with
  | JNull => str "null"
  | JBool true => str "true"
  | JBool false => str "false"
  | JInt n => int_repr n
  | JStr s => encode_basestring_ascii s
  | JArr [] => str "[]"
  | JArr lst =>
      str "[" ++ newline_indent indent (S level)
      ++ Py.join (item_separator indent ++ newline_indent indent (S level))
           (map (encode indent (S level)) lst)
      ++ newline_indent indent level ++ str "]"
  | JObj [] => str "{}"
  | JObj dct =>
      str "{" ++ newline_indent indent (S level)
      ++ Py.join (item_separator indent ++ newline_indent indent (S level))
           (map (fun kv => let '(k, v) := kv in
                           encode_basestring_ascii k ++ key_separator
                           ++ encode indent (S level) v) dct)
      ++ newline_indent indent level ++ str "}"
  end.

(** [json.dumps(o)] and [json.dumps(o, indent=k)]. *)
Definition dumps (o : json) : text := encode None 0 o.
Definition dumps_indent (k : nat) (o : json) : text := encode (Some k) 0 o.

(** ** The decoder ([json.decoder], [json.scanner]) *)

(** [WHITESPACE = [ \t\n\r]*]. *)
Definition is_ws (c : ascii) : bool :=
  let n := N_of_ascii c in
  ((n =? 32) || (n =? 9) || (n =? 10) || (n =? 13))%N.

Fixpoint skip_ws (s : text) : text :=
  match s with
  | c :: s' => if is_ws c then skip_ws s' else s
  | [] => []
  end.

Fixpoint span_digits (s : text) : text * text :=
  match s with
  | c :: s' =>
      if is_digit c then
        let '(ds, r) := span_digits s' in (c :: ds, r)
      else ([], s)
  | [] => ([], [])
  end.

(** The optional groups [(\.[0-9]+)?] and [([eE][-+]?[0-9]+)?] of
    [NUMBER_RE]: whether the group matched, and the text after it. *)
Definition match_frac (s : text) : bool * text :=
  match s with
  | "."%char :: c :: s' =>
      if is_digit c then (true, snd (span_digits s')) else (false, s)
  | _ => (false, s)
  end.

Definition match_exp (s : text) : bool * text :=
  match s with
  | e :: s1 =>
      if Ascii.eqb e "e" || Ascii.eqb e "E" then
        let s2 := match s1 with
                  | c :: s' =>
                      if Ascii.eqb c "-" || Ascii.eqb c "+" then s' else s1
                  | [] => s1
                  end in
        match s2 with
        | c :: s' =>
            if is_digit c then (true, snd (span_digits s')) else (false, s)
        | [] => (false, s)
        end
      else (false, s)
  | [] => (false, s)
  end.

(** [NUMBER_RE.match]: the integer group, whether a fraction or an exponent
    group matched, and the text after the match. *)
Definition match_number (s : text) : option (text * bool * text) :=
  let '(sign, s0) := match s with
                     | "-"%char :: r => (["-"%char], r)
                     | _ => ([], s)
                     end in
  let integer : option (text * text) :=
    match s0 with
    | c :: r =>
        if Ascii.eqb c "0" then Some (sign ++ [c], r)
        else if is_digit c then
          let '(ds, r') := span_digits r in Some (sign ++ c :: ds, r')
        else None
    | [] => None
    end in
  match integer with
  | Some (i, r) =>
      let '(frac, r1) := match_frac r in
      let '(exp, r2) := match_exp r1 in
      Some (i, frac || exp, r2)
  | None => None
  end.

Definition hex_value (c : ascii) : option N :=
  let n := N_of_ascii c in
  if ((48 <=? n) && (n <=? 57))%N then Some (n - 48)%N
  else if ((97 <=? n) && (n <=? 102))%N then Some (n - 87)%N
  else if ((65 <=? n) && (n <=? 70))%N then Some (n - 55)%N
  else None.

(** [_decode_uXXXX]: the value of four hexadecimal digits. *)
Definition decode_uXXXX (a b c d : ascii) : option N :=
  match hex_value a, hex_value b, hex_value c, hex_value d with
  | Some x3, Some x2, Some x1, Some x0 =>
      Some (x3 * 4096 + x2 * 256 + x1 * 16 + x0)%N
  | _, _, _, _ => None
  end.

(** The table [BACKSLASH]. *)
Definition BACKSLASH (esc : ascii) : option ascii :=
  let n := N_of_ascii esc in
  if (n =? 34)%N then Some dquote
  else if (n =? 92)%N then Some backslash
  else if (n =? 47)%N then Some "/"%char
  else if (n =? 98)%N then Some "008"%char
  else if (n =? 102)%N then Some "012"%char
  else if (n =? 110)%N then Some "010"%char
  else if (n =? 114)%N then Some "013"%char
  else if (n =? 116)%N then Some "009"%char
  else None.

(** [scanstring(s, end, strict=True)], from just after the opening quote:
    the decoded string and the text after the closing quote.  An escape of
    a code point above U+00FF (surrogate pairs included) has no counterpart
    among the texts of the embedding. *)
Fixpoint scanstring (s : text) : result (text * text) :=
  match s with
  | [] => Raise JSONDecodeError
  | c :: r =>
      if Ascii.eqb c dquote then Ok ([], r)
      else if Ascii.eqb c backslash then
        match r with
        | [] => Raise JSONDecodeError
        | esc :: r1 =>
            if Ascii.eqb esc "u" then
              match r1 with
              | h3 :: h2 :: h1 :: h0 :: r2 =>
                  match decode_uXXXX h3 h2 h1 h0 with
                  | Some uni =>
                      if (uni <? 256)%N then
                        let? (chunks, rest) := scanstring r2 in
                        Ok (ascii_of_N uni :: chunks, rest)
                      else Unmodelled
                  | None => Raise JSONDecodeError
                  end
              | _ => Raise JSONDecodeError
              end
            else
              match BACKSLASH esc with
              | Some char =>
                  let? (chunks, rest) := scanstring r1 in
                  Ok (char :: chunks, rest)
              | None => Raise JSONDecodeError
              end
        end
      else if (N_of_ascii c <? 32)%N then Raise JSONDecodeError
      else
        let? (chunks, rest) := scanstring r in
        Ok (c :: chunks, rest)
  end.

(** [d[k] = v] on a dict in insertion order. *)
Fixpoint dict_set (k : text) (v : json) (d : list (text * json))
  : list (text * json) :=
  match d with
  | [] => [(k, v)]
  | (k', v') :: d' =>
      if bool_decide (k = k') then (k', v) :: d'
      else (k', v') :: dict_set k v d'
  end.

(** [dict(pairs)]. *)
Definition dict_of_pairs (pairs : list (text * json)) : list (text * json) :=
  fold_left (fun d kv => dict_set (fst kv) (snd kv) d) pairs [].

(** The loop of [JSONArray], entered at the first character of a value;
    [n] bounds the number of iterations. *)
Fixpoint JSONArray_loop (scan_once : text -> result (json * text)) (n : nat)
    (s : text) (values : list json) : result (json * text) :=
  match n with
  | O => OutOfFuel
  | S n' =>
      let? (value, s1) := scan_once s in
      match skip_ws s1 with
      | c :: s2 =>
          if Ascii.eqb c "]" then Ok (JArr (values ++ [value]), s2)
          else if Ascii.eqb c "," then
            JSONArray_loop scan_once n' (skip_ws s2) (values ++ [value])
          else Raise JSONDecodeError
      | [] => Raise JSONDecodeError
      end
  end.

(** [JSONArray], from just after the opening bracket. *)
Definition JSONArray (scan_once : text -> result (json * text)) (s : text)
  : result (json * text) :=
  let s0 := skip_ws s in
  if Py.startswith (str "]") s0 then Ok (JArr [], drop 1 s0)
  else JSONArray_loop scan_once (S (length s0)) s0 [].

(** The loop of [JSONObject], entered just after the opening quote of a
    key. *)
Fixpoint JSONObject_loop (scan_once : text -> result (json * text)) (n : nat)
    (s : text) (pairs : list (text * json)) : result (json * text) :=
  match n with
  | O => OutOfFuel
  | S n' =>
      let? (key, s1) := scanstring s in
      match skip_ws s1 with
      | c :: s2 =>
          if Ascii.eqb c ":" then
            let? (value, s3) := scan_once (skip_ws s2) in
            match skip_ws s3 with
            | c' :: s4 =>
                if Ascii.eqb c' "}" then
                  Ok (JObj (dict_of_pairs (pairs ++ [(key, value)])), s4)
                else if Ascii.eqb c' "," then
                  match skip_ws s4 with
                  | q :: s5 =>
                      if Ascii.eqb q dquote then
                        JSONObject_loop scan_once n' s5
                          (pairs ++ [(key, value)])
                      else Raise JSONDecodeError
                  | [] => Raise JSONDecodeError
                  end
                else Raise JSONDecodeError
            | [] => Raise JSONDecodeError
            end
          else Raise JSONDecodeError
      | [] => Raise JSONDecodeError
      end
  end.

(** [JSONObject], from just after the opening brace. *)
Definition JSONObject (scan_once : text -> result (json * text)) (s : text)
  : result (json * text) :=
  let s0 := skip_ws s in
  if Py.startswith (str "}") s0 then Ok (JObj [], drop 1 s0)
  else if Py.startswith [dquote] s0 then
    JSONObject_loop scan_once (S (length s0)) (drop 1 s0) []
  else Raise JSONDecodeError.

(** [_scan_once]; [depth] bounds the nesting of arrays and objects.  The
    [StopIteration] of the source is turned into [JSONDecodeError] by each
    of its callers, so it is raised as such here. *)
Fixpoint scan_once (depth : nat) (s : text) : result (json * text) :=
  match depth with
  | O => OutOfFuel
  | S depth' =>
      match s with
      | [] => Raise JSONDecodeError
      | nextchar :: r =>
          if Ascii.eqb nextchar dquote then
            let? (v, rest) := scanstring r in Ok (JStr v, rest)
          else if Ascii.eqb nextchar "{" then JSONObject (scan_once depth') r
          else if Ascii.eqb nextchar "[" then JSONArray (scan_once depth') r
          else if Py.startswith (str "null") s then Ok (JNull, drop 4 s)
          else if Py.startswith (str "true") s then Ok (JBool true, drop 4 s)
          else if Py.startswith (str "false") s then Ok (JBool false, drop 5 s)
          else
            match match_number s with
            | Some (integer, is_float, rest) =>
                if is_float then Unmodelled
                else Ok (JInt (parse_int integer), rest)
            | None =>
                if Py.startswith (str "NaN") s
                   || Py.startswith (str "Infinity") s
                   || Py.startswith (str "-Infinity") s
                then Unmodelled
                else Raise JSONDecodeError
            end
      end
  end.

(** [JSONDecoder.decode]: white space, one value, white space, end. *)
Definition decode (s : text) : result json :=
  let? (obj, rest) := scan_once (S (length s)) (skip_ws s) in
  match skip_ws rest with
  | [] => Ok obj
  | _ :: _ => Raise JSONDecodeError
  end.

(** [json.loads(s)], as an interpreter without limits answers.  CPython
    also raises [ValueError] on an integer literal of more than 4300
    digits and [RecursionError] on a nesting deeper than its stack allows,
    and [json.dumps] has the same two limits; neither limit is part of the
    embedding, and what is stated of [loads] is stated of this decoder. *)
Definition loads (s : text) : result json := decode s.

(** What may follow a number for the match of [NUMBER_RE] to stop where
    the number stops. *)
Definition number_stop (rest : text) : bool :=
  match rest with
  | [] => true
  | c :: _ =>
      negb (is_digit c || Ascii.eqb c "." || Ascii.eqb c "e" || Ascii.eqb c "E")
  end.

(** The characters a value of the encoder can start with. *)
Definition value_start (c : ascii) : bool :=
  is_digit c || Ascii.eqb c "-" || Ascii.eqb c dquote || Ascii.eqb c "{"
  || Ascii.eqb c "[" || Ascii.eqb c "n" || Ascii.eqb c "t" || Ascii.eqb c "f".

End Json.

(* ===================================================================== *)
(** * The response parser *)
(* ===================================================================== *)

(** The [try ... except json.JSONDecodeError] block of
    [generate_test_questions] ([fallback_key] is [raw_response]) and of
    [evaluate_answers] ([raw_feedback]).  Only [JSONDecodeError] is caught. *)
Definition parse_response (fallback_key : text) (response_text : text)
  : result json :=
  match Json.loads (extract_json_str response_text) with
  | Raise JSONDecodeError => Ok (JObj [(fallback_key, JStr response_text)])
  | other => other
  end.

Definition raw_response : text := str "raw_response".
Definition raw_feedback : text := str "raw_feedback".

(** A JSON value free of objects at every depth, and one that represents a
    Python value: the keys of each dict pairwise distinct. *)
Fixpoint object_free (v : json) : bool :=
  match v with
  | JArr items => forallb object_free items
  | JObj _ => false
  | _ => true
  end.

Fixpoint wf_json (v : json) : Prop :=
  match v with
  | JArr items => fold_right (fun x P => wf_json x /\ P) True items
  | JObj members =>
      NoDup (map fst members)
      /\ fold_right (fun kv P => wf_json (snd kv) /\ P) True members
  | _ => True
  end.

(* ===================================================================== *)
(** * The completion client and the workflow monad *)
(* ===================================================================== *)

(** [llm.invoke(prompt).content]: the client answers with a text or raises;
    its behaviour may depend on, and change, a world of its own. *)
Record client : Type := {
  World : Type;
  invoke : text -> World -> (text + exn) * World
}.

(** One completion call, as recorded in the ghost trace. *)
Record call : Type := {
  call_prompt : text;
  call_reply : text + exn
}.

Definition store (llm : client) : Type := (World llm * list call)%type.

Definition M (llm : client) (A : Type) : Type :=
  store llm -> result A * store llm.

Definition ret {llm : client} {A : Type} (a : A) : M llm A :=
  fun st => (Ok a, st).

Definition bind {llm : client} {A B : Type} (m : M llm A) (k : A -> M llm B)
  : M llm B :=
  fun st =>
    match m st with
    | (Ok a, st') => k a st'
    | (Raise e, st') => (Raise e, st')
    | (Unmodelled, st') => (Unmodelled, st')
    | (OutOfFuel, st') => (OutOfFuel, st')
    end.

Definition lift {llm : client} {A : Type} (r : result A) : M llm A :=
  fun st => (r, st).

Notation "'let!' x := m 'in' k" := (bind m (fun x => k))
  (at level 10, x pattern, m at level 100, k at level 200).

Definition llm_invoke (llm : client) (prompt : text) : M llm text :=
  fun st =>
    let '(reply, w) := invoke llm prompt (fst st) in
    (match reply with inl content => Ok content | inr e => Raise e end,
     (w, snd st ++ [{| call_prompt := prompt; call_reply := reply |}])).

(* ===================================================================== *)
(** * States and graphs *)
(* ===================================================================== *)

(** An uploaded document: a dict that may or may not hold [name] and
    [text]. *)
Record doc : Type := {
  doc_name : option text;
  doc_text : option text
}.

(** The values held by the states [StudyMaterialState] and [TestState]. *)
Inductive value : Type :=
| VStr (s : text)
| VInt (n : Z)
| VDocs (docs : list doc)
| VJson (j : json).

Abbreviation state := (gmap string value).

(** The two [TypedDict]s of the source are dicts of this kind. *)
Abbreviation StudyMaterialState := (gmap string value).
Abbreviation TestState := (gmap string value).

(** [state[key]] read as a [str], as an [int]. *)
Definition get_str (st : state) (key : string) : result text :=
  match st !! key with
  | Some (VStr s) => Ok s
  | Some _ => Unmodelled
  | None => Raise (KeyError key)
  end.

Definition get_int (st : state) (key : string) : result Z :=
  match st !! key with
  | Some (VInt n) => Ok n
  | Some _ => Unmodelled
  | None => Raise (KeyError key)
  end.

(** [state.get('user_docs', [])] and [state.get('counts', {})]. *)
Definition get_docs (st : state) : result (list doc) :=
  match st !! "user_docs"%string with
  | Some (VDocs ds) => Ok ds
  | Some _ => Unmodelled
  | None => Ok []
  end.

Definition get_counts (st : state) : result (list (text * json)) :=
  match st !! "counts"%string with
  | Some (VJson (JObj c)) => Ok c
  | Some _ => Unmodelled
  | None => Ok []
  end.

Definition START : string := "__start__".
Definition END : string := "__end__".

(** A [StateGraph]: named nodes and directed edges. *)
Record StateGraph (llm : client) : Type := {
  nodes : list (string * (state -> M llm state));
  edges : list (string * string)
}.

Arguments nodes {llm} _.
Arguments edges {llm} _.

Definition empty_graph (llm : client) : StateGraph llm :=
  {| nodes := []; edges := [] |}.

Definition add_node {llm : client} (name : string)
    (f : state -> M llm state) (g : StateGraph llm) : StateGraph llm :=
  {| nodes := nodes g ++ [(name, f)]; edges := edges g |}.

Definition add_edge {llm : client} (a b : string) (g : StateGraph llm)
  : StateGraph llm :=
  {| nodes := nodes g; edges := edges g ++ [(a, b)] |}.

Definition successors (es : list (string * string)) (a : string)
  : list string :=
  map snd (List.filter (fun e => bool_decide (fst e = a)) es).

Fixpoint lookup_node {llm : client}
    (ns : list (string * (state -> M llm state))) (name : string)
  : option (state -> M llm state) :=
  match ns with
  | [] => None
  | (n, f) :: ns' => if bool_decide (n = name) then Some f else lookup_node ns' name
  end.

(** Running a compiled graph from the node [cur]: follow the edge out of
    [cur], run the node it leads to, write what the node returns over the
    state, continue; stop at [END].  [limit] is the recursion limit of
    LangGraph (a step per node).  A node with several successors runs them
    in one step in LangGraph; the embedding covers chains only. *)
Fixpoint run_graph {llm : client} (g : StateGraph llm) (limit : nat)
    (cur : string) (st : state) : M llm state :=
  match successors (edges g) cur with
  | [next] =>
      if bool_decide (next = END) then ret st
      else
        match limit with
        | O => lift (Raise GraphRecursionError)
        | S limit' =>
            match lookup_node (nodes g) next with
            | Some f =>
                let! upd := f st in
                run_graph g limit' next (upd ∪ st)
            | None => lift Unmodelled
            end
        end
  | _ => lift Unmodelled
  end.

(** [graph.invoke(initial_state)] with the default recursion limit. *)
Definition graph_invoke {llm : client} (g : StateGraph llm) (st : state)
  : M llm state :=
  run_graph g 25 START st.

(** The nodes met from [cur] on, following edges while each node has one
    successor. *)
Fixpoint path_from (es : list (string * string)) (limit : nat) (cur : string)
  : list string :=
  match limit with
  | O => []
  | S limit' =>
      match successors es cur with
      | [next] =>
          if bool_decide (next = END) then []
          else next :: path_from es limit' next
      | _ => []
      end
  end.

(* ===================================================================== *)
(** * ICSE_8th_Physicsstudy_agent.py *)
(* ===================================================================== *)

Definition newline : ascii := "010"%char.

(** An empty line of a literal. *)
Definition blank : string := EmptyString.

(** A literal of the source given line by line. *)
Definition lines (l : list string) : text := Py.join [newline] (map tmpl l).

(** [str(x)] for [x] a [str] or [None], as an f-string prints it. *)
Definition fmt_opt (x : option text) : text :=
  match x with
  | Some s => s
  | None => str "None"
  end.

(** [f"File: {d.get('name')}\n{d.get('text','(no extract)')}"]. *)
Definition doc_entry (d : doc) : text :=
  str "File: " ++ fmt_opt (doc_name d) ++ [newline]
  ++ default (str "(no extract)") (doc_text d).

Definition generate_prompt (theme class_name subject : text)
    (user_docs : list doc) (counts : list (text * json)) : text :=
  let docs_text :=
    match user_docs with
    | [] => str "No user documents provided."
    | _ :: _ => Py.join [newline] (map doc_entry user_docs)
    end in
  let counts_text := Json.dumps (JObj counts) in
  lines ["You are an expert ICSE teacher for 8th Standard Physics. Create comprehensive study material based on the following:";
       blank;
       "Theme: "]
  ++ theme
  ++ lines [blank;
       "Class: "]
  ++ class_name
  ++ lines [blank;
       "Subject: "]
  ++ subject
  ++ lines [blank;
       "Board: ICSE";
       blank;
       "User provided documents (if any):";
       blank]
  ++ docs_text
  ++ lines [blank;
       blank;
       "Generation parameters (counts): "]
  ++ counts_text
  ++ lines [blank;
       blank;
       "Create ONLY content for ICSE 8th Standard Physics. Use the user documents to inform and enrich examples and questions where relevant.";
       blank;
       "Produce the following sections. Respect the requested number of items for each question type (counts) and organize by difficulty levels (EASY, MEDIUM, HARD, HARDEST) where applicable.";
       blank;
       "1. STUDY CONTENT & KEY POINTS: overview, 5-7 key learning points with explanations, important definitions, practical applications.";
       "2. MCQs: generate the specified total number of MCQs and split them across difficulty levels roughly evenly.";
       "3. TRUE OR FALSE: generate the specified total number and split across difficulties.";
       "4. FILL IN THE BLANKS: generate the specified total number and split across difficulties.";
       "5. SHORT Q&A (3-4 lines): generate the specified total number split by difficulties.";
       "6. MEDIUM Q&A (6-7 lines): generate the specified total number split by difficulties.";
       "7. LONG Q&A (10-20 lines): generate the specified total number split by difficulties.";
       blank;
       "Format the output clearly with headings for each section and difficulty, and include answers for all questions."].

(** The prompt a node of the study graph builds from the state. *)
Definition state_prompt (st : StudyMaterialState) : result text :=
  let? theme := get_str st "theme" in
  let? class_name := get_str st "class_name" in
  let? subject := get_str st "subject" in
  let? user_docs := get_docs st in
  let? counts := get_counts st in
  Ok (generate_prompt theme class_name subject user_docs counts).

(** The shape shared by the seven nodes: build the prompt, append the
    request for one section, call the client once, store the reply under
    the key of the section, return the state. *)
Definition section_node (llm : client) (suffix : list string) (key : string)
    (st : StudyMaterialState) : M llm StudyMaterialState :=
  let! base := lift (state_prompt st) in
  let prompt := base ++ lines suffix in
  let! content := llm_invoke llm prompt in
  ret (<[key := VStr content]> st).

Definition generate_study_content (llm : client)
  : StudyMaterialState -> M llm StudyMaterialState :=
  section_node llm
    [blank; blank; "Now provide the STUDY CONTENT & KEY POINTS section only."]
    "study_content".

Definition generate_mcqs (llm : client)
  : StudyMaterialState -> M llm StudyMaterialState :=
  section_node llm
    [blank; blank; "Now provide the MCQs section only, respecting the requested counts."]
    "mcqs".

Definition generate_true_false (llm : client)
  : StudyMaterialState -> M llm StudyMaterialState :=
  section_node llm
    [blank; blank; "Now provide the True/False section only, respecting the requested counts."]
    "true_false".

Definition generate_fill_blanks (llm : client)
  : StudyMaterialState -> M llm StudyMaterialState :=
  section_node llm
    [blank; blank; "Now provide the Fill-in-the-Blanks section only, respecting the requested counts."]
    "fill_blanks".

Definition generate_short_qa (llm : client)
  : StudyMaterialState -> M llm StudyMaterialState :=
  section_node llm
    [blank; blank; "Now provide the Short Q&A section only, respecting the requested counts and length."]
    "short_qa".

Definition generate_medium_qa (llm : client)
  : StudyMaterialState -> M llm StudyMaterialState :=
  section_node llm
    [blank; blank; "Now provide the Medium Q&A section only, respecting the requested counts and length."]
    "medium_qa".

Definition generate_long_qa (llm : client)
  : StudyMaterialState -> M llm StudyMaterialState :=
  section_node llm
    [blank; blank; "Now provide the Long Q&A section only, respecting the requested counts and length."]
    "long_qa".

Definition build_study_graph (llm : client) : StateGraph llm :=
  add_edge "generate_long_qa" END
  (add_edge "generate_medium_qa" "generate_long_qa"
  (add_edge "generate_short_qa" "generate_medium_qa"
  (add_edge "generate_fill_blanks" "generate_short_qa"
  (add_edge "generate_true_false" "generate_fill_blanks"
  (add_edge "generate_mcqs" "generate_true_false"
  (add_edge "generate_study_content" "generate_mcqs"
  (add_edge START "generate_study_content"
  (add_node "generate_long_qa" (generate_long_qa llm)
  (add_node "generate_medium_qa" (generate_medium_qa llm)
  (add_node "generate_short_qa" (generate_short_qa llm)
  (add_node "generate_fill_blanks" (generate_fill_blanks llm)
  (add_node "generate_true_false" (generate_true_false llm)
  (add_node "generate_mcqs" (generate_mcqs llm)
  (add_node "generate_study_content" (generate_study_content llm)
  (empty_graph llm))))))))))))))).

Definition study_graph (llm : client) : StateGraph llm := build_study_graph llm.

(** [generate_study_material(theme, class_name, subject, user_docs=None,
    counts=None)]; [x or d] on an optional list or dict is [default d x]. *)
Definition generate_study_material (llm : client)
    (theme class_name subject : text) (user_docs : option (list doc))
    (counts : option (list (text * json))) : M llm StudyMaterialState :=
  let initial_state : StudyMaterialState :=
    <["counts" := VJson (JObj (default [] counts))]>
    (<["user_docs" := VDocs (default [] user_docs)]>
    (<["long_qa" := VStr []]>
    (<["medium_qa" := VStr []]>
    (<["short_qa" := VStr []]>
    (<["fill_blanks" := VStr []]>
    (<["true_false" := VStr []]>
    (<["mcqs" := VStr []]>
    (<["study_content" := VStr []]>
    (<["prompt" := VStr []]>
    (<["subject" := VStr subject]>
    (<["class_name" := VStr class_name]>
    (<["theme" := VStr theme]> ∅)))))))))))) in
  graph_invoke (study_graph llm) initial_state.

(** The keys of [StudyMaterialState]: the seven sections, and the fields of
    the request. *)
Definition section_keys : list string :=
  ["study_content"; "mcqs"; "true_false"; "fill_blanks"; "short_qa";
   "medium_qa"; "long_qa"]%string.

Definition request_keys : list string :=
  ["theme"; "class_name"; "subject"; "prompt"; "user_docs"; "counts"]%string.

(* ===================================================================== *)
(** * ICSE_8th_Physics_test_agent.py *)
(* ===================================================================== *)

Definition generate_test_prompt (theme class_name subject : text)
    (num_mcq num_true_false num_fill_blanks num_short_qa num_medium_qa
     num_long_qa : Z) : text :=
  lines ["You are an expert ICSE 8th Standard Physics teacher. Create a comprehensive test for the following topic:";
       blank;
       "Theme: "]
  ++ theme
  ++ lines [blank;
       "Class: "]
  ++ class_name
  ++ lines [blank;
       "Subject: "]
  ++ subject
  ++ lines [blank;
       "Board: ICSE";
       blank;
       "Generate EXACTLY the following number of questions for each section, with questions organized by difficulty levels (EASY, MEDIUM, HARD, HARDEST). Distribute questions roughly evenly across difficulty levels for each section.";
       blank;
       "REQUIREMENTS:";
       "1. MCQs: Generate "]
  ++ Json.int_repr num_mcq
  ++ lines [" multiple choice questions (4 options each, clearly mark correct answer)";
       "2. TRUE OR FALSE: Generate "]
  ++ Json.int_repr num_true_false
  ++ lines [" true/false statements";
       "3. FILL IN THE BLANKS: Generate "]
  ++ Json.int_repr num_fill_blanks
  ++ lines [" fill-in-the-blank questions";
       "4. SHORT Q&A (3-4 lines): Generate "]
  ++ Json.int_repr num_short_qa
  ++ lines [" short question & answer pairs";
       "5. MEDIUM Q&A (6-7 lines): Generate "]
  ++ Json.int_repr num_medium_qa
  ++ lines [" medium question & answer pairs";
       "6. LONG Q&A (10-20 lines): Generate "]
  ++ Json.int_repr num_long_qa
  ++ lines [" long question & answer pairs";
       blank;
       "Return the output as a valid JSON with this structure:";
       "{";
       "    ^mcqs^: {";
       "        ^EASY^: [";
       "            {^question^: ^...^, ^options^: [^A^, ^B^, ^C^, ^D^], ^answer^: ^A^, ^explanation^: ^...^}";
       "        ],";
       "        ^MEDIUM^: [...],";
       "        ^HARD^: [...],";
       "        ^HARDEST^: [...]";
       "    },";
       "    ^true_false^: {";
       "        ^EASY^: [";
       "            {^statement^: ^...^, ^answer^: true/false, ^explanation^: ^...^}";
       "        ],";
       "        ...";
       "    },";
       "    ^fill_blanks^: {";
       "        ^EASY^: [";
       "            {^question^: ^... _____ ...^, ^answer^: ^word^, ^explanation^: ^...^}";
       "        ],";
       "        ...";
       "    },";
       "    ^short_qa^: {";
       "        ^EASY^: [";
       "            {^question^: ^...^, ^answer^: ^...^, ^points^: 1}";
       "        ],";
       "        ...";
       "    },";
       "    ^medium_qa^: {";
       "        ^EASY^: [";
       "            {^question^: ^...^, ^answer^: ^...^, ^points^: 3}";
       "        ],";
       "        ...";
       "    },";
       "    ^long_qa^: {";
       "        ^EASY^: [";
       "            {^question^: ^...^, ^answer^: ^...^, ^points^: 5}";
       "        ],";
       "        ...";
       "    }";
       "}";
       blank;
       "Ensure all content is appropriate for 8th Standard ICSE Physics syllabus. Make questions comprehensive and test understanding."].

(** The prompt [generate_test_questions] builds from the state. *)
Definition test_state_prompt (st : TestState) : result text :=
  let? theme := get_str st "theme" in
  let? class_name := get_str st "class_name" in
  let? subject := get_str st "subject" in
  let? num_mcq := get_int st "num_mcq" in
  let? num_true_false := get_int st "num_true_false" in
  let? num_fill_blanks := get_int st "num_fill_blanks" in
  let? num_short_qa := get_int st "num_short_qa" in
  let? num_medium_qa := get_int st "num_medium_qa" in
  let? num_long_qa := get_int st "num_long_qa" in
  Ok (generate_test_prompt theme class_name subject num_mcq num_true_false
        num_fill_blanks num_short_qa num_medium_qa num_long_qa).

Definition generate_test_questions (llm : client) (st : TestState)
  : M llm TestState :=
  let! prompt := lift (test_state_prompt st) in
  let! response_text := llm_invoke llm prompt in
  let! questions := lift (parse_response raw_response response_text) in
  ret (<["questions" := VJson questions]> st).

Definition build_test_graph (llm : client) : StateGraph llm :=
  add_edge "generate_test_questions" END
  (add_edge START "generate_test_questions"
  (add_node "generate_test_questions" (generate_test_questions llm)
  (empty_graph llm))).

Definition test_graph (llm : client) : StateGraph llm := build_test_graph llm.

(** [generate_test(theme, class_name, subject, num_mcq=5, num_true_false=5,
    num_fill_blanks=5, num_short_qa=3, num_medium_qa=2, num_long_qa=1)],
    every count given. *)
Definition generate_test (llm : client) (theme class_name subject : text)
    (num_mcq num_true_false num_fill_blanks num_short_qa num_medium_qa
     num_long_qa : Z) : M llm TestState :=
  let initial_state : TestState :=
    <["corrections" := VJson (JObj [])]>
    (<["user_answers" := VJson (JObj [])]>
    (<["questions" := VJson (JObj [])]>
    (<["num_long_qa" := VInt num_long_qa]>
    (<["num_medium_qa" := VInt num_medium_qa]>
    (<["num_short_qa" := VInt num_short_qa]>
    (<["num_fill_blanks" := VInt num_fill_blanks]>
    (<["num_true_false" := VInt num_true_false]>
    (<["num_mcq" := VInt num_mcq]>
    (<["subject" := VStr subject]>
    (<["class_name" := VStr class_name]>
    (<["theme" := VStr theme]> ∅))))))))))) in
  graph_invoke (test_graph llm) initial_state.

(** The f-string of [evaluate_answers]. *)
Definition evaluation_prompt (questions user_answers : json) : text :=
  lines ["You are an ICSE Physics teacher evaluating student answers.";
     blank;
     "QUESTIONS AND CORRECT ANSWERS:";
     blank]
  ++ Json.dumps_indent 2 questions
  ++ lines [blank;
     blank;
     "STUDENT ANSWERS:";
     blank]
  ++ Json.dumps_indent 2 user_answers
  ++ lines [blank;
     blank;
     "Evaluate each answer and provide:";
     "1. Whether it's correct or incorrect";
     "2. Score for this answer (0 for completely wrong, partial for partially correct, full for correct)";
     "3. Detailed explanation of the correct answer";
     "4. What the student missed or did incorrectly";
     blank;
     "Return as JSON with structure:";
     "{";
     "    ^question_id^: {";
     "        ^is_correct^: true/false,";
     "        ^score^: 0/partial/full,";
     "        ^feedback^: ^...^,";
     "        ^correct_answer^: ^...^";
     "    }";
     "}"].

Definition evaluate_answers (llm : client) (questions user_answers : json)
  : M llm json :=
  let prompt := evaluation_prompt questions user_answers in
  let! response_text := llm_invoke llm prompt in
  lift (parse_response raw_feedback response_text).

(* ===================================================================== *)
(** * Clients used in the examples *)
(* ===================================================================== *)

(** A client that answers from a script, one reply per call, and raises
    once the script is used up. *)
Definition scripted : client := {|
  World := list (text + exn);
  invoke := fun _ w =>
    match w with
    | reply :: w' => (reply, w')
    | [] => (inr (ServiceError (str "no reply left")), [])
    end
|}.

(** The trace and the result of a run of [m] from the world [w]. *)
Definition run {llm : client} {A : Type} (m : M llm A) (w : World llm)
  : result A * list call :=
  let '(r, st) := m (w, []) in (r, snd st).

Definition outcome {llm : client} {A : Type} (m : M llm A) (w : World llm)
  : result A :=
  fst (run m w).

Definition trace {llm : client} {A : Type} (m : M llm A) (w : World llm)
  : list call :=
  snd (run m w).

Definition prompts (tr : list call) : list text := map call_prompt tr.

Definition failed (c : call) : bool :=
  match call_reply c with inl _ => false | inr _ => true end.

(* ===================================================================== *)
(** * The workflows read as sequences of calls *)
(* ===================================================================== *)

(** Nodes run one after the other, each writing over the state. *)
Fixpoint run_nodes {llm : client} (fs : list (state -> M llm state))
    (st : state) : M llm state :=
  match fs with
  | [] => ret st
  | f :: fs' =>
      let! upd := f st in
      run_nodes fs' (upd ∪ st)
  end.

(** A list of prompts, each sent once and in order, the reply to each
    stored under its key; the first failure ends the run. *)
Fixpoint ask_all (llm : client) (ps : list (text * string)) (st : state)
    (w : World llm) (tr : list call) : result state * store llm :=
  match ps with
  | [] => (Ok st, (w, tr))
  | (prompt, key) :: ps' =>
      match invoke llm prompt w with
      | (inl content, w') =>
          ask_all llm ps' (<[key := VStr content]> st) w'
            (tr ++ [{| call_prompt := prompt; call_reply := inl content |}])
      | (inr e, w') =>
          (Raise e,
           (w', tr ++ [{| call_prompt := prompt; call_reply := inr e |}]))
      end
  end.

(** The sections of the study material: the request that ends the prompt
    of each, and the key its text is stored under, in the order of the
    graph. *)
Definition sections : list (list string * string) :=
  [([blank; blank; "Now provide the STUDY CONTENT & KEY POINTS section only."],
    "study_content");
   ([blank; blank; "Now provide the MCQs section only, respecting the requested counts."],
    "mcqs");
   ([blank; blank; "Now provide the True/False section only, respecting the requested counts."],
    "true_false");
   ([blank; blank; "Now provide the Fill-in-the-Blanks section only, respecting the requested counts."],
    "fill_blanks");
   ([blank; blank; "Now provide the Short Q&A section only, respecting the requested counts and length."],
    "short_qa");
   ([blank; blank; "Now provide the Medium Q&A section only, respecting the requested counts and length."],
    "medium_qa");
   ([blank; blank; "Now provide the Long Q&A section only, respecting the requested counts and length."],
    "long_qa")]%string.

(** The seven prompts of a request, in the order of the graph. *)
Definition section_prompts (theme class_name subject : text)
    (user_docs : option (list doc)) (counts : option (list (text * json)))
  : list text :=
  map (fun s =>
         generate_prompt theme class_name subject (default [] user_docs)
           (default [] counts) ++ lines (fst s))
      sections.

(** The keys a node of the study graph reads. *)
Definition read_keys : list string :=
  ["theme"; "class_name"; "subject"; "user_docs"; "counts"]%string.

(** [d.get(k)] on a dict in insertion order. *)
Fixpoint dict_get (k : text) (d : list (text * json)) : option json :=
  match d with
  | [] => None
  | (k', v) :: d' => if bool_decide (k' = k) then Some v else dict_get k d'
  end.

(** A category entry with no question under any difficulty band. *)
Definition no_questions (entry : json) : bool :=
  match entry with
  | JObj bands =>
      forallb (fun kv => match snd kv with
                         | JArr (_ :: _) => false
                         | _ => true
                         end) bands
  | JArr (_ :: _) => false
  | _ => true
  end.

(** The [mcqs] entry of a bank, if present, holds no question. *)
Definition mcqs_empty (bank : json) : bool :=
  match bank with
  | JObj m =>
      match dict_get (str "mcqs") m with
      | Some entry => no_questions entry
      | None => true
      end
  | _ => true
  end.

(* ===================================================================== *)
(** * Texts and values used in the statements *)
(* ===================================================================== *)

(** ["```json\n" + body + "\n```"]. *)
Definition fenced (body : text) : text :=
  str "```json" ++ [newline] ++ body ++ [newline] ++ str "```".

(** [{"a": "```"}], an object whose serialization holds a fence. *)
Definition backticks_object : json := JObj [(str "a", JStr (str "```"))].

(** Seven replies, and a script whose third call fails. *)
Definition seven_replies : World scripted :=
  map (fun s => inl (str s))
    ["content"; "mcqs"; "true or false"; "blanks"; "short"; "medium";
     "long"]%string.

Definition failing_script : World scripted :=
  [inl (str "content"); inl (str "mcqs");
   inr (ServiceError (str "rate limit"))].

(** The record the study workflow returns on [seven_replies] for the topic
    of the examples, neither documents nor counts being given. *)
Definition example_record : state :=
  <["long_qa" := VStr (str "long")]>
  (<["medium_qa" := VStr (str "medium")]>
  (<["short_qa" := VStr (str "short")]>
  (<["fill_blanks" := VStr (str "blanks")]>
  (<["true_false" := VStr (str "true or false")]>
  (<["mcqs" := VStr (str "mcqs")]>
  (<["study_content" := VStr (str "content")]>
  (<["counts" := VJson (JObj [])]>
  (<["user_docs" := VDocs []]>
  (<["prompt" := VStr []]>
  (<["subject" := VStr (str "Physics")]>
  (<["class_name" := VStr (str "Class 8")]>
  (<["theme" := VStr (str "Force and Pressure")]> ∅)))))))))))).

(** A reply with one multiple choice question. *)
Definition mcq_reply : text :=
  tmpl "{^mcqs^: {^EASY^: [{^question^: ^What is force?^, ^options^: [^A^, ^B^, ^C^, ^D^], ^answer^: ^A^, ^explanation^: ^...^}]}}".

(* ===================================================================== *)
(** * Predicates used in the statements *)
(* ===================================================================== *)

(** What a scanner may answer on the text [s]: a value with the text left,
    which is a proper suffix of [s], and a property [Q] of the value;
    [JSONDecodeError] and no other exception; [OutOfFuel] only when the
    bound was too small ([fuel_ok] fails). *)
Definition scan_spec (Q : json -> Prop) (fuel_ok : Prop) (s : text)
    (r : result (json * text)) : Prop :=
  match r with
  | Ok (v, rest) =>
      rest `suffix_of` s /\ (length rest < length s)%nat /\ Q v
  | Raise e => e = JSONDecodeError
  | Unmodelled => True
  | OutOfFuel => ~ fuel_ok
  end.

(* ===================================================================== *)
(** Induction on JSON values, with the hypothesis for every item of an
    array and every member of an object. *)
Section JsonInduction.

Variable P : json -> Prop.
Hypothesis Hnull : P JNull.
Hypothesis Hbool : forall b, P (JBool b).
Hypothesis Hint : forall n, P (JInt n).
Hypothesis Hstr : forall s, P (JStr s).
Hypothesis Harr : forall items, Forall P items -> P (JArr items).
Hypothesis Hobj :
  forall members, Forall (fun kv => P (snd kv)) members -> P (JObj members).

Fixpoint json_ind (v : json) : P v :=
  match v with
  | JNull => Hnull
  | JBool b => Hbool b
  | JInt n => Hint n
  | JStr s => Hstr s
  | JArr items =>
      Harr items
        ((fix all (l : list json) : Forall P l :=
            match l with
            | [] => List.Forall_nil P
            | x :: l' => List.Forall_cons P x l' (json_ind x) (all l')
            end) items)
  | JObj members =>
      Hobj members
        ((fix all (l : list (text * json)) : Forall (fun kv => P (snd kv)) l :=
            match l with
            | [] => List.Forall_nil _
            | kv :: l' =>
                List.Forall_cons (fun kv => P (snd kv)) kv l'
                  (json_ind (snd kv)) (all l')
            end) members)
  end.

End JsonInduction.

(* ===================================================================== *)
(** * app.py: reading an upload, the documents kept, the outputs saved *)
(* ===================================================================== *)

Module PyStr.

(** [c.lower()] for a code point below 256: the letters A to Z and the
    capital letters of Latin-1, U+00C0 to U+00DE but the sign U+00D7. *)
Definition lower_char (c : ascii) : ascii :=
  let n := N_of_ascii c in
  if ((65 <=? n) && (n <=? 90)
      || (192 <=? n) && (n <=? 222) && negb (n =? 215))%N
  then ascii_of_N (n + 32)
  else c.

(** [s.lower()]. *)
Definition lower (s : text) : text := map lower_char s.

(** [s.endswith(suffix)]. *)
Definition endswith (suffix s : text) : bool :=
  Py.startswith (rev suffix) (rev s).

(** [s.endswith((x, y, ...))]. *)
Definition endswith_any (suffixes : list text) (s : text) : bool :=
  existsb (fun suffix => endswith suffix s) suffixes.

End PyStr.

Module Codec.

(** A continuation byte of UTF-8. *)
Definition continuation (n : N) : bool := ((128 <=? n) && (n <=? 191))%N.

(** [data.decode('utf-8')]: the code points of a well-formed sequence,
    [None] where Python raises [UnicodeDecodeError] (a byte that starts no
    sequence, a sequence cut short, an overlong form, a surrogate, a code
    point above U+10FFFF). *)
Fixpoint utf_8 (data : list Byte.byte) : option (list N) :=
  match data with
  | [] => Some []
  | b0 :: r0 =>
      let n0 := Byte.to_N b0 in
      if (n0 <? 128)%N then cons n0 <$> utf_8 r0
      else if ((194 <=? n0) && (n0 <=? 223))%N then
        match r0 with
        | b1 :: r1 =>
            let n1 := Byte.to_N b1 in
            if continuation n1
            then cons ((n0 - 192) * 64 + (n1 - 128))%N <$> utf_8 r1
            else None
        | [] => None
        end
      else if ((224 <=? n0) && (n0 <=? 239))%N then
        match r0 with
        | b1 :: b2 :: r2 =>
            let n1 := Byte.to_N b1 in
            let n2 := Byte.to_N b2 in
            let low := if (n0 =? 224)%N then 160%N else 128%N in
            let high := if (n0 =? 237)%N then 159%N else 191%N in
            if ((low <=? n1) && (n1 <=? high))%N && continuation n2
            then cons ((n0 - 224) * 4096 + (n1 - 128) * 64 + (n2 - 128))%N
                   <$> utf_8 r2
            else None
        | _ => None
        end
      else if ((240 <=? n0) && (n0 <=? 244))%N then
        match r0 with
        | b1 :: b2 :: b3 :: r3 =>
            let n1 := Byte.to_N b1 in
            let n2 := Byte.to_N b2 in
            let n3 := Byte.to_N b3 in
            let low := if (n0 =? 240)%N then 144%N else 128%N in
            let high := if (n0 =? 244)%N then 143%N else 191%N in
            if ((low <=? n1) && (n1 <=? high))%N && continuation n2
               && continuation n3
            then cons ((n0 - 240) * 262144 + (n1 - 128) * 4096
                       + (n2 - 128) * 64 + (n3 - 128))%N
                   <$> utf_8 r3
            else None
        | _ => None
        end
      else None
  end.

(** [data.decode('latin-1', errors='ignore')]: every byte is a character,
    there is nothing to ignore. *)
Definition latin_1 (data : list Byte.byte) : text := map ascii_of_byte data.

(** The decoded string as a text of the embedding. *)
Definition text_of_code_points (code_points : list N) : result text :=
  if forallb (fun n => (n <? 256)%N) code_points
  then Ok (map ascii_of_N code_points)
  else Unmodelled.

End Codec.

(** An upload of Streamlit: its name and its content ([getvalue()]). *)
Record UploadedFile : Type := {
  file_name : text;
  file_value : list Byte.byte
}.

(** What the app uses of PyPDF2 and python-docx: the text of each page of
    a PDF ([None] for a page that has none), the text of each paragraph of
    a document; [None] when the library raises. *)
Record readers : Type := {
  pdf_pages : list Byte.byte -> option (list (option text));
  docx_paragraphs : list Byte.byte -> option (list text)
}.

(** [text if text else None]. *)
Definition text_or_none (s : text) : option text :=
  match s with
  | [] => None
  | _ :: _ => Some s
  end.

Definition image_suffixes : list text :=
  [str ".png"; str ".jpg"; str ".jpeg"; str ".gif"; str ".bmp"].

(** [extract_text_from_upload(uploaded_file)].  Whatever is raised inside
    the [try] blocks is caught: the answer is a text or [None]. *)
Definition extract_text_from_upload (lib : readers)
    (uploaded_file : UploadedFile) : result (option text) :=
  let name_lower := PyStr.lower (file_name uploaded_file) in
  let data := file_value uploaded_file in
  if PyStr.endswith_any image_suffixes name_lower then Ok None
  else if PyStr.endswith (str ".pdf") name_lower then
    match pdf_pages lib data with
    | Some pages =>
        let text := Py.join [newline] (map (default []) pages) in
        Ok (text_or_none (Py.strip text))
    | None => Ok None
    end
  else if PyStr.endswith (str ".docx") name_lower then
    match docx_paragraphs lib data with
    | Some paragraphs =>
        let text := Py.join [newline] paragraphs in
        Ok (text_or_none (Py.strip text))
    | None => Ok None
    end
  else
    match Codec.utf_8 data with
    | Some code_points =>
        let? text := Codec.text_of_code_points code_points in
        Ok (text_or_none (Py.strip text))
    | None => Ok (text_or_none (Py.strip (Codec.latin_1 data)))
    end.

(** The loop of the upload tab, run when files are uploaded: the documents
    kept for the generator, in the order of the uploads.  A document is
    the dict stored, read at the keys [name] and [text]; what the loop
    writes on the page and in the database is not part of the embedding. *)
Fixpoint store_uploads (lib : readers) (uploaded_files : list UploadedFile)
    (stored : list doc) : result (list doc) :=
  match uploaded_files with
  | [] => Ok stored
  | file :: files =>
      let? text_content := extract_text_from_upload lib file in
      match text_content with
      | Some ((_ :: _) as text_content) =>
          let text_content :=
            if 12000 <? Py.len text_content
            then Py.slice text_content 0 12000
            else text_content in
          store_uploads lib files
            (stored ++ [{| doc_name := Some (file_name file);
                           doc_text := Some text_content |}])
      | _ => store_uploads lib files stored
      end
  end.

(** [if text_content:] on what [extract_text_from_upload] answers for
    a file: a text that is not empty. *)
Definition gives_text (lib : readers) (file : UploadedFile) : bool :=
  match extract_text_from_upload lib file with
  | Ok (Some (_ :: _)) => true
  | _ => false
  end.

(** [result.get(key, '')] on the state a workflow returned, as a JSON
    value. *)
Definition get_section (res : state) (key : string) : result json :=
  match res !! key with
  | Some (VStr s) => Ok (JStr s)
  | Some (VInt n) => Ok (JInt n)
  | Some (VJson j) => Ok j
  | Some (VDocs _) => Unmodelled
  | None => Ok (JStr [])
  end.

(** The dict [outputs] of the generate tab, which [save_generated_material]
    serializes with [json.dumps] and the history tab reads with
    [json.loads]. *)
Definition outputs (res : state) : result json :=
  let? study_content := get_section res "study_content" in
  let? mcqs := get_section res "mcqs" in
  let? true_false := get_section res "true_false" in
  let? fill_blanks := get_section res "fill_blanks" in
  let? short_qa := get_section res "short_qa" in
  let? medium_qa := get_section res "medium_qa" in
  let? long_qa := get_section res "long_qa" in
  Ok (JObj [(str "study_content", study_content);
            (str "mcqs", mcqs);
            (str "true_false", true_false);
            (str "fill_blanks", fill_blanks);
            (str "short_qa", short_qa);
            (str "medium_qa", medium_qa);
            (str "long_qa", long_qa)]).

(** The bytes of an ASCII literal. *)
Definition bytes_of (s : string) : list Byte.byte := list_byte_of_string s.

(** Readers that fail on every file, and two uploads, used in the
    examples. *)
Definition no_readers : readers :=
  {| pdf_pages := fun _ => None; docx_paragraphs := fun _ => None |}.

Definition notes_txt : UploadedFile :=
  {| file_name := str "notes.txt";
     file_value := bytes_of "  Sound is a wave.  " |}.

Definition diagram_png : UploadedFile :=
  {| file_name := str "Diagram.PNG"; file_value := bytes_of "not a picture" |}.

(** The key of the widget that takes the answer to a question of the test
    tab: [f"{prefix}_{difficulty}_{idx}"]. *)
Definition question_key (prefix difficulty : text) (idx : nat) : text :=
  prefix ++ str "_" ++ difficulty ++ str "_" ++ Json.int_repr (Z.of_nat idx).

Definition is_dict (q : json) : bool :=
  match q with
  | JObj _ => true
  | _ => false
  end.

(** [for idx, q in enumerate(questions)]: the keys of the questions of one
    difficulty.  The page reads each question with [q.get]; a value that
    is not a list of dicts is outside the embedding. *)
Definition band_keys (prefix : text) (band : text * json)
  : result (list text) :=
  let '(difficulty, questions) := band in
  match questions with
  | JArr items =>
      if forallb is_dict items
      then Ok (imap (fun idx _ => question_key prefix difficulty idx) items)
      else Unmodelled
  | _ => Unmodelled
  end.

(** [for difficulty, questions in test_data[category].items()]. *)
Fixpoint bands_keys (prefix : text) (bands : list (text * json))
  : result (list text) :=
  match bands with
  | [] => Ok []
  | band :: bands' =>
      let? keys := band_keys prefix band in
      let? keys' := bands_keys prefix bands' in
      Ok (keys ++ keys')
  end.

(** One block of the test tab: [if category in test_data: ...]. *)
Definition category_keys (test_data : list (text * json))
    (category prefix : text) : result (list text) :=
  match dict_get category test_data with
  | None => Ok []
  | Some (JObj bands) => bands_keys prefix bands
  | Some _ => Unmodelled
  end.

(** The keys under which the test tab stores the answers in
    [user_answers], in the order of the page: the six blocks of the tab,
    one for each category.  A bank that is not a dict, or whose shape
    makes the page raise, is outside the embedding; so is what the
    widgets do with the values. *)
Definition answer_keys (test_data : json) : result (list text) :=
  match test_data with
  | JObj members =>
      let? mcq := category_keys members (str "mcqs") (str "mcq") in
      let? tf := category_keys members (str "true_false") (str "tf") in
      let? fill := category_keys members (str "fill_blanks") (str "fill") in
      let? short := category_keys members (str "short_qa") (str "short") in
      let? medium := category_keys members (str "medium_qa") (str "medium") in
      let? long := category_keys members (str "long_qa") (str "long") in
      Ok (mcq ++ tf ++ fill ++ short ++ medium ++ long)
  | _ => Unmodelled
  end.

(** The number of questions of a bank: the lists under each difficulty of
    each of the six categories. *)
Definition band_size (band : text * json) : nat :=
  match snd band with
  | JArr items => length items
  | _ => 0%nat
  end.

Definition category_size (test_data : list (text * json)) (category : text)
  : nat :=
  match dict_get category test_data with
  | Some (JObj bands) => list_sum (map band_size bands)
  | _ => 0%nat
  end.

Definition bank_size (test_data : json) : nat :=
  match test_data with
  | JObj members =>
      list_sum (map (category_size members)
                  [str "mcqs"; str "true_false"; str "fill_blanks";
                   str "short_qa"; str "medium_qa"; str "long_qa"])
  | _ => 0%nat
  end.
(* ===================================================================== *)
(** * Facts about the string operations *)
(* ===================================================================== *)

Section PyFacts.

Implicit Types (s sub a b p : text) (c : ascii).

Lemma startswith_app p s : Py.startswith p (p ++ s) = true.
Proof.
  induction p as [|x p IH]; simpl; [done|].
  by rewrite Ascii.eqb_refl, IH.
Qed.

Lemma startswith_length p s :
  Py.startswith p s = true -> (length p <= length s)%nat.
Proof.
  revert s; induction p as [|x p IH]; intros [|y s]; simpl; try lia; try done.
  intros [_ H]%andb_true_iff. apply IH in H. lia.
Qed.

(** A needle cannot lie across a character it does not contain. *)
Lemma startswith_sep sub a c b :
  c ∉ sub -> Py.startswith sub (a ++ c :: b) = Py.startswith sub a.
Proof.
  revert a; induction sub as [|x sub IH]; intros a Hc; [by destruct a|].
  apply not_elem_of_cons in Hc as [Hx Hc].
  destruct a as [|y a]; simpl.
  - destruct (Ascii.eqb_spec x c); [congruence | done].
  - by rewrite IH.
Qed.

Lemma index_of_nil sub : sub <> [] -> Py.index_of sub [] = None.
Proof. by destruct sub. Qed.

Lemma index_of_sep sub a c b :
  sub <> [] -> c ∉ sub ->
  Py.index_of sub (a ++ c :: b) =
    match Py.index_of sub a with
    | Some i => Some i
    | None => (fun i => length a + 1 + i)%nat <$> Py.index_of sub b
    end.
Proof.
  intros Hne Hc. induction a as [|y a IH].
  - rewrite index_of_nil by done. simpl.
    change (c :: b) with ([] ++ c :: b). rewrite startswith_sep by done.
    destruct sub; [done|]. simpl. by destruct (Py.index_of _ b).
  - simpl Py.index_of at 2.
    change ((y :: a) ++ c :: b) with (y :: (a ++ c :: b)).
    simpl Py.index_of at 1.
    change (y :: (a ++ c :: b)) with ((y :: a) ++ c :: b).
    rewrite startswith_sep by done.
    destruct (Py.startswith sub (y :: a)); [done|].
    rewrite IH. destruct (Py.index_of sub a); simpl; [done|].
    by destruct (Py.index_of sub b).
Qed.

Lemma index_of_bound sub s i :
  Py.index_of sub s = Some i -> (i + length sub <= length s)%nat.
Proof.
  revert i; induction s as [|y s IH]; intros i; simpl.
  - destruct (Py.startswith sub []) eqn:E; [|done].
    intros [= <-]. apply startswith_length in E. simpl in *. lia.
  - destruct (Py.startswith sub (y :: s)) eqn:E.
    + intros [= <-]. apply startswith_length in E. simpl in *. lia.
    + destruct (Py.index_of sub s) as [j|]; [|done].
      intros [= <-]. specialize (IH j eq_refl). simpl. lia.
Qed.

Lemma index_of_absent c s : c ∉ s -> Py.index_of [c] s = None.
Proof.
  induction s as [|y s IH]; [done|].
  intros [Hy Hs]%not_elem_of_cons. simpl.
  destruct (Ascii.eqb_spec c y); [done|]. by rewrite IH.
Qed.

Lemma index_of_present c s : Py.index_of [c] s = None -> c ∉ s.
Proof.
  induction s as [|y s IH]; [intros _; apply not_elem_of_nil|].
  simpl. destruct (Ascii.eqb_spec c y); [done|].
  destruct (Py.index_of [c] s); [done|]. intros _.
  apply not_elem_of_cons. auto.
Qed.

Lemma rindex_of_absent c s : c ∉ s -> Py.rindex_of [c] s = None.
Proof.
  induction s as [|y s IH]; [done|].
  intros [Hy Hs]%not_elem_of_cons. simpl. rewrite IH by done.
  by destruct (Ascii.eqb_spec c y).
Qed.

(** The last occurrence of a character. *)
Lemma rindex_of_last c a b :
  c ∉ b -> Py.rindex_of [c] (a ++ c :: b) = Some (length a).
Proof.
  intros Hb. induction a as [|y a IH]; simpl.
  - rewrite rindex_of_absent by done. by rewrite Ascii.eqb_refl.
  - by rewrite IH.
Qed.

(** The first occurrence of a character. *)
Lemma index_of_first c a b :
  c ∉ a -> Py.index_of [c] (a ++ c :: b) = Some (length a).
Proof.
  intros Ha. induction a as [|y a IH]; simpl.
  - by rewrite Ascii.eqb_refl.
  - apply not_elem_of_cons in Ha as [Hy Ha].
    destruct (Ascii.eqb_spec c y); [done|]. by rewrite IH.
Qed.

Lemma len_app a b : Py.len (a ++ b) = Py.len a + Py.len b.
Proof. unfold Py.len. rewrite length_app. lia. Qed.

Lemma len_nonneg s : 0 <= Py.len s.
Proof. unfold Py.len. lia. Qed.

(** A slice between two positions inside the text. *)
Lemma slice_middle a b (r : text) :
  Py.slice (a ++ b ++ r) (Py.len a) (Py.len a + Py.len b) = b.
Proof.
  unfold Py.slice, Py.adjust. rewrite !len_app.
  pose proof (len_nonneg a). pose proof (len_nonneg b).
  pose proof (len_nonneg r).
  destruct (Z.ltb_spec (Py.len a) 0); [lia|].
  destruct (Z.ltb_spec (Py.len a + Py.len b) 0); [lia|].
  rewrite !Z.min_r by lia.
  replace (Py.len a + Py.len b - Py.len a) with (Py.len b) by lia.
  unfold Py.len. rewrite !Nat2Z.id.
  rewrite drop_app_length. by rewrite take_app_length.
Qed.

(** A slice that stops one character before the end. *)
Lemma slice_to_minus_one s (k : nat) :
  (k <= length s)%nat ->
  Py.slice s (Z.of_nat k) (-1) = drop k (removelast s).
Proof.
  intros Hk. unfold Py.slice, Py.adjust, Py.len.
  destruct (Z.ltb_spec (Z.of_nat k) 0); [lia|].
  change (-1 <? 0) with true. cbv iota.
  rewrite Z.min_r by lia. rewrite Nat2Z.id.
  rewrite removelast_firstn_len.
  destruct (decide (k <= Nat.pred (length s))%nat) as [Hle|Hgt].
  - rewrite take_drop_commute. f_equal. f_equal. lia.
  - replace (Z.to_nat _) with 0%nat by lia.
    rewrite take_0. symmetry. apply drop_ge. rewrite length_take. lia.
Qed.

Lemma lstrip_nonspace c s : Py.isspace c = false -> Py.lstrip (c :: s) = c :: s.
Proof. intros H. simpl. by rewrite H. Qed.

Lemma lstrip_space c s : Py.isspace c = true -> Py.lstrip (c :: s) = Py.lstrip s.
Proof. intros H. simpl. by rewrite H. Qed.

(** Stripping a text that is white space around a core delimited by two
    characters that are not white space. *)
Lemma strip_core (l r : text) c mid c' :
  forallb Py.isspace l = true -> forallb Py.isspace r = true ->
  Py.isspace c = false -> Py.isspace c' = false ->
  Py.strip (l ++ (c :: mid ++ [c']) ++ r) = c :: mid ++ [c'].
Proof.
  intros Hl Hr Hc Hc'. unfold Py.strip, Py.rstrip.
  assert (Hls : forall t, Py.lstrip (l ++ c :: t) = c :: t).
  { intros t. induction l as [|x l IH]; [by apply lstrip_nonspace|].
    simpl in Hl. apply andb_true_iff in Hl as [Hx Hl].
    simpl. rewrite Hx. auto. }
  assert (Hrs : forall t, Py.lstrip (rev r ++ c' :: t) = c' :: t).
  { intros t. rewrite <- (rev_involutive r) in Hr.
    induction (rev r) as [|x l' IH]; [by apply lstrip_nonspace|].
    simpl. simpl in Hr. rewrite forallb_app in Hr.
    apply andb_true_iff in Hr as [Hl' Hx]. simpl in Hx.
    apply andb_true_iff in Hx as [Hx _]. rewrite Hx. auto. }
  set (X := c :: mid ++ [c']).
  assert (E1 : Py.lstrip (l ++ X ++ r) = X ++ r) by apply Hls.
  assert (E2 : rev X = c' :: rev mid ++ [c]).
  { unfold X. simpl. by rewrite rev_app_distr. }
  rewrite E1, rev_app_distr, E2, Hrs, <- E2. apply rev_involutive.
Qed.

Lemma strip_subseteq s : Py.strip s ⊆ s.
Proof.
  assert (Hl : forall t, Py.lstrip t ⊆ t).
  { induction t as [|x t IH]; [done|]. simpl. destruct (Py.isspace x); [|done].
    intros y Hy. apply elem_of_cons. right. by apply IH. }
  unfold Py.strip, Py.rstrip. intros x Hx.
  apply list_elem_of_In, in_rev, list_elem_of_In, Hl in Hx.
  apply list_elem_of_In, in_rev, list_elem_of_In, Hl in Hx. done.
Qed.

Lemma slice_subseteq s i j : Py.slice s i j ⊆ s.
Proof.
  unfold Py.slice. intros x Hx.
  by apply subseteq_take, subseteq_drop in Hx.
Qed.

End PyFacts.

(* ===================================================================== *)
(** * Facts about the JSON encoder and decoder *)
(* ===================================================================== *)

(** Case analysis on a character, keeping the cases the context allows. *)
Ltac ascii_cases c :=
  destruct c as [[] [] [] [] [] [] [] []]; try discriminate.

Section IntFacts.

Import Json.

Lemma digits_of_uint_digits d : forallb is_digit (digits_of_uint d) = true.
Proof. induction d; simpl; auto. Qed.

Lemma uint_of_digits_of_uint d : uint_of_digits (digits_of_uint d) = d.
Proof. induction d; simpl; congruence. Qed.

(** The decimal writing of a positive number starts with a digit other
    than zero. *)
Lemma to_uint_head p :
  match Pos.to_uint p with
  | Decimal.Nil | Decimal.D0 _ => False
  | _ => True
  end.
Proof.
  pose proof (DecimalPos.Unsigned.to_of (Pos.to_uint p)) as H.
  rewrite DecimalPos.Unsigned.of_to in H. simpl in H.
  pose proof (DecimalPos.Unsigned.to_uint_nonzero p) as Hz.
  pose proof (DecimalFacts.nzhead_nonzero (Pos.to_uint p)) as Hn.
  unfold Decimal.unorm in H.
  destruct (Decimal.nzhead (Pos.to_uint p)) eqn:E; rewrite H in *; try done.
  by apply (Hn u).
Qed.

Lemma span_digits_app ds rest :
  forallb is_digit ds = true -> number_stop rest = true ->
  span_digits (ds ++ rest) = (ds, rest).
Proof.
  intros Hds Hrest. induction ds as [|c ds IH].
  - destruct rest as [|c rest]; [done|]. unfold number_stop in Hrest.
    cbn [app span_digits].
    destruct (is_digit c); simpl in *; [discriminate | reflexivity].
  - simpl in Hds. apply andb_true_iff in Hds as [Hc Hds].
    cbn [app span_digits]. by rewrite Hc, IH.
Qed.

Lemma match_frac_stop rest :
  number_stop rest = true -> match_frac rest = (false, rest).
Proof. destruct rest as [|c rest]; [done|]. simpl. by ascii_cases c. Qed.

Lemma match_exp_stop rest :
  number_stop rest = true -> match_exp rest = (false, rest).
Proof. destruct rest as [|c rest]; [done|]. simpl. by ascii_cases c. Qed.

Lemma match_number_int_repr n rest :
  number_stop rest = true ->
  match_number (int_repr n ++ rest) = Some (int_repr n, false, rest).
Proof.
  intros Hrest. unfold match_number, int_repr.
  destruct n as [|p|p]; simpl Z.to_int; cbv iota.
  - simpl. by rewrite match_frac_stop, match_exp_stop.
  - pose proof (to_uint_head p) as Hh.
    destruct (Pos.to_uint p) eqn:E; try done; simpl in *;
      rewrite span_digits_app in * by (done || apply digits_of_uint_digits);
      by rewrite match_frac_stop, match_exp_stop.
  - pose proof (to_uint_head p) as Hh.
    destruct (Pos.to_uint p) eqn:E; try done; simpl in *;
      rewrite span_digits_app in * by (done || apply digits_of_uint_digits);
      by rewrite match_frac_stop, match_exp_stop.
Qed.

Lemma parse_int_repr n : parse_int (int_repr n) = n.
Proof.
  rewrite <- (DecimalZ.of_to n) at 2. unfold int_repr, parse_int.
  destruct (Z.to_int n) as [d|d] eqn:E.
  - destruct n as [|p|p]; simpl in E; try done.
    + by injection E as <-.
    + injection E as <-. pose proof (to_uint_head p) as Hh.
      destruct (Pos.to_uint p) eqn:E'; try done; simpl;
        by rewrite uint_of_digits_of_uint.
  - by rewrite uint_of_digits_of_uint.
Qed.

(** The first character of the writing of an integer. *)
Lemma int_repr_head n :
  exists c tl, int_repr n = c :: tl /\ (is_digit c || Ascii.eqb c "-") = true.
Proof.
  unfold int_repr. destruct n as [|p|p]; simpl.
  - by eexists _, _.
  - pose proof (to_uint_head p) as Hh.
    destruct (Pos.to_uint p); try done; by eexists _, _.
  - by eexists _, _.
Qed.

End IntFacts.

Section StringFacts.

Import Json.

(** Decoding the replacement of a character gives the character back. *)
Lemma scanstring_escape c tail :
  scanstring (escape_char c ++ tail) =
    let? (chunks, rest) := scanstring tail in Ok (c :: chunks, rest).
Proof. ascii_cases c; reflexivity. Qed.

Lemma scanstring_encode s rest :
  scanstring (flat_map escape_char s ++ dquote :: rest) = Ok (s, rest).
Proof.
  induction s as [|c s IH]; [done|].
  cbn [flat_map]. rewrite <- app_assoc, scanstring_escape, IH. done.
Qed.

End StringFacts.


Section RoundTrip.

Import Json.

Lemma wf_json_arr items : wf_json (JArr items) <-> Forall wf_json items.
Proof.
  simpl. induction items as [|x l IH]; simpl.
  - split; [constructor | done].
  - rewrite Forall_cons_iff, IH. done.
Qed.

Lemma wf_json_obj members :
  wf_json (JObj members) <->
  NoDup (map fst members) /\ Forall (fun kv => wf_json (snd kv)) members.
Proof.
  simpl. apply and_iff_compat_l.
  induction members as [|x l IH]; simpl.
  - split; [constructor | done].
  - rewrite Forall_cons_iff, IH. done.
Qed.

Lemma join_cons sep x (l : list text) :
  Py.join sep (x :: l) = x ++ flat_map (fun y => sep ++ y) l.
Proof.
  revert x; induction l as [|y l IH]; intros x.
  - simpl. by rewrite app_nil_r.
  - change (Py.join sep (x :: y :: l)) with (x ++ sep ++ Py.join sep (y :: l)).
    rewrite IH. simpl. by rewrite <- !app_assoc.
Qed.

Lemma value_start_facts c :
  value_start c = true ->
  is_ws c = false /\ Ascii.eqb c "]" = false /\ Ascii.eqb c "}" = false
  /\ Ascii.eqb c "," = false /\ Ascii.eqb c ":" = false.
Proof. ascii_cases c; done. Qed.

Lemma encode_head indent lvl v :
  exists c tl, encode indent lvl v = c :: tl /\ value_start c = true.
Proof.
  destruct v as [|[]|n|s|[|x l]|[|kv m]]; try (by eexists _, _).
  destruct (int_repr_head n) as (c & tl & E & H).
  exists c, tl. split; [done|]. unfold value_start.
  apply orb_true_iff in H as [-> | ->]; simpl; [done|].
  by rewrite orb_true_r.
Qed.

Lemma skip_ws_head c s : is_ws c = false -> skip_ws (c :: s) = c :: s.
Proof. intros H. simpl. by rewrite H. Qed.

Lemma skip_ws_encode indent lvl v rest :
  skip_ws (encode indent lvl v ++ rest) = encode indent lvl v ++ rest.
Proof.
  destruct (encode_head indent lvl v) as (c & tl & -> & H).
  apply value_start_facts in H as (H & _). by apply skip_ws_head.
Qed.

(** A number is scanned as [NUMBER_RE] matches it. *)
Lemma scan_once_number depth c tl integer rest :
  (is_digit c || Ascii.eqb c "-") = true ->
  match_number (c :: tl) = Some (integer, false, rest) ->
  scan_once (S depth) (c :: tl) = Ok (JInt (parse_int integer), rest).
Proof.
  intros Hc Hm. cbn [scan_once]. rewrite Hm.
  ascii_cases c; reflexivity.
Qed.

End RoundTrip.

Section LoopSteps.

Import Json.

Variable scan : text -> result (json * text).

Lemma JSONArray_loop_close n s values x t :
  scan s = Ok (x, "]"%char :: t) ->
  JSONArray_loop scan (S n) s values = Ok (JArr (values ++ [x]), t).
Proof. intros H. cbn [JSONArray_loop]. by rewrite H. Qed.

Lemma JSONArray_loop_comma n s values x t :
  scan s = Ok (x, ","%char :: t) ->
  JSONArray_loop scan (S n) s values =
    JSONArray_loop scan n (skip_ws t) (values ++ [x]).
Proof. intros H. cbn [JSONArray_loop]. by rewrite H. Qed.

Lemma JSONObject_loop_close n s pairs k v t1 t2 t3 :
  scanstring s = Ok (k, ":"%char :: t1) ->
  scan (skip_ws t1) = Ok (v, t2) ->
  skip_ws t2 = "}"%char :: t3 ->
  JSONObject_loop scan (S n) s pairs =
    Ok (JObj (dict_of_pairs (pairs ++ [(k, v)])), t3).
Proof.
  intros H1 H2 H3. cbn [JSONObject_loop]. rewrite H1. cbn [rbind].
  change (skip_ws (":"%char :: t1)) with (":"%char :: t1). cbv beta iota.
  rewrite Ascii.eqb_refl, H2. cbn [rbind]. by rewrite H3.
Qed.

Lemma JSONObject_loop_comma n s pairs k v t1 t2 t3 t4 :
  scanstring s = Ok (k, ":"%char :: t1) ->
  scan (skip_ws t1) = Ok (v, t2) ->
  skip_ws t2 = ","%char :: t3 ->
  skip_ws t3 = dquote :: t4 ->
  JSONObject_loop scan (S n) s pairs =
    JSONObject_loop scan n t4 (pairs ++ [(k, v)]).
Proof.
  intros H1 H2 H3 H4. cbn [JSONObject_loop]. rewrite H1. cbn [rbind].
  change (skip_ws (":"%char :: t1)) with (":"%char :: t1). cbv beta iota.
  rewrite Ascii.eqb_refl, H2. cbn [rbind]. rewrite H3.
  change (Ascii.eqb "," "}") with false. cbv beta iota.
  rewrite Ascii.eqb_refl, H4. by rewrite Ascii.eqb_refl.
Qed.

End LoopSteps.

Section RoundTripLoops.

Import Json.

Variable scan : text -> result (json * text).
Variable enc : json -> text.

Hypothesis enc_head :
  forall v, exists c tl, enc v = c :: tl /\ value_start c = true.

Lemma skip_ws_enc v rest : skip_ws (enc v ++ rest) = enc v ++ rest.
Proof.
  destruct (enc_head v) as (c & tl & -> & H).
  apply value_start_facts in H as (H & _). by apply skip_ws_head.
Qed.

(** The loop of [JSONArray] reads back the items the encoder wrote. *)
Lemma JSONArray_loop_encode l :
  Forall (fun x => forall rest, number_stop rest = true ->
                   scan (enc x ++ rest) = Ok (x, rest)) l ->
  forall x n values rest,
    (forall rest', number_stop rest' = true ->
                   scan (enc x ++ rest') = Ok (x, rest')) ->
    (length l < n)%nat ->
    JSONArray_loop scan n
      (enc x
       ++ flat_map (fun y => ","%char :: " "%char :: enc y) l
       ++ "]"%char :: rest)
      values
    = Ok (JArr (values ++ x :: l), rest).
Proof.
  induction 1 as [|y l Hy Hl IH]; intros x n values rest Hx Hn;
    (destruct n as [|n]; [simpl in Hn; lia|]); cbn [flat_map].
  - by apply JSONArray_loop_close, Hx.
  - rewrite <- app_assoc. cbn [app].
    rewrite (JSONArray_loop_comma _ _ _ _ x
               (" "%char :: enc y
                ++ flat_map (fun y => ","%char :: " "%char :: enc y) l
                ++ "]"%char :: rest)) by (by apply Hx).
    change (skip_ws (" "%char :: ?t)) with (skip_ws t).
    rewrite skip_ws_enc.
    rewrite IH by (done || simpl in Hn; lia).
    by rewrite <- app_assoc.
Qed.

(** The loop of [JSONObject] reads back the members the encoder wrote;
    the text starts after the opening quote of the first key. *)
Lemma JSONObject_loop_encode m :
  Forall (fun kv => forall rest, number_stop rest = true ->
                    scan (enc (snd kv) ++ rest) = Ok (snd kv, rest)) m ->
  forall kv n pairs rest,
    (forall rest', number_stop rest' = true ->
                   scan (enc (snd kv) ++ rest') = Ok (snd kv, rest')) ->
    (length m < n)%nat ->
    JSONObject_loop scan n
      (flat_map escape_char (fst kv)
       ++ dquote :: ":"%char :: " "%char
          :: enc (snd kv)
             ++ flat_map
                  (fun y => ","%char :: " "%char :: dquote
                            :: flat_map escape_char (fst y)
                               ++ dquote :: ":"%char :: " "%char
                                  :: enc (snd y)) m
             ++ "}"%char :: rest)
      pairs
    = Ok (JObj (dict_of_pairs (pairs ++ kv :: m)), rest).
Proof.
  induction 1 as [|y l Hy Hl IH]; intros [k v] n pairs rest Hx Hn;
    (destruct n as [|n]; [simpl in Hn; lia|]);
    cbn [flat_map fst snd] in *.
  - eapply JSONObject_loop_close.
    + apply scanstring_encode.
    + change (skip_ws (" "%char :: ?t)) with (skip_ws t).
      rewrite skip_ws_enc. by apply Hx.
    + done.
  - rewrite <- app_assoc. cbn [app]. rewrite <- app_assoc. cbn [app].
    erewrite JSONObject_loop_comma; cycle 1.
    + apply scanstring_encode.
    + change (skip_ws (" "%char :: ?t)) with (skip_ws t).
      rewrite skip_ws_enc. by apply Hx.
    + reflexivity.
    + reflexivity.
    + rewrite IH by (done || simpl in Hn; lia).
      by rewrite <- app_assoc.
Qed.

End RoundTripLoops.

Section RoundTripValues.

Import Json.

Lemma flat_map_map {A B C : Type} (f : B -> list C) (g : A -> B) (l : list A) :
  flat_map f (map g l) = flat_map (fun x => f (g x)) l.
Proof. induction l as [|x l IH]; [done|]. simpl. by rewrite IH. Qed.

Lemma encode_arr lvl x l :
  encode None lvl (JArr (x :: l)) =
    "["%char
    :: encode None (S lvl) x
       ++ flat_map (fun y => ","%char :: " "%char :: encode None (S lvl) y) l
       ++ ["]"%char].
Proof.
  change (encode None lvl (JArr (x :: l)))
    with ("["%char
          :: Py.join (str ", ") (map (encode None (S lvl)) (x :: l))
             ++ ["]"%char]).
  cbn [map]. by rewrite join_cons, flat_map_map, <- app_assoc.
Qed.

Lemma encode_obj lvl kv m :
  encode None lvl (JObj (kv :: m)) =
    "{"%char :: dquote
    :: (flat_map escape_char (fst kv)
        ++ dquote :: ":"%char :: " "%char :: encode None (S lvl) (snd kv))
       ++ flat_map
            (fun y => ","%char :: " "%char :: dquote
                      :: flat_map escape_char (fst y)
                         ++ dquote :: ":"%char :: " "%char
                            :: encode None (S lvl) (snd y)) m
       ++ ["}"%char].
Proof.
  change (encode None lvl (JObj (kv :: m)))
    with ("{"%char
          :: Py.join (str ", ")
               (map (fun kv => let '(k, v) := kv in
                               encode_basestring_ascii k ++ key_separator
                               ++ encode None (S lvl) v) (kv :: m))
             ++ ["}"%char]).
  cbn [map]. rewrite join_cons, flat_map_map, <- app_assoc.
  destruct kv as [k v]. unfold encode_basestring_ascii at 1.
  cbn [fst snd app]. rewrite <- !app_assoc.
  unfold key_separator at 1. cbn [str list_ascii_of_string app].
  do 8 f_equal. apply flat_map_ext. intros [k' v'].
  unfold encode_basestring_ascii, key_separator.
  cbn [fst snd str list_ascii_of_string app].
  by rewrite <- app_assoc.
Qed.

Lemma length_flat_map_item {A : Type} (f : A -> text) (l : list A) :
  (forall y, (2 <= length (f y))%nat) ->
  (length l <= length (flat_map f l))%nat.
Proof.
  intros Hf. induction l as [|y l IH]; simpl; [lia|].
  rewrite length_app. specialize (Hf y). lia.
Qed.

Lemma dict_set_fresh k v d :
  k ∉ map fst d -> dict_set k v d = d ++ [(k, v)].
Proof.
  induction d as [|[k' v'] d IH]; [done|].
  intros [Hk Hd]%not_elem_of_cons. simpl in *.
  rewrite bool_decide_eq_false_2 by done. by rewrite IH.
Qed.

Lemma dict_of_pairs_nodup m : NoDup (map fst m) -> dict_of_pairs m = m.
Proof.
  unfold dict_of_pairs. change m with ([] ++ m) at 1 3.
  generalize (@nil (text * json)) as acc.
  induction m as [|[k v] m IH]; intros acc Hnd.
  - by rewrite app_nil_r.
  - cbn [fold_left fst snd]. rewrite map_app in Hnd. simpl in Hnd.
    apply NoDup_app in Hnd as (Hacc & Hd & Hm).
    rewrite dict_set_fresh.
    + rewrite (IH (acc ++ [(k, v)])); [by rewrite <- app_assoc|].
      rewrite <- app_assoc, map_app. simpl.
      apply NoDup_app. split_and!; done.
    + intros Hin. apply (Hd _ Hin). apply elem_of_cons. by left.
Qed.

Lemma length_flat_map_elem {A : Type} (f : A -> text) (l : list A) y :
  y ∈ l -> (length (f y) <= length (flat_map f l))%nat.
Proof.
  induction l as [|x l IH]; [by intros ?%elem_of_nil|].
  intros [->|H]%elem_of_cons; simpl; rewrite length_app; [lia|].
  apply IH in H. lia.
Qed.

Lemma scan_once_array depth r :
  scan_once (S depth) ("["%char :: r) = JSONArray (scan_once depth) r.
Proof. reflexivity. Qed.

Lemma scan_once_object depth r :
  scan_once (S depth) ("{"%char :: r) = JSONObject (scan_once depth) r.
Proof. reflexivity. Qed.

Lemma startswith_char a c s : Py.startswith [a] (c :: s) = Ascii.eqb a c.
Proof. simpl. apply andb_true_r. Qed.

Lemma JSONArray_encode depth lvl x l rest :
  (forall rest', number_stop rest' = true ->
     scan_once depth (encode None (S lvl) x ++ rest') = Ok (x, rest')) ->
  Forall (fun y => forall rest', number_stop rest' = true ->
     scan_once depth (encode None (S lvl) y ++ rest') = Ok (y, rest')) l ->
  JSONArray (scan_once depth)
    (encode None (S lvl) x
     ++ flat_map (fun y => ","%char :: " "%char :: encode None (S lvl) y) l
     ++ "]"%char :: rest)
  = Ok (JArr (x :: l), rest).
Proof.
  intros Hx Hl. unfold JSONArray. cbv zeta. rewrite skip_ws_encode.
  destruct (encode_head None (S lvl) x) as (c & tl & E & Hc).
  apply value_start_facts in Hc as (_ & Hc & _).
  rewrite E at 1. cbn [app]. unfold str. cbn [list_ascii_of_string].
  rewrite startswith_char, Ascii.eqb_sym, Hc.
  apply (JSONArray_loop_encode _ _ (encode_head None (S lvl)) l Hl x _ []);
    [done|].
  rewrite !length_app.
  pose proof (length_flat_map_item
    (fun y => ","%char :: " "%char :: encode None (S lvl) y) l) as H.
  specialize (H (fun y => ltac:(simpl; lia))). lia.
Qed.

Lemma JSONObject_encode depth lvl kv m rest :
  (forall rest', number_stop rest' = true ->
     scan_once depth (encode None (S lvl) (snd kv) ++ rest')
     = Ok (snd kv, rest')) ->
  Forall (fun y => forall rest', number_stop rest' = true ->
     scan_once depth (encode None (S lvl) (snd y) ++ rest')
     = Ok (snd y, rest')) m ->
  JSONObject (scan_once depth)
    (dquote
     :: flat_map escape_char (fst kv)
        ++ dquote :: ":"%char :: " "%char
           :: encode None (S lvl) (snd kv)
              ++ flat_map
                   (fun y => ","%char :: " "%char :: dquote
                             :: flat_map escape_char (fst y)
                                ++ dquote :: ":"%char :: " "%char
                                   :: encode None (S lvl) (snd y)) m
              ++ "}"%char :: rest)
  = Ok (JObj (dict_of_pairs (kv :: m)), rest).
Proof.
  intros Hx Hl. unfold JSONObject. cbv zeta.
  change (skip_ws (dquote :: ?t)) with (dquote :: t).
  unfold str. cbn [list_ascii_of_string].
  rewrite !startswith_char. change (Ascii.eqb "}" dquote) with false.
  rewrite Ascii.eqb_refl. cbv iota. cbn [skipn].
  apply (JSONObject_loop_encode _ _ (encode_head None (S lvl)) m Hl kv _ []);
    [done|].
  repeat (rewrite length_app || cbn [length]).
  pose proof (length_flat_map_item
    (fun y => ","%char :: " "%char :: dquote
              :: flat_map escape_char (fst y)
                 ++ dquote :: ":"%char :: " "%char
                    :: encode None (S lvl) (snd y)) m) as H.
  specialize (H (fun y => ltac:(simpl; lia))). lia.
Qed.

(** What the encoder writes, the scanner reads back, whatever follows as
    long as it cannot extend a number. *)
Lemma scan_once_encode v :
  wf_json v ->
  forall lvl depth rest,
    (length (encode None lvl v) <= depth)%nat ->
    number_stop rest = true ->
    scan_once depth (encode None lvl v ++ rest) = Ok (v, rest).
Proof.
  induction v as [|b|n|s|items IH|members IH] using json_ind;
    intros Hwf lvl depth rest Hd Hrest;
    (destruct depth as [|depth];
     [exfalso;
      match type of Hd with
      | (length (encode None lvl ?w) <= _)%nat =>
          destruct (encode_head None lvl w) as (c & tl & E & _);
          rewrite E in Hd; simpl in Hd; lia
      end|]).
  - reflexivity.
  - by destruct b.
  - cbn [encode].
    destruct (int_repr_head n) as (c & tl & E & Hc).
    pose proof (match_number_int_repr n rest Hrest) as Hm.
    rewrite E in Hm |- *. cbn [app] in Hm |- *.
    rewrite (scan_once_number depth c _ _ _ Hc Hm).
    by rewrite <- E, parse_int_repr.
  - cbn [encode]. unfold encode_basestring_ascii.
    cbn [app scan_once]. rewrite Ascii.eqb_refl, <- app_assoc.
    cbn [app]. by rewrite scanstring_encode.
  - apply wf_json_arr in Hwf.
    destruct items as [|x l]; [reflexivity|].
    rewrite encode_arr in Hd |- *. cbn [app]. rewrite <- !app_assoc.
    rewrite scan_once_array. cbn [app].
    cbn [length] in Hd. rewrite !length_app in Hd.
    apply Forall_cons in IH as [IHx IHl]. apply Forall_cons in Hwf as [Hx Hl].
    apply JSONArray_encode.
    + intros rest' Hr. apply IHx; [done | lia | done].
    + rewrite Forall_forall in IHl, Hl |- *. intros y Hy rest' Hr.
      apply IHl; [done | by apply Hl | | done].
      pose proof (length_flat_map_elem
        (fun y => ","%char :: " "%char :: encode None (S lvl) y) l y Hy) as H.
      cbn [length] in H. lia.
  - apply wf_json_obj in Hwf as [Hnd Hwf].
    destruct members as [|kv m]; [reflexivity|].
    rewrite encode_obj in Hd |- *. cbn [app]. rewrite <- !app_assoc.
    rewrite scan_once_object. cbn [app].
    repeat (rewrite length_app in Hd || cbn [length] in Hd).
    apply Forall_cons in IH as [IHx IHl]. apply Forall_cons in Hwf as [Hx Hl].
    rewrite <- (dict_of_pairs_nodup (kv :: m)) by done.
    apply JSONObject_encode.
    + intros rest' Hr. apply IHx; [done | lia | done].
    + rewrite Forall_forall in IHl, Hl |- *. intros y Hy rest' Hr.
      apply IHl; [done | by apply Hl | | done].
      pose proof (length_flat_map_elem
        (fun y => ","%char :: " "%char :: dquote
              :: flat_map escape_char (fst y)
                 ++ dquote :: ":"%char :: " "%char
                    :: encode None (S lvl) (snd y)) m y Hy) as H.
      repeat (rewrite length_app in H || cbn [length] in H). lia.
Qed.

End RoundTripValues.

Section LoadsDumps.

Import Json.

(** [json.loads(json.dumps(v)) == v] for the values of the fragment. *)
Lemma loads_dumps v : wf_json v -> loads (dumps v) = Ok v.
Proof.
  intros Hwf. unfold loads, decode, dumps.
  rewrite <- (app_nil_r (encode None 0 v)) at 2.
  rewrite skip_ws_encode, scan_once_encode by (done || lia).
  done.
Qed.

(** An object is written between braces. *)
Lemma dumps_obj_shape members :
  exists mid, dumps (JObj members) = "{"%char :: mid ++ ["}"%char].
Proof.
  destruct members as [|kv m]; [by exists []|].
  unfold dumps. rewrite encode_obj. eexists. f_equal.
  rewrite app_comm_cons, app_assoc. reflexivity.
Qed.

End LoadsDumps.

(* ===================================================================== *)
(** * What the decoder can answer *)
(* ===================================================================== *)

Section DecoderSpec.

Import Json.

Lemma suffix_elem_of (rest s : text) c :
  rest `suffix_of` s -> c ∈ rest -> c ∈ s.
Proof. intros [k ->] H. apply elem_of_app. by right. Qed.

Lemma skip_ws_suffix s : skip_ws s `suffix_of` s.
Proof.
  induction s as [|c s IH]; [done|]. simpl.
  destruct (is_ws c); [by apply suffix_cons_r | done].
Qed.

Lemma span_digits_suffix s : snd (span_digits s) `suffix_of` s.
Proof.
  induction s as [|c s IH]; [done|]. simpl.
  destruct (is_digit c); [|done].
  destruct (span_digits s) as [ds r]. by apply suffix_cons_r.
Qed.

Lemma match_frac_suffix s : snd (match_frac s) `suffix_of` s.
Proof.
  destruct s as [|c [|d s]]; try done; unfold match_frac.
  - by destruct c as [[] [] [] [] [] [] [] []].
  - assert (H : snd (span_digits s) `suffix_of` c :: d :: s)
      by (do 2 apply suffix_cons_r; apply span_digits_suffix).
    destruct c as [[] [] [] [] [] [] [] []]; try done.
    by destruct (is_digit d).
Qed.

Lemma match_exp_suffix s : snd (match_exp s) `suffix_of` s.
Proof.
  destruct s as [|e s1]; [done|]. unfold match_exp.
  destruct (_ || _); [|done].
  assert (H : forall c s', c :: s' `suffix_of` s1 ->
    snd (if is_digit c then (true, snd (span_digits s')) else (false, e :: s1))
    `suffix_of` e :: s1).
  { intros c s' Hs. destruct (is_digit c); [|done]. simpl.
    apply suffix_cons_r. etrans; [apply span_digits_suffix|].
    etrans; [|apply Hs]. by apply suffix_cons_r. }
  destruct s1 as [|c s']; [done|].
  destruct (_ || _).
  - destruct s' as [|c' s'']; [done|]. apply H. by apply suffix_cons_r.
  - by apply H.
Qed.

Lemma match_number_suffix s integer is_float rest :
  match_number s = Some (integer, is_float, rest) ->
  rest `suffix_of` s /\ (length rest < length s)%nat.
Proof.
  unfold match_number.
  set (s0 := match s with "-"%char :: r => _ | _ => _ end).
  assert (Hs0 : snd s0 `suffix_of` s).
  { destruct s as [|c r]; [done|]. unfold s0.
    destruct c as [[] [] [] [] [] [] [] []]; try done.
    by apply suffix_cons_r. }
  destruct s0 as [sign s1]. simpl in Hs0.
  destruct s1 as [|c r]; [done|].
  assert (Hr : forall r', r' `suffix_of` r ->
    snd (match_exp (snd (match_frac r'))) `suffix_of` s
    /\ (length (snd (match_exp (snd (match_frac r')))) < length s)%nat).
  { intros r' Hr'.
    assert (H : snd (match_exp (snd (match_frac r'))) `suffix_of` r).
    { etrans; [apply match_exp_suffix|].
      etrans; [apply match_frac_suffix | done]. }
    split.
    - etrans; [apply H|]. etrans; [|apply Hs0]. by apply suffix_cons_r.
    - apply suffix_length in H, Hs0. simpl in Hs0. lia. }
  destruct (Ascii.eqb c "0").
  - specialize (Hr r ltac:(done)).
    destruct (match_frac r) as [fr r1]. simpl in Hr.
    destruct (match_exp r1) as [ex r2]. simpl in Hr.
    by intros [= <- <- <-].
  - destruct (is_digit c); [|done].
    pose proof (span_digits_suffix r) as Hsp.
    destruct (span_digits r) as [ds r']. simpl in Hsp.
    specialize (Hr r' Hsp).
    destruct (match_frac r') as [fr r1]. simpl in Hr.
    destruct (match_exp r1) as [ex r2]. simpl in Hr.
    by intros [= <- <- <-].
Qed.

Lemma scanstring_spec s :
  match scanstring s with
  | Ok (_, rest) => rest `suffix_of` s /\ (length rest < length s)%nat
  | Raise e => e = JSONDecodeError
  | Unmodelled => True
  | OutOfFuel => False
  end.
Proof.
  remember (length s) as n eqn:Hn. revert s Hn.
  induction n as [n IH] using lt_wf_ind. intros s ->.
  assert (Hrec : forall c r, r `suffix_of` s -> (length r < length s)%nat ->
    match (let? (chunks, rest) := scanstring r in Ok (c :: chunks, rest)) with
    | Ok (_, rest) => rest `suffix_of` s /\ (length rest < length s)%nat
    | Raise e => e = JSONDecodeError
    | Unmodelled => True
    | OutOfFuel => False
    end).
  { intros c r Hsuf Hlen. specialize (IH _ Hlen r eq_refl).
    destruct (scanstring r) as [[chunks rest]| | |]; simpl; try done.
    destruct IH as [H1 H2]. split; [by etrans | lia]. }
  destruct s as [|c r]; [done|]. cbn [scanstring].
  destruct (Ascii.eqb c dquote).
  { split; [by apply suffix_cons_r | simpl; lia]. }
  destruct (Ascii.eqb c backslash).
  - destruct r as [|esc r1]; [done|].
    destruct (Ascii.eqb esc "u").
    + destruct r1 as [|h3 [|h2 [|h1 [|h0 r2]]]]; try done.
      destruct (decode_uXXXX h3 h2 h1 h0) as [uni|]; [|done].
      destruct (uni <? 256)%N; [|done].
      apply Hrec; [by do 6 apply suffix_cons_r | simpl; lia].
    + destruct (BACKSLASH esc); [|done].
      apply Hrec; [by do 2 apply suffix_cons_r | simpl; lia].
  - destruct (N_of_ascii c <? 32)%N; [done|].
    apply Hrec; [by apply suffix_cons_r | simpl; lia].
Qed.

End DecoderSpec.

Section LoopSpec.

Import Json.

Variable scan : text -> result (json * text).
Variable D : nat.

Hypothesis scan_ok :
  forall s,
    scan_spec (fun v => "{"%char ∉ s -> object_free v = true)
      (length s < D)%nat s (scan s).

Lemma JSONArray_loop_spec n :
  forall s values,
    scan_spec
      (fun v => "{"%char ∉ s -> forallb object_free values = true ->
                object_free v = true)
      (length s < n /\ length s < D)%nat s
      (JSONArray_loop scan n s values).
Proof.
  induction n as [|n IH]; intros s values; cbn [JSONArray_loop].
  { simpl. lia. }
  pose proof (scan_ok s) as Hs.
  destruct (scan s) as [[value s1]| | |]; cbn [rbind scan_spec] in *;
    [|done|done|lia].
  destruct Hs as (Hsuf & Hlen & Hfree).
  pose proof (skip_ws_suffix s1) as Hws.
  destruct (skip_ws s1) as [|c s2]; [done|].
  assert (Hs2 : s2 `suffix_of` s).
  { etrans; [|apply Hsuf]. etrans; [|apply Hws]. by apply suffix_cons_r. }
  assert (Hl2 : (length s2 + 2 <= length s)%nat).
  { apply suffix_length in Hws. simpl in Hws. lia. }
  destruct (Ascii.eqb c "]").
  { split_and!; [done | lia |]. intros Hb Hv. simpl.
    rewrite forallb_app, Hv. simpl. by rewrite Hfree. }
  destruct (Ascii.eqb c ","); [|done].
  specialize (IH (skip_ws s2) (values ++ [value])).
  pose proof (skip_ws_suffix s2) as Hws2.
  pose proof (suffix_length _ _ Hws2) as Hl3.
  destruct (JSONArray_loop scan n (skip_ws s2) (values ++ [value]))
    as [[v rest]| | |]; cbn [scan_spec] in *; [|done|done|lia].
  destruct IH as (H1 & H2 & H3). split_and!.
  - etrans; [apply H1|]. by etrans.
  - lia.
  - intros Hb Hv. apply H3.
    + intros Hin. apply Hb. eapply suffix_elem_of; [|apply Hin]. by etrans.
    + rewrite forallb_app, Hv. simpl. by rewrite Hfree.
Qed.

Lemma JSONArray_spec s :
  scan_spec (fun v => "{"%char ∉ s -> object_free v = true)
    (length s < D)%nat s (JSONArray scan s)
  \/ JSONArray scan s = Ok (JArr [], drop 1 (skip_ws s))
     /\ Py.startswith (str "]") (skip_ws s) = true.
Proof.
  unfold JSONArray. cbv zeta.
  destruct (Py.startswith (str "]") (skip_ws s)) eqn:E; [by right|left].
  pose proof (JSONArray_loop_spec (S (length (skip_ws s))) (skip_ws s) [])
    as H.
  pose proof (skip_ws_suffix s) as Hws.
  pose proof (suffix_length _ _ Hws) as Hl.
  destruct (JSONArray_loop scan _ (skip_ws s) []) as [[v rest]| | |];
    cbn [scan_spec] in *; [|done|done|lia].
  destruct H as (H1 & H2 & H3). split_and!; [by etrans | lia |].
  intros Hb. apply H3; [|done].
  intros Hin. apply Hb. by eapply suffix_elem_of.
Qed.

Lemma JSONObject_loop_spec n :
  forall s pairs,
    scan_spec (fun _ => True) (length s < n /\ length s < D)%nat s
      (JSONObject_loop scan n s pairs).
Proof.
  induction n as [|n IH]; intros s pairs; cbn [JSONObject_loop].
  { simpl. lia. }
  pose proof (scanstring_spec s) as Hk.
  destruct (scanstring s) as [[key s1]| | |]; cbn [rbind scan_spec] in *;
    [|done|done|done].
  destruct Hk as [Hk1 Hk2].
  pose proof (skip_ws_suffix s1) as Hws1.
  destruct (skip_ws s1) as [|c s2]; [done|].
  destruct (Ascii.eqb c ":"); [|done].
  pose proof (skip_ws_suffix s2) as Hws2.
  pose proof (scan_ok (skip_ws s2)) as Hv.
  assert (Hl2 : (length (skip_ws s2) + 2 <= length s)%nat).
  { apply suffix_length in Hws1, Hws2. simpl in Hws1. lia. }
  assert (Hsuf2 : skip_ws s2 `suffix_of` s).
  { etrans; [apply Hws2|]. etrans; [|apply Hk1].
    etrans; [|apply Hws1]. by apply suffix_cons_r. }
  destruct (scan (skip_ws s2)) as [[value s3]| | |];
    cbn [rbind scan_spec] in *; [|done|done|lia].
  destruct Hv as (Hv1 & Hv2 & _).
  pose proof (skip_ws_suffix s3) as Hws3.
  destruct (skip_ws s3) as [|c' s4]; [done|].
  assert (Hs4 : s4 `suffix_of` s).
  { etrans; [|apply Hsuf2]. etrans; [|apply Hv1].
    etrans; [|apply Hws3]. by apply suffix_cons_r. }
  assert (Hl4 : (length s4 + 4 <= length s)%nat).
  { apply suffix_length in Hws3. simpl in Hws3. lia. }
  destruct (Ascii.eqb c' "}"); [split_and!; [done | lia | done]|].
  destruct (Ascii.eqb c' ","); [|done].
  pose proof (skip_ws_suffix s4) as Hws4.
  destruct (skip_ws s4) as [|q s5]; [done|].
  destruct (Ascii.eqb q dquote); [|done].
  specialize (IH s5 (pairs ++ [(key, value)])).
  apply suffix_length in Hws4 as Hl5. simpl in Hl5.
  destruct (JSONObject_loop scan n s5 (pairs ++ [(key, value)]))
    as [[v rest]| | |]; cbn [scan_spec] in *; [|done|done|lia].
  destruct IH as (H1 & H2 & _). split_and!; [|lia|done].
  etrans; [apply H1|]. etrans; [|apply Hs4].
  etrans; [|apply Hws4]. by apply suffix_cons_r.
Qed.

Lemma JSONObject_spec s :
  scan_spec (fun _ => True) (length s < D)%nat s (JSONObject scan s).
Proof.
  unfold JSONObject. cbv zeta.
  pose proof (skip_ws_suffix s) as Hws.
  pose proof (suffix_length _ _ Hws) as Hl.
  destruct (skip_ws s) as [|c s1] eqn:E.
  { by cbn. }
  unfold str. cbn [list_ascii_of_string]. rewrite !startswith_char.
  change (drop 1 (c :: s1)) with s1.
  assert (Hs1 : s1 `suffix_of` s).
  { etrans; [|apply Hws]. by apply suffix_cons_r. }
  simpl in Hl.
  destruct (Ascii.eqb "}" c); [split_and!; [done | lia | done]|].
  destruct (Ascii.eqb dquote c); [|done].
  pose proof (JSONObject_loop_spec (S (S (length s1))) s1 []) as H.
  cbn [length].
  destruct (JSONObject_loop scan _ s1 []) as [[v rest]| | |];
    cbn [scan_spec] in *; [|done|done|lia].
  destruct H as (H1 & H2 & _). split_and!; [by etrans | lia | done].
Qed.

End LoopSpec.

Section ScanOnceSpec.

Import Json.

Lemma scan_spec_cons (Q Q' : json -> Prop) d c r x :
  scan_spec Q (length r < d)%nat r x ->
  (forall v, Q v -> Q' v) ->
  scan_spec Q' (length (c :: r) < S d)%nat (c :: r) x.
Proof.
  destruct x as [[v rest]| | |]; cbn [scan_spec length]; try done.
  - intros (H1 & H2 & H3) HQ. split_and!; [by apply suffix_cons_r | lia | auto].
  - lia.
Qed.

Lemma startswith_drop p s :
  Py.startswith p s = true -> p <> [] ->
  drop (length p) s `suffix_of` s /\ (length (drop (length p) s) < length s)%nat.
Proof.
  intros H Hp. split; [apply suffix_drop|].
  apply startswith_length in H. rewrite length_drop.
  destruct p; [done|]. simpl in *. lia.
Qed.

(** The scanner answers with a proper suffix left, raises nothing but
    [JSONDecodeError], has fuel enough when [depth] exceeds the length of
    the text, and builds an object only out of a text with a brace. *)
Lemma scan_once_spec depth :
  forall s,
    scan_spec (fun v => "{"%char ∉ s -> object_free v = true)
      (length s < depth)%nat s (scan_once depth s).
Proof.
  induction depth as [|depth IH]; intros s; cbn [scan_once].
  { simpl. lia. }
  destruct s as [|c r]; [done|].
  destruct (Ascii.eqb_spec c dquote) as [->|_].
  { pose proof (scanstring_spec r) as H.
    destruct (scanstring r) as [[v rest]| | |]; cbn [rbind scan_spec] in *;
      try done.
    destruct H as [H1 H2].
    split_and!; [by apply suffix_cons_r | simpl; lia | done]. }
  destruct (Ascii.eqb_spec c "{") as [->|_].
  { eapply scan_spec_cons; [by apply JSONObject_spec|].
    intros v _ Hb. exfalso. apply Hb. by left. }
  destruct (Ascii.eqb_spec c "[") as [->|_].
  { destruct (JSONArray_spec _ _ IH r) as [H|[-> H]].
    - eapply scan_spec_cons; [apply H|]. intros v Hv Hb. apply Hv.
      intros Hin. apply Hb. by right.
    - cbn [scan_spec]. pose proof (skip_ws_suffix r) as Hws.
      apply (startswith_drop (str "]")) in H as [H1 H2]; [|done].
      split_and!; [| |done].
      + apply suffix_cons_r. by etrans.
      + apply suffix_length in Hws. simpl in *. lia. }
  destruct (Py.startswith (str "null") (c :: r)) eqn:E1.
  { by apply (startswith_drop (str "null")) in E1 as [H1 H2]. }
  destruct (Py.startswith (str "true") (c :: r)) eqn:E2.
  { by apply (startswith_drop (str "true")) in E2 as [H1 H2]. }
  destruct (Py.startswith (str "false") (c :: r)) eqn:E3.
  { by apply (startswith_drop (str "false")) in E3 as [H1 H2]. }
  destruct (match_number (c :: r)) as [[[integer is_float] rest]|] eqn:E.
  - destruct is_float; [done|].
    apply match_number_suffix in E as [H1 H2]. by cbn.
  - by destruct (_ || _).
Qed.

(** What [json.loads] can answer. *)
Lemma loads_spec s :
  match loads s with
  | Ok v => "{"%char ∉ s -> object_free v = true
  | Raise e => e = JSONDecodeError
  | Unmodelled => True
  | OutOfFuel => False
  end.
Proof.
  unfold loads, decode.
  pose proof (scan_once_spec (S (length s)) (skip_ws s)) as H.
  pose proof (skip_ws_suffix s) as Hws.
  destruct (scan_once _ (skip_ws s)) as [[v rest]| | |];
    cbn [rbind scan_spec] in *; try done.
  - destruct H as (_ & _ & H). destruct (skip_ws rest); [|done].
    intros Hb. apply H. intros Hin. apply Hb. by eapply suffix_elem_of.
  - apply suffix_length in Hws. lia.
Qed.

End ScanOnceSpec.

(* ===================================================================== *)
(** * The response parser: which text is handed to [json.loads] *)
(* ===================================================================== *)

(** Membership in a literal, decided by computation. *)
Ltac decide_literal := apply (bool_decide_unpack _); vm_compute; exact I.

Section Extraction.

Lemma contains_false sub s :
  Py.contains sub s = false <-> Py.index_of sub s = None.
Proof. unfold Py.contains. by destruct (Py.index_of sub s). Qed.

Lemma contains_true sub s :
  Py.contains sub s = true <-> exists i, Py.index_of sub s = Some i.
Proof.
  unfold Py.contains. destruct (Py.index_of sub s); split; try done.
  - by eexists.
  - by intros [? ?].
Qed.

Lemma index_of_prefix sub s :
  Py.startswith sub s = true -> Py.index_of sub s = Some 0%nat.
Proof. intros H. destruct s; simpl; by rewrite H. Qed.

(** [s.find(sub, k)] for a start [k] inside the text. *)
Lemma find_from s sub (k : nat) :
  (k <= length s)%nat ->
  Py.find s sub (Z.of_nat k) =
    match Py.index_of sub (drop k s) with
    | Some i => Z.of_nat k + Z.of_nat i
    | None => -1
    end.
Proof.
  intros Hk. unfold Py.find, Py.adjust, Py.len.
  destruct (Z.ltb_spec (Z.of_nat (length s)) (Z.of_nat k)); [lia|].
  rewrite andb_false_r.
  destruct (Z.ltb_spec (Z.of_nat k) 0); [lia|].
  rewrite Z.min_r by lia. by rewrite Nat2Z.id.
Qed.

(** [s.find(sub)] when [sub] occurs, first at offset [i]. *)
Lemma find_from_start s sub i :
  Py.index_of sub s = Some i -> Py.find s sub 0 = Z.of_nat i.
Proof.
  intros H. change (Py.find s sub 0) with (Py.find s sub (Z.of_nat 0)).
  rewrite find_from by lia. change (drop 0 s) with s. by rewrite H.
Qed.

(** The three branches of the extraction. *)
Lemma extract_fence_branch text i :
  Py.index_of fence_json text = Some i ->
  extract_json_str text =
    Py.strip (Py.slice text (Z.of_nat (i + 7))
                (Py.find text fence (Z.of_nat (i + 7)))).
Proof.
  intros H. unfold extract_json_str, Py.contains. rewrite H.
  rewrite (find_from_start _ _ _ H).
  by replace (Z.of_nat i + 7) with (Z.of_nat (i + 7)) by lia.
Qed.

Lemma extract_brace_branch text i :
  Py.index_of fence_json text = None ->
  Py.index_of lbrace text = Some i ->
  extract_json_str text =
    Py.slice text (Z.of_nat i) (Py.rfind text rbrace + 1).
Proof.
  intros H1 H2. unfold extract_json_str, Py.contains. rewrite H1, H2.
  by rewrite (find_from_start _ _ _ H2).
Qed.

Lemma extract_plain text :
  Py.index_of fence_json text = None ->
  Py.index_of lbrace text = None ->
  extract_json_str text = text.
Proof.
  intros H1 H2. unfold extract_json_str, Py.contains. by rewrite H1, H2.
Qed.

(** The text handed to [json.loads] is made of characters of the reply. *)
Lemma extract_subseteq text : extract_json_str text ⊆ text.
Proof.
  unfold extract_json_str.
  destruct (Py.contains fence_json text).
  - etrans; [apply strip_subseteq | apply slice_subseteq].
  - destruct (Py.contains lbrace text); [apply slice_subseteq | done].
Qed.

(** A body between braces, with no [```json] around and no brace outside,
    is extracted as it is. *)
Lemma extract_braced pre mid post :
  let body := "{"%char :: mid ++ ["}"%char] in
  Py.index_of fence_json (pre ++ body ++ post) = None ->
  "{"%char ∉ pre -> "}"%char ∉ post ->
  extract_json_str (pre ++ body ++ post) = body.
Proof.
  intros body Hf Hpre Hpost.
  assert (Hl : Py.index_of lbrace (pre ++ body ++ post) = Some (length pre)).
  { unfold body. cbn [app]. by apply index_of_first. }
  rewrite (extract_brace_branch _ _ Hf Hl).
  assert (Hr : Py.rfind (pre ++ body ++ post) rbrace
               = Py.len pre + Py.len body - 1).
  { unfold Py.rfind, body.
    replace (pre ++ ("{"%char :: mid ++ ["}"%char]) ++ post)
      with ((pre ++ "{"%char :: mid) ++ "}"%char :: post)
      by (by rewrite <- !app_assoc; cbn; rewrite <- app_assoc).
    unfold rbrace, str. cbn [list_ascii_of_string].
    rewrite rindex_of_last by done. unfold Py.len.
    rewrite !length_app. cbn [length]. rewrite length_app. cbn [length]. lia. }
  rewrite Hr.
  replace (Py.len pre + Py.len body - 1 + 1) with (Py.len pre + Py.len body)
    by lia.
  apply slice_middle.
Qed.

(** A body with no [```] in it, fenced, is extracted as it is up to the
    white space around it. *)
Lemma extract_fenced body :
  Py.index_of fence body = None ->
  extract_json_str (fence_json ++ [newline] ++ body ++ [newline] ++ fence)
  = Py.strip ([newline] ++ body ++ [newline]).
Proof.
  intros Hb.
  assert (H0 : Py.index_of fence_json
                 (fence_json ++ [newline] ++ body ++ [newline] ++ fence)
               = Some 0%nat) by apply index_of_prefix, startswith_app.
  rewrite (extract_fence_branch _ _ H0). f_equal.
  change (Z.of_nat (0 + 7)) with (Z.of_nat (length fence_json)).
  rewrite find_from by (rewrite length_app; lia).
  rewrite drop_app_length.
  assert (Hi : Py.index_of fence ([newline] ++ body ++ [newline] ++ fence)
               = Some (length ([newline] ++ body ++ [newline]))).
  { change ([newline] ++ body ++ [newline] ++ fence)
      with ([] ++ newline :: (body ++ newline :: fence)).
    rewrite index_of_sep by (done || decide_literal).
    rewrite index_of_sep by (done || decide_literal).
    rewrite Hb. rewrite (index_of_prefix fence fence) by done.
    cbn. rewrite length_app. cbn. f_equal. lia. }
  rewrite Hi.
  replace (Z.of_nat (length fence_json)
           + Z.of_nat (length ([newline] ++ body ++ [newline])))
    with (Py.len fence_json + Py.len ([newline] ++ body ++ [newline]))
    by done.
  change (Z.of_nat (length fence_json)) with (Py.len fence_json).
  pose proof (slice_middle fence_json ([newline] ++ body ++ [newline]) fence)
    as Hs.
  rewrite <- !app_assoc in Hs. apply Hs.
Qed.

End Extraction.

(* ===================================================================== *)
(** * The response parser: claims *)
(* ===================================================================== *)

(** Well-formedness of a literal JSON value. *)
Ltac wf_literal :=
  simpl; repeat split; (apply NoDup_nil_2 || decide_literal).

Section ParserClaims.

(** C9.  When the reply holds [```json] and no [```] after it, the search
    for the closing fence answers -1, and the text handed to [json.loads]
    is the stripped text from just after [```json] up to, and not
    including, the last character of the reply. *)
Theorem unclosed_fence_drops_last_char (response_text : text) :
  Py.contains fence_json response_text = true ->
  Py.contains fence
    (drop (Z.to_nat (Py.find response_text fence_json 0 + 7)) response_text)
  = false ->
  Py.find response_text fence (Py.find response_text fence_json 0 + 7) = -1
  /\ extract_json_str response_text
     = Py.strip (drop (Z.to_nat (Py.find response_text fence_json 0 + 7))
                   (removelast response_text))
  /\ forall key,
       parse_response key response_text
       = match Json.loads
                 (Py.strip
                    (drop (Z.to_nat (Py.find response_text fence_json 0 + 7))
                       (removelast response_text))) with
         | Raise JSONDecodeError => Ok (JObj [(key, JStr response_text)])
         | other => other
         end.
Proof.
  intros [i Hi]%contains_true Hno.
  rewrite (extract_fence_branch _ _ Hi).
  rewrite (find_from_start _ _ _ Hi) in *.
  replace (Z.of_nat i + 7) with (Z.of_nat (i + 7)) in * by lia.
  rewrite Nat2Z.id in *.
  pose proof (index_of_bound _ _ _ Hi) as Hb.
  change (length fence_json) with 7%nat in Hb.
  apply contains_false in Hno.
  assert (Hfind : Py.find response_text fence (Z.of_nat (i + 7)) = -1).
  { rewrite find_from by done. by rewrite Hno. }
  assert (Hextract :
    Py.strip (Py.slice response_text (Z.of_nat (i + 7))
                (Py.find response_text fence (Z.of_nat (i + 7))))
    = Py.strip (drop (i + 7) (removelast response_text))).
  { rewrite Hfind. f_equal. by apply slice_to_minus_one. }
  split_and!; [done | done |].
  intros key. unfold parse_response.
  by rewrite (extract_fence_branch _ _ Hi), Hextract.
Qed.

Lemma unclosed_fence_drops_last_char_witness :
  extract_json_str (str "```json{}") = str "{".
Proof.
  rewrite (proj1 (proj2 (unclosed_fence_drops_last_char (str "```json{}")
                           eq_refl eq_refl))).
  reflexivity.
Defined.

(** The same reply read up to its end would have been valid JSON. *)
Example unclosed_fence_loses_a_value :
  parse_response raw_response (str "```json{}")
  = Ok (JObj [(raw_response, JStr (str "```json{}"))])
  /\ Json.loads (Py.strip (drop 7 (str "```json{}"))) = Ok (JObj []).
Proof. split; reflexivity. Qed.

Lemma index_of_noise body :
  Py.index_of fence_json body = None ->
  Py.index_of fence_json (str "noise " ++ body ++ str " trailing") = None.
Proof.
  intros Hb.
  change (str "noise " ++ body ++ str " trailing")
    with (str "noise" ++ " "%char :: (body ++ " "%char :: str "trailing")).
  rewrite index_of_sep by (done || decide_literal).
  change (Py.index_of fence_json (str "noise")) with (@None nat).
  rewrite index_of_sep by (done || decide_literal).
  by rewrite Hb.
Qed.

Lemma index_of_braced (sub body : text) :
  sub <> [] -> "{"%char ∉ sub -> "}"%char ∉ sub ->
  Py.index_of sub body = None ->
  Py.index_of sub ("{"%char :: body ++ ["}"%char]) = None.
Proof.
  intros Hne Hl Hr Hb.
  change ("{"%char :: body ++ ["}"%char])
    with ([] ++ "{"%char :: (body ++ "}"%char :: [])).
  rewrite index_of_sep by done. rewrite index_of_nil by done.
  rewrite index_of_sep by done. rewrite Hb. by rewrite index_of_nil.
Qed.

(** C1, as amended.  For an object [O] whose serialization holds no
    [```json]: on ["noise " + json.dumps(O) + " trailing"] the parser
    yields [O]; on the text of the claim, where two more braces surround
    the serialization, the substring from the first to the last brace is
    not valid JSON and the parser yields the fallback object holding the
    whole text. *)
Theorem brace_extraction (key : text) (members : list (text * json)) :
  wf_json (JObj members) ->
  Py.contains fence_json (Json.dumps (JObj members)) = false ->
  parse_response key
    (str "noise " ++ Json.dumps (JObj members) ++ str " trailing")
  = Ok (JObj members)
  /\ parse_response key
       (str "noise {" ++ Json.dumps (JObj members) ++ str "} trailing")
     = Ok (JObj [(key, JStr (str "noise {" ++ Json.dumps (JObj members)
                               ++ str "} trailing"))]).
Proof.
  intros Hwf Hf%contains_false.
  destruct (dumps_obj_shape members) as [mid Hd].
  split.
  - unfold parse_response.
    pose proof (index_of_noise _ Hf) as Hn. rewrite Hd in Hn |- *.
    rewrite (extract_braced (str "noise ") mid (str " trailing") Hn)
      by decide_literal.
    rewrite <- Hd. by rewrite loads_dumps.
  - unfold parse_response.
    set (d := Json.dumps (JObj members)) in *.
    assert (E : str "noise {" ++ d ++ str "} trailing"
                = str "noise " ++ ("{"%char :: d ++ ["}"%char])
                  ++ str " trailing").
    { cbn. by rewrite <- app_assoc. }
    rewrite E at 1.
    rewrite (extract_braced (str "noise ") d (str " trailing"));
      [|apply index_of_noise, index_of_braced; (done || decide_literal)
       |decide_literal|decide_literal].
    by rewrite Hd.
Qed.

Lemma brace_extraction_witness :
  parse_response raw_response
    (str "noise " ++ Json.dumps (JObj [(str "mcqs", JObj [])])
     ++ str " trailing")
  = Ok (JObj [(str "mcqs", JObj [])]).
Proof.
  apply (brace_extraction raw_response [(str "mcqs", JObj [])]).
  - wf_literal.
  - reflexivity.
Defined.

(** C1 fails as stated: with the braces of the claim around the
    serialization, the empty object does not come back. *)
Lemma brace_extraction_as_stated_fails :
  parse_response raw_response
    (str "noise {" ++ Json.dumps (JObj []) ++ str "} trailing")
  = Ok (JObj [(raw_response, JStr (str "noise {{}} trailing"))])
  /\ ~ (forall key members,
          parse_response key
            (str "noise {" ++ Json.dumps (JObj members) ++ str "} trailing")
          = Ok (JObj members)).
Proof.
  split; [reflexivity|].
  intros H. specialize (H raw_response []). vm_compute in H. discriminate H.
Qed.

(** C3, as amended.  For an object [O] whose serialization holds no
    [```], the fenced serialization is parsed back to [O]. *)
Theorem fenced_round_trip (key : text) (members : list (text * json)) :
  wf_json (JObj members) ->
  Py.contains fence (Json.dumps (JObj members)) = false ->
  parse_response key (fenced (Json.dumps (JObj members))) = Ok (JObj members).
Proof.
  intros Hwf Hf%contains_false.
  destruct (dumps_obj_shape members) as [mid Hd].
  unfold parse_response, fenced.
  change (str "```json") with fence_json. change (str "```") with fence.
  rewrite (extract_fenced _ Hf). rewrite Hd.
  rewrite (strip_core [newline] [newline] "{" mid "}") by done.
  rewrite <- Hd. by rewrite loads_dumps.
Qed.

Lemma fenced_round_trip_witness :
  parse_response raw_response
    (fenced (Json.dumps (JObj [(str "mcqs", JObj [(str "EASY", JArr [])])])))
  = Ok (JObj [(str "mcqs", JObj [(str "EASY", JArr [])])]).
Proof.
  apply fenced_round_trip.
  - wf_literal.
  - reflexivity.
Defined.

(** C3 fails as stated: a fence inside a string of the object ends the
    block early. *)
Lemma fenced_round_trip_as_stated_fails :
  wf_json backticks_object
  /\ parse_response raw_response (fenced (Json.dumps backticks_object))
     = Ok (JObj [(raw_response, JStr (fenced (Json.dumps backticks_object)))])
  /\ ~ (forall key members,
          wf_json (JObj members) ->
          parse_response key (fenced (Json.dumps (JObj members)))
          = Ok (JObj members)).
Proof.
  assert (Hwf : wf_json backticks_object).
  { wf_literal. }
  split_and!; [done | reflexivity |].
  intros H.
  specialize (H raw_response [(str "a", JStr (str "```"))] Hwf).
  vm_compute in H. discriminate H.
Qed.

(** C2, as amended.  For a reply with no brace, the text handed to
    [json.loads] is the stripped body between [```json] and the next
    [```] when the reply holds [```json], and the whole reply as it is
    otherwise.  When [json.loads] raises [JSONDecodeError] on that text
    the parser yields the fallback object whose one key holds the reply
    unchanged; any other outcome of [json.loads] is the outcome of the
    parser, no other error being caught; and a value it returns holds no
    object at any depth. *)
Theorem no_brace_response (key : text) (response_text : text) :
  Py.contains lbrace response_text = false ->
  let json_str :=
    if Py.contains fence_json response_text
    then
      Py.strip
        (Py.slice response_text
           (Py.find response_text fence_json 0 + 7)
           (Py.find response_text fence
              (Py.find response_text fence_json 0 + 7)))
    else response_text in
  extract_json_str response_text = json_str
  /\ parse_response key response_text
     = match Json.loads json_str with
       | Raise JSONDecodeError => Ok (JObj [(key, JStr response_text)])
       | other => other
       end
  /\ (forall v, Json.loads json_str = Ok v -> object_free v = true).
Proof.
  intros Hb json_str.
  assert (He : extract_json_str response_text = json_str).
  { unfold extract_json_str, json_str. rewrite Hb.
    by destruct (Py.contains fence_json response_text). }
  split_and!; [done | by unfold parse_response; rewrite He |].
  intros v Hv. pose proof (loads_spec json_str) as H. rewrite Hv in H.
  apply H. rewrite <- He.
  apply contains_false, index_of_present in Hb.
  intros Hin. apply Hb. by apply (extract_subseteq response_text).
Qed.

Lemma no_brace_response_witness :
  extract_json_str (str "The answers: ```json [1, 2] ```") = str "[1, 2]"
  /\ parse_response raw_response (str "The answers: ```json [1, 2] ```")
     = Ok (JArr [JInt 1; JInt 2]).
Proof.
  destruct (no_brace_response raw_response
              (str "The answers: ```json [1, 2] ```") eq_refl)
    as (H1 & H2 & _).
  split; [by rewrite H1 | by rewrite H2].
Defined.

(** C2 fails as stated: a reply with no brace can be valid JSON. *)
Lemma no_brace_fallback_as_stated_fails :
  Py.contains lbrace (str "[1, 2]") = false
  /\ parse_response raw_response (str "[1, 2]") = Ok (JArr [JInt 1; JInt 2])
  /\ ~ (forall key response_text,
          Py.contains lbrace response_text = false ->
          parse_response key response_text
          = Ok (JObj [(key, JStr response_text)])).
Proof.
  split_and!; [reflexivity | reflexivity |].
  intros H. specialize (H raw_response (str "[1, 2]") eq_refl).
  vm_compute in H. discriminate H.
Qed.

End ParserClaims.

(* ===================================================================== *)
(** * The workflows *)
(* ===================================================================== *)

Section Workflows.

Variable llm : client.

(** The study graph runs its seven nodes in the order of its edges. *)
Lemma study_graph_runs (st : state) :
  graph_invoke (study_graph llm) st =
    run_nodes (map (fun s => section_node llm (fst s) (snd s)) sections) st.
Proof. reflexivity. Qed.

Lemma test_graph_runs (st : state) :
  graph_invoke (test_graph llm) st = run_nodes [generate_test_questions llm] st.
Proof. reflexivity. Qed.

Lemma insert_union_self (k : string) (v : value) (st : state) :
  <[k := v]> st ∪ st = <[k := v]> st.
Proof. by rewrite <- insert_union_l, (idemp_L (∪)). Qed.

(** One node: one call, the reply stored under the key of the node. *)
Lemma section_node_run suffix key (st : state) base w tr :
  state_prompt st = Ok base ->
  section_node llm suffix key st (w, tr) =
    match invoke llm (base ++ lines suffix) w with
    | (inl content, w') =>
        (Ok (<[key := VStr content]> st),
         (w', tr ++ [{| call_prompt := base ++ lines suffix;
                        call_reply := inl content |}]))
    | (inr e, w') =>
        (Raise e,
         (w', tr ++ [{| call_prompt := base ++ lines suffix;
                        call_reply := inr e |}]))
    end.
Proof.
  intros H. unfold section_node, bind, lift, llm_invoke, ret. rewrite H.
  cbn [fst snd]. by destruct (invoke llm (base ++ lines suffix) w) as [[c|e] w'].
Qed.

(** The prompt depends on the five request fields only. *)
Lemma state_prompt_insert key v (st : state) :
  key ∉ read_keys -> state_prompt (<[key := v]> st) = state_prompt st.
Proof.
  intros H. unfold state_prompt, get_str, get_docs, get_counts.
  rewrite !lookup_insert_ne; [done|..]; intros ->; apply H; decide_literal.
Qed.

Lemma run_nodes_sections steps :
  Forall (fun s => snd s ∉ read_keys) steps ->
  forall (st : state) base w tr,
    state_prompt st = Ok base ->
    run_nodes (map (fun s => section_node llm (fst s) (snd s)) steps) st (w, tr)
    = ask_all llm (map (fun s => (base ++ lines (fst s), snd s)) steps)
        st w tr.
Proof.
  induction 1 as [|[suffix key] steps Hk Hs IH]; intros st base w tr Hb.
  { reflexivity. }
  cbn [map run_nodes ask_all fst snd]. unfold bind.
  rewrite (section_node_run _ _ _ _ _ _ Hb).
  destruct (invoke llm (base ++ lines suffix) w) as [[content|e] w'];
    [|done].
  rewrite insert_union_self. apply IH. by rewrite state_prompt_insert.
Qed.

(** What a sequence of calls leaves behind. *)
Lemma ask_all_spec ps :
  forall (st : state) w tr,
    exists new,
      snd (snd (ask_all llm ps st w tr)) = tr ++ new
      /\ match fst (ask_all llm ps st w tr) with
         | Ok st' =>
             prompts new = map fst ps
             /\ Forall (fun c => failed c = false) new
             /\ dom st' = list_to_set (map snd ps) ∪ dom st
             /\ (forall k, k ∉ map snd ps -> st' !! k = st !! k)
             /\ (forall k, k ∈ map snd ps -> exists s, st' !! k = Some (VStr s))
         | Raise e =>
             prompts new `prefix_of` map fst ps
             /\ exists before p,
                  new = before ++ [{| call_prompt := p; call_reply := inr e |}]
                  /\ Forall (fun c => failed c = false) before
         | Unmodelled | OutOfFuel => False
         end.
Proof.
  induction ps as [|[prompt key] ps IH]; intros st w tr; cbn [ask_all].
  { exists []. cbn. rewrite app_nil_r. split_and!; try done.
    - cbn. by rewrite (left_id_L ∅ (∪)).
    - by intros k ?%elem_of_nil. }
  destruct (invoke llm prompt w) as [[content|e] w'].
  - destruct (IH (<[key := VStr content]> st) w'
                (tr ++ [{| call_prompt := prompt; call_reply := inl content |}]))
      as (new & Htr & H).
    exists ({| call_prompt := prompt; call_reply := inl content |} :: new).
    split; [by rewrite Htr, <- app_assoc|].
    destruct (fst (ask_all llm ps _ w' _)) as [st'|e| |]; try done.
    + destruct H as (Hp & Hf & Hd & Hframe & Hstr).
      cbn [map fst snd prompts]. split_and!.
      * unfold prompts in Hp. by rewrite Hp.
      * by constructor.
      * apply set_eq. intros k.
        rewrite Hd, dom_insert_L, !elem_of_union, !elem_of_list_to_set.
        rewrite elem_of_singleton, elem_of_cons. tauto.
      * intros k [Hk1 Hk2]%not_elem_of_cons.
        rewrite Hframe by done. by rewrite lookup_insert_ne.
      * intros k Hk. destruct (decide (k ∈ map snd ps)) as [Hin|Hnin].
        { by apply Hstr. }
        apply elem_of_cons in Hk as [->|Hk]; [|done].
        rewrite Hframe by done. rewrite lookup_insert_eq. by eexists.
    + destruct H as (Hp & before & p & -> & Hf). split.
      * cbn [map fst prompts]. by apply prefix_cons.
      * exists ({| call_prompt := prompt; call_reply := inl content |} :: before), p.
        split; [done | by constructor].
  - exists [{| call_prompt := prompt; call_reply := inr e |}]. cbn.
    split_and!; [done | by apply prefix_cons, prefix_nil |].
    by exists [], prompt.
Qed.

End Workflows.

Section StudyMaterial.

Variable llm : client.
Variables theme class_name subject : text.
Variable user_docs : option (list doc).
Variable counts : option (list (text * json)).

(** The state [generate_study_material] starts the graph from. *)
#[local] Abbreviation initial_state :=
  (<["counts" := VJson (JObj (default [] counts))]>
   (<["user_docs" := VDocs (default [] user_docs)]>
   (<["long_qa" := VStr []]>
   (<["medium_qa" := VStr []]>
   (<["short_qa" := VStr []]>
   (<["fill_blanks" := VStr []]>
   (<["true_false" := VStr []]>
   (<["mcqs" := VStr []]>
   (<["study_content" := VStr []]>
   (<["prompt" := VStr []]>
   (<["subject" := VStr subject]>
   (<["class_name" := VStr class_name]>
   (<["theme" := VStr theme]> (∅ : state)))))))))))))).

#[local] Abbreviation base :=
  (generate_prompt theme class_name subject (default [] user_docs)
     (default [] counts)).

Lemma initial_state_prompt : state_prompt initial_state = Ok base.
Proof. reflexivity. Qed.

Lemma initial_state_dom :
  dom initial_state = list_to_set (section_keys ++ request_keys).
Proof.
  rewrite !dom_insert_L, dom_empty_L. apply set_eq. intros k.
  rewrite elem_of_list_to_set. unfold section_keys, request_keys. cbn [app].
  rewrite !elem_of_union, !elem_of_cons, !elem_of_singleton, elem_of_nil.
  rewrite elem_of_empty. tauto.
Qed.

(** The workflow is its seven calls, in order. *)
Lemma generate_study_material_runs w tr :
  generate_study_material llm theme class_name subject user_docs counts (w, tr)
  = ask_all llm
      (map (fun s => (base ++ lines (fst s), snd s)) sections)
      initial_state w tr.
Proof.
  unfold generate_study_material. rewrite study_graph_runs.
  apply run_nodes_sections; [|apply initial_state_prompt].
  repeat constructor; cbn; decide_literal.
Qed.


#[local] Abbreviation workflow :=
  (generate_study_material llm theme class_name subject user_docs counts).

#[local] Abbreviation calls :=
  (map (fun s : list string * string => (base ++ lines (fst s), snd s))
     sections).

Lemma outcome_runs w : outcome workflow w = fst (ask_all llm calls initial_state w []).
Proof.
  unfold outcome, run. rewrite generate_study_material_runs.
  by destruct (ask_all _ _ _ _ _) as [r [w' tr']].
Qed.

Lemma trace_runs w :
  trace workflow w = snd (snd (ask_all llm calls initial_state w [])).
Proof.
  unfold trace, run. rewrite generate_study_material_runs.
  by destruct (ask_all _ _ _ _ _) as [r [w' tr']].
Qed.

(** C4, as amended.  The record returned by a run that completes holds
    the seven section keys, each bound to a string, none of them absent,
    next to the six other fields of [StudyMaterialState], and no other
    key: thirteen keys in all. *)
Theorem study_material_sections w st' :
  outcome workflow w = Ok st' ->
  (forall k, is_Some (st' !! k) <-> k ∈ section_keys \/ k ∈ request_keys)
  /\ Forall (fun k => exists s, st' !! k = Some (VStr s)) section_keys
  /\ length section_keys = 7%nat
  /\ NoDup (section_keys ++ request_keys).
Proof.
  rewrite outcome_runs. intros Hok.
  destruct (ask_all_spec llm calls initial_state w []) as (new & _ & H).
  rewrite Hok in H. destruct H as (_ & _ & Hd & _ & Hstr).
  split_and!.
  - intros k. rewrite <- elem_of_dom, Hd, initial_state_dom.
    rewrite elem_of_union, !elem_of_list_to_set, elem_of_app.
    change (map snd calls) with section_keys. tauto.
  - apply Forall_forall. intros k Hk. by apply Hstr.
  - reflexivity.
  - decide_literal.
Qed.

(** C5.  When a completion call of a run fails, the run raises the error
    of that call, which is the last one made: no record is returned. *)
Theorem study_material_fail_fast w :
  Exists (fun c => failed c = true) (trace workflow w) ->
  exists e before p,
    outcome workflow w = Raise e
    /\ trace workflow w
       = before ++ [{| call_prompt := p; call_reply := inr e |}]
    /\ Forall (fun c => failed c = false) before.
Proof.
  rewrite outcome_runs, trace_runs. intros Hex.
  destruct (ask_all_spec llm calls initial_state w []) as (new & Htr & H).
  rewrite Htr in *. cbn [app] in *.
  destruct (fst (ask_all llm calls initial_state w [])) as [st'|e| |];
    try done.
  - destruct H as (_ & Hf & _). exfalso.
    apply Exists_exists in Hex as (c & Hc & Hfail).
    rewrite Forall_forall in Hf. specialize (Hf c Hc). congruence.
  - destruct H as (_ & before & p & -> & Hf). by exists e, before, p.
Qed.

(** A run returns a record or raises: nothing else. *)
Lemma study_material_outcomes w :
  (exists st', outcome workflow w = Ok st')
  \/ (exists e, outcome workflow w = Raise e).
Proof.
  rewrite outcome_runs.
  destruct (ask_all_spec llm calls initial_state w []) as (new & _ & H).
  destruct (fst (ask_all llm calls initial_state w [])); try done;
    [left | right]; by eexists.
Qed.

(** A run in which every call is answered returns a record. *)
Lemma study_material_completes w :
  Forall (fun c => failed c = false) (trace workflow w) ->
  exists st', outcome workflow w = Ok st'.
Proof.
  intros Hall. destruct (study_material_outcomes w) as [H|[e He]]; [done|].
  assert (Hex : Exists (fun c => failed c = true) (trace workflow w)).
  { revert He. rewrite outcome_runs, trace_runs. intros He.
    destruct (ask_all_spec llm calls initial_state w []) as (new & -> & H).
    rewrite He in H. destruct H as (_ & before & p & -> & _).
    cbn [app]. apply Exists_app. right. by constructor. }
  apply Exists_exists in Hex as (c & Hc & Hfail).
  rewrite Forall_forall in Hall. specialize (Hall c Hc). congruence.
Qed.

Lemma successors_unique (es : list (string * string)) n :
  NoDup (map fst es) -> (length (successors es n) <= 1)%nat.
Proof.
  unfold successors. induction es as [|[a b] es IH]; [simpl; lia|].
  intros [Ha Hes]%NoDup_cons. cbn [List.filter fst].
  case_bool_decide as E; [|by apply IH]. subst a.
  assert (Hnone : List.filter (fun e => bool_decide (e.1 = n)) es = []).
  { clear IH Hes. induction es as [|[a' b'] es IH]; [done|].
    cbn [map fst] in Ha. apply not_elem_of_cons in Ha as [Hne Ha].
    cbn [List.filter fst]. rewrite bool_decide_eq_false_2 by done.
    by apply IH. }
  rewrite Hnone. simpl. lia.
Qed.

(** C6.  The graph is the chain content, mcqs, true_false, fill_blanks,
    short_qa, medium_qa, long_qa: no node has two successors, no node
    comes twice, the nodes met are the seven section nodes in that order.
    A step invokes the completion client once, with the prompt of its
    section, and only then stores the reply and hands the state on; when
    the call fails the step raises and stores nothing.  So a run makes
    the calls of the seven section prompts in that order, one call a
    step: all seven, each answered, when it returns a record, and those
    up to the first call that fails when it raises; it ends in no other
    way. *)
Theorem study_workflow_linear w :
  path_from (edges (study_graph llm)) 25 START
  = ["generate_study_content"; "generate_mcqs"; "generate_true_false";
     "generate_fill_blanks"; "generate_short_qa"; "generate_medium_qa";
     "generate_long_qa"]%string
  /\ (forall n, (length (successors (edges (study_graph llm)) n) <= 1)%nat)
  /\ NoDup (START :: path_from (edges (study_graph llm)) 25 START ++ [END])
  /\ map (lookup_node (nodes (study_graph llm)))
       (path_from (edges (study_graph llm)) 25 START)
     = map (fun s => Some (section_node llm (fst s) (snd s))) sections
  /\ (forall s (st : state) b w0 tr0,
        s ∈ sections ->
        state_prompt st = Ok b ->
        exists reply w1,
          invoke llm (b ++ lines (fst s)) w0 = (reply, w1)
          /\ section_node llm (fst s) (snd s) st (w0, tr0)
             = (match reply with
                | inl content => Ok (<[snd s := VStr content]> st)
                | inr e => Raise e
                end,
                (w1, tr0 ++ [{| call_prompt := b ++ lines (fst s);
                                call_reply := reply |}])))
  /\ prompts (trace workflow w)
     `prefix_of` section_prompts theme class_name subject user_docs counts
  /\ match outcome workflow w with
     | Ok st' =>
         prompts (trace workflow w)
         = section_prompts theme class_name subject user_docs counts
         /\ Forall (fun c => failed c = false) (trace workflow w)
     | Raise e =>
         exists before p,
           trace workflow w
           = before ++ [{| call_prompt := p; call_reply := inr e |}]
           /\ Forall (fun c => failed c = false) before
     | Unmodelled | OutOfFuel => False
     end.
Proof.
  split_and!.
  - reflexivity.
  - intros n. apply successors_unique. decide_literal.
  - decide_literal.
  - reflexivity.
  - intros s st b w0 tr0 _ Hb.
    rewrite (section_node_run llm _ _ _ _ w0 tr0 Hb).
    destruct (invoke llm (b ++ lines (fst s)) w0) as [[content|e] w1];
      by eexists _, _.
  - rewrite trace_runs.
    destruct (ask_all_spec llm calls initial_state w []) as (new & -> & H).
    cbn [app]. unfold section_prompts.
    replace (map _ sections) with (map fst calls) by (by rewrite map_map).
    destruct (fst (ask_all llm calls initial_state w [])) as [st'|e| |];
      try done.
    + destruct H as [-> _]. done.
    + by destruct H as [H _].
  - rewrite outcome_runs, trace_runs.
    destruct (ask_all_spec llm calls initial_state w []) as (new & -> & H).
    cbn [app].
    destruct (fst (ask_all llm calls initial_state w [])) as [st'|e| |];
      try done.
    + destruct H as (-> & Hf & _). split; [|done].
      unfold section_prompts. by rewrite map_map.
    + by destruct H as [_ H].
Qed.

(** C10.  The record returned by a run that completes holds the request
    as it was given: theme, class_name, subject, the documents (none when
    omitted) and the counts (none when omitted); and a node changes the
    state at the key of its section only. *)
Theorem study_material_frame w st' :
  outcome workflow w = Ok st' ->
  st' !! "theme"%string = Some (VStr theme)
  /\ st' !! "class_name"%string = Some (VStr class_name)
  /\ st' !! "subject"%string = Some (VStr subject)
  /\ st' !! "user_docs"%string = Some (VDocs (default [] user_docs))
  /\ st' !! "counts"%string = Some (VJson (JObj (default [] counts)))
  /\ (forall s (st1 st2 : state) sigma1 sigma2,
        s ∈ sections ->
        section_node llm (fst s) (snd s) st1 sigma1 = (Ok st2, sigma2) ->
        forall k, k <> snd s -> st2 !! k = st1 !! k).
Proof.
  rewrite outcome_runs. intros Hok.
  destruct (ask_all_spec llm calls initial_state w []) as (new & _ & H).
  rewrite Hok in H. destruct H as (_ & _ & _ & Hframe & _).
  change (map snd calls) with section_keys in Hframe.
  split_and!; try (rewrite Hframe by decide_literal; reflexivity).
  intros s st1 st2 [w1 tr1] sigma2 _ Hrun k Hk.
  unfold section_node, bind, lift, llm_invoke, ret in Hrun.
  destruct (state_prompt st1) as [b| | |]; try done.
  cbn [fst snd] in Hrun.
  destruct (invoke llm _ w1) as [[c|e] w']; [|done].
  injection Hrun as <- _. by rewrite lookup_insert_ne.
Qed.

End StudyMaterial.

Section StudyMaterialExamples.

Lemma study_material_sections_witness :
  outcome (generate_study_material scripted (str "Force and Pressure")
             (str "Class 8") (str "Physics") None None) seven_replies
  = Ok example_record
  /\ Forall (fun k => exists s, example_record !! k = Some (VStr s))
       section_keys.
Proof.
  assert (H : outcome (generate_study_material scripted
                         (str "Force and Pressure") (str "Class 8")
                         (str "Physics") None None) seven_replies
              = Ok example_record) by reflexivity.
  split; [exact H|].
  exact (proj1 (proj2 (study_material_sections scripted _ _ _ _ _ _ _ H))).
Defined.

(** C4 fails as stated: the record of a completed run holds thirteen
    keys, not seven; [theme] is one of them and is no section key, and
    [user_docs] is bound to a list, not to a string. *)
Lemma study_material_sections_as_stated_fails :
  outcome (generate_study_material scripted (str "Force and Pressure")
             (str "Class 8") (str "Physics") None None) seven_replies
  = Ok example_record
  /\ size example_record = 13%nat
  /\ is_Some (example_record !! "theme"%string)
  /\ ("theme"%string ∉ section_keys)
  /\ example_record !! "user_docs"%string = Some (VDocs [])
  /\ ~ (forall (llm : client) (theme class_name subject : text)
               (user_docs : option (list doc))
               (counts : option (list (text * json))) (w : World llm)
               (st' : state),
          outcome (generate_study_material llm theme class_name subject
                     user_docs counts) w = Ok st' ->
          forall k, is_Some (st' !! k) ->
                    k ∈ section_keys /\ exists s, st' !! k = Some (VStr s)).
Proof.
  assert (H : outcome (generate_study_material scripted
                         (str "Force and Pressure") (str "Class 8")
                         (str "Physics") None None) seven_replies
              = Ok example_record) by reflexivity.
  assert (Hk : "theme"%string ∉ section_keys) by decide_literal.
  split_and!; [exact H | reflexivity | by eexists | exact Hk | reflexivity |].
  intros Hall.
  destruct (Hall scripted _ _ _ _ _ _ _ H "theme"%string) as [Hin _];
    [by eexists | by apply Hk].
Qed.

Lemma study_material_fail_fast_witness :
  Exists (fun c => failed c = true)
    (trace (generate_study_material scripted (str "Force and Pressure")
              (str "Class 8") (str "Physics") None None) failing_script)
  /\ exists e,
       outcome (generate_study_material scripted (str "Force and Pressure")
                  (str "Class 8") (str "Physics") None None) failing_script
       = Raise e.
Proof.
  assert (H : Exists (fun c => failed c = true)
                (trace (generate_study_material scripted
                          (str "Force and Pressure") (str "Class 8")
                          (str "Physics") None None) failing_script))
    by decide_literal.
  split; [exact H|].
  destruct (study_material_fail_fast scripted _ _ _ _ _ _ H)
    as (e & before & p & Hout & _).
  by exists e.
Defined.

Lemma study_material_frame_witness :
  example_record !! "theme"%string = Some (VStr (str "Force and Pressure"))
  /\ example_record !! "user_docs"%string = Some (VDocs [])
  /\ example_record !! "counts"%string = Some (VJson (JObj [])).
Proof.
  assert (H : outcome (generate_study_material scripted
                         (str "Force and Pressure") (str "Class 8")
                         (str "Physics") None None) seven_replies
              = Ok example_record) by reflexivity.
  destruct (study_material_frame scripted _ _ _ _ _ _ _ H)
    as (H1 & _ & _ & H4 & H5 & _).
  by split_and!.
Defined.

End StudyMaterialExamples.

Section TestWorkflow.

Variable llm : client.
Variables theme class_name subject : text.
Variables num_mcq num_true_false num_fill_blanks num_short_qa num_medium_qa
  num_long_qa : Z.

#[local] Abbreviation test_prompt :=
  (generate_test_prompt theme class_name subject num_mcq num_true_false
     num_fill_blanks num_short_qa num_medium_qa num_long_qa).

#[local] Abbreviation test_workflow :=
  (generate_test llm theme class_name subject num_mcq num_true_false
     num_fill_blanks num_short_qa num_medium_qa num_long_qa).

(** The test workflow is one call and one parse. *)
Lemma generate_test_runs w tr :
  exists initial_state : state,
    test_workflow (w, tr) =
      match invoke llm test_prompt w with
      | (inl reply, w') =>
          (match parse_response raw_response reply with
           | Ok bank => Ok (<["questions" := VJson bank]> initial_state)
           | Raise e => Raise e
           | Unmodelled => Unmodelled
           | OutOfFuel => OutOfFuel
           end,
           (w', tr ++ [{| call_prompt := test_prompt;
                          call_reply := inl reply |}]))
      | (inr e, w') =>
          (Raise e,
           (w', tr ++ [{| call_prompt := test_prompt;
                          call_reply := inr e |}]))
      end.
Proof.
  eexists. unfold generate_test. rewrite test_graph_runs.
  cbn [run_nodes]. unfold bind at 1.
  unfold generate_test_questions, bind, lift, llm_invoke, ret.
  change (test_state_prompt _) with (Ok test_prompt).
  cbn [fst snd].
  destruct (invoke llm test_prompt w) as [[reply|e] w']; [|done].
  destruct (parse_response raw_response reply) as [bank|e| |]; try done.
  by rewrite insert_union_self.
Qed.

(** [evaluate_answers] is one call and one parse, with the feedback key
    for the fallback. *)
Lemma evaluate_answers_runs (questions user_answers : json) w tr :
  evaluate_answers llm questions user_answers (w, tr) =
    match invoke llm (evaluation_prompt questions user_answers) w with
    | (inl reply, w') =>
        (parse_response raw_feedback reply,
         (w', tr ++ [{| call_prompt := evaluation_prompt questions user_answers;
                        call_reply := inl reply |}]))
    | (inr e, w') =>
        (Raise e,
         (w', tr ++ [{| call_prompt := evaluation_prompt questions user_answers;
                        call_reply := inr e |}]))
    end.
Proof.
  unfold evaluate_answers, bind, lift, llm_invoke. cbn [fst snd].
  by destruct (invoke llm _ w) as [[reply|e] w'].
Qed.

End TestWorkflow.

Section TestClaims.

Lemma contains_app_r sub a b :
  Py.contains sub b = true -> Py.contains sub (a ++ b) = true.
Proof.
  intros H. induction a as [|c a IH]; [done|].
  unfold Py.contains in *. cbn [app Py.index_of].
  destruct (Py.startswith sub (c :: a ++ b)); [done|].
  by destruct (Py.index_of sub (a ++ b)).
Qed.

(** The prompt of a request with [num_mcq = 0] asks for 0 questions. *)
Lemma prompt_asks_zero_mcqs theme class_name subject n2 n3 n4 n5 n6 :
  Py.contains (str "1. MCQs: Generate 0 multiple choice questions")
    (generate_test_prompt theme class_name subject 0 n2 n3 n4 n5 n6) = true.
Proof.
  unfold generate_test_prompt. do 6 apply contains_app_r.
  match goal with
  | |- Py.contains _ (lines ?l ++ ?rest) = true =>
      change (lines l)
        with (lines [blank;
                     "Board: ICSE";
                     blank;
                     "Generate EXACTLY the following number of questions for each section, with questions organized by difficulty levels (EASY, MEDIUM, HARD, HARDEST). Distribute questions roughly evenly across difficulty levels for each section.";
                     blank;
                     "REQUIREMENTS:";
                     blank]
              ++ str "1. MCQs: Generate ")
  end.
  rewrite <- app_assoc. apply contains_app_r. reflexivity.
Qed.

(** C8, as amended.  For a request with [num_mcq = 0] the prompt asks for
    0 multiple choice questions, one completion call is made, and the bank
    returned is what the response parser makes of the reply, whatever its
    [mcqs] entry holds: nothing in the workflow looks at the counts. *)
Theorem zero_mcq_bank (llm : client) (theme class_name subject : text)
    (n2 n3 n4 n5 n6 : Z) (w : World llm) (st : state) :
  outcome (generate_test llm theme class_name subject 0 n2 n3 n4 n5 n6) w
  = Ok st ->
  Py.contains (str "1. MCQs: Generate 0 multiple choice questions")
    (generate_test_prompt theme class_name subject 0 n2 n3 n4 n5 n6) = true
  /\ exists reply bank,
       trace (generate_test llm theme class_name subject 0 n2 n3 n4 n5 n6) w
       = [{| call_prompt :=
               generate_test_prompt theme class_name subject 0 n2 n3 n4 n5 n6;
             call_reply := inl reply |}]
       /\ parse_response raw_response reply = Ok bank
       /\ st !! "questions"%string = Some (VJson bank).
Proof.
  intros Hok. split; [apply prompt_asks_zero_mcqs|].
  destruct (generate_test_runs llm theme class_name subject 0 n2 n3 n4 n5 n6
              w []) as (st0 & Hrun).
  unfold outcome, trace, run in *. rewrite Hrun in *. clear Hrun.
  destruct (invoke llm _ w) as [[reply|e] w']; [|done].
  destruct (parse_response raw_response reply) as [bank|e| |] eqn:E;
    try done.
  cbn in Hok. injection Hok as <-.
  exists reply, bank. split_and!; [done | done |].
  apply lookup_insert_eq.
Qed.

Lemma zero_mcq_bank_witness :
  exists st bank,
    outcome (generate_test scripted (str "Force and Pressure") (str "Class 8")
               (str "Physics") 0 0 0 0 0 0) [inl (str "{}")] = Ok st
    /\ st !! "questions"%string = Some (VJson bank)
    /\ parse_response raw_response (str "{}") = Ok bank.
Proof.
  assert (H : outcome (generate_test scripted (str "Force and Pressure")
                         (str "Class 8") (str "Physics") 0 0 0 0 0 0)
                [inl (str "{}")]
              = Ok (<["questions" := VJson (JObj [])]>
                      (<["corrections" := VJson (JObj [])]>
                      (<["user_answers" := VJson (JObj [])]>
                      (<["num_long_qa" := VInt 0]>
                      (<["num_medium_qa" := VInt 0]>
                      (<["num_short_qa" := VInt 0]>
                      (<["num_fill_blanks" := VInt 0]>
                      (<["num_true_false" := VInt 0]>
                      (<["num_mcq" := VInt 0]>
                      (<["subject" := VStr (str "Physics")]>
                      (<["class_name" := VStr (str "Class 8")]>
                      (<["theme" := VStr (str "Force and Pressure")]>
                         (∅ : state)))))))))))))) by reflexivity.
  destruct (zero_mcq_bank scripted _ _ _ _ _ _ _ _ _ _ H)
    as (_ & reply & bank & Htr & Hparse & Hq).
  assert (Hreply : reply = str "{}").
  { apply (f_equal (map call_reply)) in Htr. vm_compute in Htr.
    by injection Htr as <-. }
  subst reply. eexists. exists bank. split_and!; [exact H | exact Hq | exact Hparse].
Defined.

(** C8 fails as stated: with [num_mcq = 0] and a reply holding one
    multiple choice question, the bank returned holds that question. *)
Lemma zero_mcq_bank_as_stated_fails :
  (exists st bank,
     outcome (generate_test scripted (str "Force and Pressure")
                (str "Class 8") (str "Physics") 0 0 0 0 0 0)
       [inl mcq_reply] = Ok st
     /\ st !! "questions"%string = Some (VJson bank)
     /\ mcqs_empty bank = false)
  /\ ~ (forall (llm : client) (w : World llm) theme class_name subject
               n2 n3 n4 n5 n6 (st : state) bank,
          outcome (generate_test llm theme class_name subject 0 n2 n3 n4 n5 n6)
            w = Ok st ->
          st !! "questions"%string = Some (VJson bank) ->
          mcqs_empty bank = true).
Proof.
  assert (H : exists st bank,
     outcome (generate_test scripted (str "Force and Pressure")
                (str "Class 8") (str "Physics") 0 0 0 0 0 0)
       [inl mcq_reply] = Ok st
     /\ st !! "questions"%string = Some (VJson bank)
     /\ mcqs_empty bank = false).
  { eexists. eexists. split_and!; reflexivity. }
  split; [exact H|].
  intros Hall. destruct H as (st & bank & H1 & H2 & H3).
  specialize (Hall scripted _ _ _ _ _ _ _ _ _ _ _ H1 H2). congruence.
Qed.


End TestClaims.

(* ===================================================================== *)
(** * The response parser: further properties *)
(* ===================================================================== *)

Section ParserFacts.

Import Json.

Implicit Types (s sub a b p t pre post body : text) (c : ascii).

(** ** Objects *)

Lemma JSONObject_loop_obj scan n :
  forall s pairs v rest,
    JSONObject_loop scan n s pairs = Ok (v, rest) -> exists m, v = JObj m.
Proof.
  induction n as [|n IH]; intros s pairs v rest; cbn [JSONObject_loop];
    [done|].
  destruct (scanstring s) as [[key s1]| | |]; cbn [rbind]; try done.
  destruct (skip_ws s1) as [|c s2]; [done|].
  destruct (Ascii.eqb c ":"); [|done].
  destruct (scan (skip_ws s2)) as [[value s3]| | |]; cbn [rbind]; try done.
  destruct (skip_ws s3) as [|c' s4]; [done|].
  destruct (Ascii.eqb c' "}"). { intros [= <- _]. by eexists. }
  destruct (Ascii.eqb c' ","); [|done].
  destruct (skip_ws s4) as [|q s5]; [done|].
  destruct (Ascii.eqb q dquote); [|done]. apply IH.
Qed.

Lemma JSONObject_obj scan s v rest :
  JSONObject scan s = Ok (v, rest) -> exists m, v = JObj m.
Proof.
  unfold JSONObject. cbv zeta.
  destruct (Py.startswith (str "}") (skip_ws s)).
  { intros [= <- _]. by eexists. }
  destruct (Py.startswith [dquote] (skip_ws s)); [|done].
  apply JSONObject_loop_obj.
Qed.

(** A text that starts with a brace is read as a dict, if at all. *)
Lemma loads_brace_obj r v :
  loads ("{"%char :: r) = Ok v -> exists m, v = JObj m.
Proof.
  unfold loads, decode.
  change (skip_ws ("{"%char :: r)) with ("{"%char :: r).
  rewrite scan_once_object.
  destruct (JSONObject _ r) as [[obj rest]| | |] eqn:E; cbn [rbind]; try done.
  apply JSONObject_obj in E as [m ->].
  destruct (skip_ws rest); [|done]. intros [= <-]. by eexists.
Qed.

(** ** Slices *)

Lemma index_of_char_drop c s i :
  Py.index_of [c] s = Some i -> exists tl, drop i s = c :: tl.
Proof.
  revert i; induction s as [|y s IH]; intros i; [done|]. simpl.
  destruct (Ascii.eqb_spec c y) as [->|_].
  - intros [= <-]. by eexists.
  - destruct (Py.index_of [c] s) as [j|]; [|done].
    intros [= <-]. by apply IH.
Qed.

Lemma adjust_inside s (i : nat) :
  (i <= length s)%nat -> Py.adjust s (Z.of_nat i) = Z.of_nat i.
Proof.
  intros H. unfold Py.adjust, Py.len.
  destruct (Z.ltb_spec (Z.of_nat i) 0); lia.
Qed.

(** A slice that starts at the first occurrence of a character is empty
    or starts with that character. *)
Lemma slice_from_char c s i stop :
  Py.index_of [c] s = Some i ->
  Py.slice s (Z.of_nat i) stop = []
  \/ exists tl, Py.slice s (Z.of_nat i) stop = c :: tl.
Proof.
  intros H. pose proof (index_of_bound _ _ _ H) as Hb. simpl in Hb.
  unfold Py.slice. rewrite adjust_inside by lia. rewrite Nat2Z.id.
  destruct (index_of_char_drop _ _ _ H) as [tl ->].
  destruct (Z.to_nat _) as [|k]; [by left | right; by eexists].
Qed.

(** A slice whose stop is not after its start is empty. *)
Lemma slice_empty s (i : nat) stop :
  (i <= length s)%nat -> 0 <= stop <= Z.of_nat i ->
  Py.slice s (Z.of_nat i) stop = [].
Proof.
  intros Hi Hs. unfold Py.slice. rewrite adjust_inside by lia.
  unfold Py.adjust, Py.len. destruct (Z.ltb_spec stop 0); [lia|].
  replace (Z.to_nat _) with 0%nat by lia. done.
Qed.

Lemma rfind_ge s sub : -1 <= Py.rfind s sub.
Proof. unfold Py.rfind. destruct (Py.rindex_of sub s); lia. Qed.

(** ** Occurrences of a needle that has no border *)

Lemma startswith_take p s :
  Py.startswith p s = true <-> take (length p) s = p.
Proof.
  revert s; induction p as [|x p IH]; intros [|y s]; simpl; try done.
  rewrite andb_true_iff, IH. split.
  - intros [->%Ascii.eqb_eq ->]. done.
  - intros [= -> H]. by rewrite Ascii.eqb_refl.
Qed.

(** A needle that lies across the end of [a] in [a ++ sub ++ rest] has a
    border: a proper suffix of it is a prefix of it. *)
Lemma startswith_border sub a rest :
  (0 < length a < length sub)%nat ->
  Py.startswith sub (a ++ sub ++ rest) = true ->
  drop (length a) sub = take (length sub - length a) sub.
Proof.
  intros Hl H%startswith_take.
  set (n := (length sub - length a)%nat).
  replace (length sub) with (length a + n)%nat in H by lia.
  rewrite <- H at 1. rewrite <- take_drop_commute.
  rewrite drop_app_length. rewrite take_app_le by lia. done.
Qed.

Lemma startswith_inside p a b :
  (length p <= length a)%nat ->
  Py.startswith p (a ++ b) = Py.startswith p a.
Proof.
  revert a; induction p as [|x p IH]; intros [|y a]; simpl; try done; try lia.
  intros H. rewrite IH by lia. done.
Qed.

(** The first occurrence of a needle without border, after a text that
    does not hold it. *)
Lemma index_of_after sub pre rest :
  sub <> [] ->
  (forall d, (0 < d < length sub)%nat ->
             drop d sub <> take (length sub - d) sub) ->
  Py.index_of sub pre = None ->
  Py.index_of sub (pre ++ sub ++ rest) = Some (length pre).
Proof.
  intros Hne Hborder. induction pre as [|y pre IH]; intros Hpre.
  { cbn [app]. apply index_of_prefix, startswith_app. }
  simpl in Hpre. destruct (Py.startswith sub (y :: pre)) eqn:E; [done|].
  destruct (Py.index_of sub pre) eqn:E'; [done|].
  cbn [app Py.index_of].
  destruct (Py.startswith sub (y :: pre ++ sub ++ rest)) eqn:E2.
  - exfalso. destruct (decide (length sub <= length (y :: pre))%nat) as [Hle|Hgt].
    + change (y :: pre ++ sub ++ rest) with ((y :: pre) ++ sub ++ rest) in E2.
      rewrite startswith_inside in E2 by done. congruence.
    + apply (Hborder (length (y :: pre))); [simpl in *; lia|].
      by apply (startswith_border sub (y :: pre) rest); [simpl in *; lia|].
  - rewrite IH by done. done.
Qed.

Lemma fence_json_border_free :
  forall d, (0 < d < length fence_json)%nat ->
            drop d fence_json <> take (length fence_json - d) fence_json.
Proof.
  intros d Hd. change (length fence_json) with 7%nat in *.
  do 7 (destruct d as [|d]; [try lia; done|]). lia.
Qed.

(** A fenced body with no [```] in it, after a text with no [```json] and
    before any text, is extracted as it is up to the white space around
    it. *)
Lemma extract_fenced_amid pre body post :
  Py.index_of fence_json pre = None ->
  Py.index_of fence body = None ->
  extract_json_str
    (pre ++ (fence_json ++ [newline] ++ body ++ [newline] ++ fence) ++ post)
  = Py.strip ([newline] ++ body ++ [newline]).
Proof.
  intros Hpre Hb.
  set (inner := [newline] ++ body ++ [newline]).
  assert (E : pre ++ (fence_json ++ [newline] ++ body ++ [newline] ++ fence)
                ++ post
              = (pre ++ fence_json) ++ inner ++ (fence ++ post)).
  { unfold inner. by rewrite <- !app_assoc. }
  assert (H0 : Py.index_of fence_json
                 ((pre ++ fence_json) ++ inner ++ (fence ++ post))
               = Some (length pre)).
  { rewrite <- app_assoc.
    by apply index_of_after; [|apply fence_json_border_free|]. }
  rewrite E. rewrite (extract_fence_branch _ _ H0). f_equal.
  replace (Z.of_nat (length pre + 7))
    with (Z.of_nat (length (pre ++ fence_json)))
    by (by rewrite length_app).
  rewrite find_from by (rewrite !length_app; lia).
  rewrite drop_app_length.
  assert (Hi : Py.index_of fence (inner ++ fence ++ post)
               = Some (length inner)).
  { unfold inner.
    replace (([newline] ++ body ++ [newline]) ++ fence ++ post)
      with ([] ++ newline :: (body ++ newline :: (fence ++ post)))
      by (cbn; by rewrite <- app_assoc).
    rewrite index_of_sep by (done || decide_literal).
    rewrite index_of_sep by (done || decide_literal).
    rewrite Hb. rewrite (index_of_prefix fence (fence ++ post))
      by apply startswith_app.
    cbn. rewrite length_app. cbn. f_equal. lia. }
  rewrite Hi.
  apply (slice_middle (pre ++ fence_json) inner (fence ++ post)).
Qed.

(** The parser on a fenced serialization amid other text. *)
Lemma parse_fenced_amid key pre post (members : list (text * json)) :
  wf_json (JObj members) ->
  Py.contains fence (dumps (JObj members)) = false ->
  Py.contains fence_json pre = false ->
  parse_response key (pre ++ fenced (dumps (JObj members)) ++ post)
  = Ok (JObj members).
Proof.
  intros Hwf Hf%contains_false Hpre%contains_false.
  destruct (dumps_obj_shape members) as [mid Hd].
  unfold parse_response, fenced.
  change (str "```json") with fence_json. change (str "```") with fence.
  rewrite (extract_fenced_amid _ _ _ Hpre Hf). rewrite Hd.
  rewrite (strip_core [newline] [newline] "{" mid "}") by done.
  rewrite <- Hd. by rewrite loads_dumps.
Qed.

(** The parser on a reply with a brace and no [```json]: what it returns
    is the fallback object or the object read between the first [{] and
    the last [}]. *)
Lemma parse_brace_dict key t v :
  Py.contains fence_json t = false ->
  Py.contains lbrace t = true ->
  parse_response key t = Ok v ->
  exists members,
    v = JObj members
    /\ (members = [(key, JStr t)]
        \/ loads (Py.slice t (Py.find t lbrace 0) (Py.rfind t rbrace + 1))
           = Ok (JObj members)).
Proof.
  intros Hf%contains_false [i Hi]%contains_true.
  unfold parse_response. rewrite (extract_brace_branch _ _ Hf Hi).
  rewrite (find_from_start _ _ _ Hi).
  set (stop := Py.rfind t rbrace + 1).
  destruct (slice_from_char "{" t i stop Hi) as [E|[tl E]];
    rewrite E in *.
  { cbn. intros [= <-]. eexists. split; [done | by left]. }
  destruct (loads ("{"%char :: tl)) as [v0|e| |] eqn:El; try done.
  - intros [= <-]. destruct (loads_brace_obj _ _ El) as [members ->].
    exists members. split; [done | by right].
  - destruct e; try done. intros [= <-]. eexists. split; [done | by left].
Qed.

End ParserFacts.

Section ParserProperties.

(** X2.  When the reply holds a brace and no [```json], whatever the
    parser returns is a dict, never a list, a string or a number: the
    fallback object, or the object [json.loads] reads in the text from
    the first [{] to the last [}]. *)
Theorem brace_reply_yields_dict (key response_text : text) (v : json) :
  Py.contains fence_json response_text = false ->
  Py.contains lbrace response_text = true ->
  parse_response key response_text = Ok v ->
  exists members,
    v = JObj members
    /\ (members = [(key, JStr response_text)]
        \/ Json.loads
             (Py.slice response_text (Py.find response_text lbrace 0)
                (Py.rfind response_text rbrace + 1))
           = Ok (JObj members)).
Proof. apply parse_brace_dict. Qed.

Lemma brace_reply_yields_dict_witness :
  parse_response raw_response (tmpl "The bank: {^a^: [1, 2]}. Good luck!")
  = Ok (JObj [(str "a", JArr [JInt 1; JInt 2])])
  /\ exists members,
       JObj [(str "a", JArr [JInt 1; JInt 2])] = JObj members.
Proof.
  assert (H : parse_response raw_response
                (tmpl "The bank: {^a^: [1, 2]}. Good luck!")
              = Ok (JObj [(str "a", JArr [JInt 1; JInt 2])]))
    by reflexivity.
  split; [exact H|].
  destruct (brace_reply_yields_dict raw_response
              (tmpl "The bank: {^a^: [1, 2]}. Good luck!") _
              eq_refl eq_refl H)
    as (members & Hm & _).
  by exists members.
Defined.

(** X3.  When the reply holds a [{], no [```json], and no [}] after the
    first [{] (none at all, or only before it), the text handed to
    [json.loads] is empty and the parser returns the fallback object. *)
Theorem brace_without_closing (key response_text : text) :
  Py.contains fence_json response_text = false ->
  Py.contains lbrace response_text = true ->
  Py.rfind response_text rbrace < Py.find response_text lbrace 0 ->
  extract_json_str response_text = []
  /\ parse_response key response_text
     = Ok (JObj [(key, JStr response_text)]).
Proof.
  intros Hf%contains_false [i Hi]%contains_true Hlt.
  assert (E : extract_json_str response_text = []).
  { rewrite (extract_brace_branch _ _ Hf Hi).
    rewrite (find_from_start _ _ _ Hi) in Hlt.
    pose proof (index_of_bound _ _ _ Hi) as Hb.
    pose proof (rfind_ge response_text rbrace).
    apply slice_empty; lia. }
  split; [done|]. unfold parse_response. by rewrite E.
Qed.

Lemma brace_without_closing_witness :
  parse_response raw_response (tmpl "{^mcqs^: {^EASY^: [")
  = Ok (JObj [(raw_response, JStr (tmpl "{^mcqs^: {^EASY^: ["))]).
Proof.
  apply (brace_without_closing raw_response (tmpl "{^mcqs^: {^EASY^: ["));
    reflexivity.
Defined.

(** X4.  A fenced block is found whatever surrounds it: for an object [O]
    whose serialization holds no [```], a text [pre] with no [```json] and
    any text [post], the parser reads
    [pre + "```json\\n" + json.dumps(O) + "\\n```" + post] as [O], braces
    and fences in [pre] and [post] notwithstanding. *)
Theorem fenced_block_amid_prose (key pre post : text)
    (members : list (text * json)) :
  wf_json (JObj members) ->
  Py.contains fence (Json.dumps (JObj members)) = false ->
  Py.contains fence_json pre = false ->
  parse_response key (pre ++ fenced (Json.dumps (JObj members)) ++ post)
  = Ok (JObj members).
Proof. apply parse_fenced_amid. Qed.

Lemma fenced_block_amid_prose_witness :
  parse_response raw_response
    (str "Here is {your} test:" ++ [newline]
     ++ fenced (Json.dumps (JObj [(str "mcqs", JObj [(str "EASY", JArr [])])]))
     ++ [newline] ++ str "Good luck! ``` {")
  = Ok (JObj [(str "mcqs", JObj [(str "EASY", JArr [])])]).
Proof.
  rewrite app_assoc.
  apply (fenced_block_amid_prose raw_response
           (str "Here is {your} test:" ++ [newline])).
  - wf_literal.
  - reflexivity.
  - reflexivity.
Defined.

(** X5.  An object is found amid prose: for an object [O], a text [pre]
    with no [{] and a text [post] with no [}], when the whole holds no
    [```json] the parser reads [pre + json.dumps(O) + post] as [O]. *)
Theorem object_amid_prose (key pre post : text)
    (members : list (text * json)) :
  wf_json (JObj members) ->
  Py.contains fence_json (pre ++ Json.dumps (JObj members) ++ post) = false ->
  Py.contains lbrace pre = false ->
  Py.contains rbrace post = false ->
  parse_response key (pre ++ Json.dumps (JObj members) ++ post)
  = Ok (JObj members).
Proof.
  intros Hwf Hf%contains_false Hpre%contains_false%index_of_present
    Hpost%contains_false%index_of_present.
  destruct (dumps_obj_shape members) as [mid Hd].
  unfold parse_response. rewrite Hd in Hf |- *.
  rewrite (extract_braced pre mid post Hf) by done.
  rewrite <- Hd. by rewrite loads_dumps.
Qed.

Lemma object_amid_prose_witness :
  parse_response raw_feedback
    (str "Evaluation: "
     ++ Json.dumps (JObj [(str "mcq_EASY_0",
                           JObj [(str "is_correct", JBool true)])])
     ++ str " (end)")
  = Ok (JObj [(str "mcq_EASY_0", JObj [(str "is_correct", JBool true)])]).
Proof.
  apply (object_amid_prose raw_feedback (str "Evaluation: ") (str " (end)")).
  - wf_literal.
  - reflexivity.
  - reflexivity.
  - reflexivity.
Defined.

End ParserProperties.

(* ===================================================================== *)
(** * The workflows: further properties *)
(* ===================================================================== *)

Section WorkflowFacts.

Variable llm : client.

(** Each call of a sequence with distinct keys leaves its reply under its
    key. *)
Lemma ask_all_replies ps :
  NoDup (map snd ps) ->
  forall (st : state) w tr st',
    fst (ask_all llm ps st w tr) = Ok st' ->
    exists new,
      snd (snd (ask_all llm ps st w tr)) = tr ++ new
      /\ Forall2 (fun c p =>
                    call_prompt c = fst p
                    /\ exists content,
                         call_reply c = inl content
                         /\ st' !! snd p = Some (VStr content))
           new ps.
Proof.
  induction ps as [|[prompt key] ps IH]; intros Hnd st w tr st';
    cbn [ask_all].
  { intros _. exists []. by rewrite app_nil_r. }
  cbn [map snd] in Hnd. apply NoDup_cons in Hnd as [Hkey Hnd].
  destruct (invoke llm prompt w) as [[content|e] w']; [|done].
  intros Hok.
  destruct (IH Hnd _ _ _ _ Hok) as (new & Htr & Hall).
  exists ({| call_prompt := prompt; call_reply := inl content |} :: new).
  split; [by rewrite Htr, <- app_assoc|].
  constructor; [|done].
  split; [done|]. exists content. split; [done|].
  destruct (ask_all_spec llm ps (<[key := VStr content]> st) w'
              (tr ++ [{| call_prompt := prompt; call_reply := inl content |}]))
    as (new' & _ & H).
  rewrite Hok in H. destruct H as (_ & _ & _ & Hframe & _).
  cbn [snd]. rewrite Hframe by done. by rewrite lookup_insert_eq.
Qed.

End WorkflowFacts.

Section StudyMaterialProperties.

Variable llm : client.
Variables theme class_name subject : text.
Variable user_docs : option (list doc).
Variable counts : option (list (text * json)).

#[local] Abbreviation initial_state :=
  (<["counts" := VJson (JObj (default [] counts))]>
   (<["user_docs" := VDocs (default [] user_docs)]>
   (<["long_qa" := VStr []]>
   (<["medium_qa" := VStr []]>
   (<["short_qa" := VStr []]>
   (<["fill_blanks" := VStr []]>
   (<["true_false" := VStr []]>
   (<["mcqs" := VStr []]>
   (<["study_content" := VStr []]>
   (<["prompt" := VStr []]>
   (<["subject" := VStr subject]>
   (<["class_name" := VStr class_name]>
   (<["theme" := VStr theme]> (∅ : state)))))))))))))).

#[local] Abbreviation base :=
  (generate_prompt theme class_name subject (default [] user_docs)
     (default [] counts)).

#[local] Abbreviation workflow :=
  (generate_study_material llm theme class_name subject user_docs counts).

#[local] Abbreviation calls :=
  (map (fun s : list string * string => (base ++ lines (fst s), snd s))
     sections).

(** X6.  In the record of a run that completes, each section key holds
    the reply to the call made for that section: the first call fills
    [study_content], the second [mcqs], and so on to [long_qa]. *)
Theorem study_material_replies w st' :
  outcome workflow w = Ok st' ->
  Forall2 (fun c k => exists content,
                        call_reply c = inl content
                        /\ st' !! k = Some (VStr content))
    (trace workflow w) section_keys.
Proof.
  rewrite outcome_runs, trace_runs. intros Hok.
  destruct (ask_all_replies llm calls ltac:(decide_literal) _ _ _ _ Hok)
    as (new & -> & Hall).
  cbn [app]. change section_keys with (map snd calls).
  apply Forall2_fmap_r. eapply Forall2_impl; [exact Hall|].
  by intros c p [_ H].
Qed.

(** X7.  The [prompt] field of the state is never written: the record of
    a run that completes holds the empty string there, not any of the
    prompts sent. *)
Theorem study_material_prompt_field w st' :
  outcome workflow w = Ok st' -> st' !! "prompt"%string = Some (VStr []).
Proof.
  rewrite outcome_runs. intros Hok.
  destruct (ask_all_spec llm calls initial_state w []) as (new & _ & H).
  rewrite Hok in H. destruct H as (_ & _ & _ & Hframe & _).
  by rewrite Hframe by decide_literal.
Qed.

(** X8.  A run ends in one of two ways: with a record, after exactly seven
    calls that were all answered, or with the error of the completion
    client, raised by the last of at most seven calls; the workflow raises
    no error of its own and stays below the recursion limit of the
    graph. *)
Theorem study_material_ends w :
  match outcome workflow w with
  | Ok _ =>
      length (trace workflow w) = 7%nat
      /\ Forall (fun c => failed c = false) (trace workflow w)
  | Raise e =>
      exists before p,
        trace workflow w
        = before ++ [{| call_prompt := p; call_reply := inr e |}]
        /\ (length before < 7)%nat
        /\ Forall (fun c => failed c = false) before
  | Unmodelled | OutOfFuel => False
  end.
Proof.
  rewrite outcome_runs, trace_runs.
  destruct (ask_all_spec llm calls initial_state w []) as (new & -> & H).
  cbn [app].
  destruct (fst (ask_all llm calls initial_state w [])) as [st'|e| |];
    try done.
  - destruct H as (Hp & Hf & _). split; [|done].
    apply (f_equal length) in Hp. unfold prompts in Hp.
    by rewrite !length_map in Hp.
  - destruct H as (Hp & before & p & -> & Hf). exists before, p.
    split_and!; [done| |done].
    apply prefix_length in Hp. unfold prompts in Hp.
    rewrite !length_map, length_app in Hp. simpl in Hp. lia.
Qed.

(** X9.  The seven prompts of a request are pairwise different, and each
    starts with the prompt [generate_prompt] builds for the request: the
    calls differ by the sentence that asks for one section. *)
Theorem section_prompts_distinct :
  NoDup (section_prompts theme class_name subject user_docs counts)
  /\ Forall (fun p => base `prefix_of` p)
       (section_prompts theme class_name subject user_docs counts).
Proof.
  unfold section_prompts. split.
  - rewrite <- (map_map (fun s : list string * string => lines (fst s))
                  (fun t => base ++ t)).
    assert (Hinj : Inj (=) (=) (fun t : text => base ++ t))
      by (intros x y; apply app_inv_head).
    apply (NoDup_fmap_2 (fun t => base ++ t)). decide_literal.
  - apply Forall_fmap, Forall_forall. intros s _. by eexists.
Qed.

End StudyMaterialProperties.

Section StudyNodes.

Variable llm : client.

(** The seven nodes of the study graph. *)
#[local] Abbreviation study_nodes :=
  [generate_study_content llm; generate_mcqs llm; generate_true_false llm;
   generate_fill_blanks llm; generate_short_qa llm; generate_medium_qa llm;
   generate_long_qa llm].

Lemma study_nodes_sections node :
  node ∈ study_nodes ->
  exists s, s ∈ sections /\ node = section_node llm (fst s) (snd s).
Proof.
  intros H.
  change study_nodes
    with (map (fun s => section_node llm (fst s) (snd s)) sections) in H.
  apply list_elem_of_fmap in H as (s & -> & Hs). by exists s.
Qed.

Lemma section_node_raises suffix key (st : state) e sigma :
  state_prompt st = Raise e ->
  section_node llm suffix key st sigma = (Raise e, sigma).
Proof.
  intros H. unfold section_node, bind, lift. by rewrite H.
Qed.

(** X10.  A node of the study graph called on a state that lacks [theme],
    [class_name] or [subject] raises [KeyError] for the first of them that
    is missing and makes no completion call. *)
Theorem study_node_missing_field node (st : state) sigma (t c : text) :
  node ∈ [generate_study_content llm; generate_mcqs llm;
          generate_true_false llm; generate_fill_blanks llm;
          generate_short_qa llm; generate_medium_qa llm;
          generate_long_qa llm] ->
  (st !! "theme"%string = None ->
   node st sigma = (Raise (KeyError "theme"), sigma))
  /\ (st !! "theme"%string = Some (VStr t) ->
      st !! "class_name"%string = None ->
      node st sigma = (Raise (KeyError "class_name"), sigma))
  /\ (st !! "theme"%string = Some (VStr t) ->
      st !! "class_name"%string = Some (VStr c) ->
      st !! "subject"%string = None ->
      node st sigma = (Raise (KeyError "subject"), sigma)).
Proof.
  intros (s & _ & ->)%study_nodes_sections.
  split_and!; intros; apply section_node_raises;
    unfold state_prompt, get_str; by simplify_option_eq.
Qed.

End StudyNodes.

Lemma study_node_missing_field_witness :
  generate_mcqs scripted (<["theme" := VStr (str "Sound")]> ∅)
    (seven_replies, [])
  = (Raise (KeyError "class_name"), (seven_replies, [])).
Proof.
  refine (proj1 (proj2 (study_node_missing_field scripted
                          (generate_mcqs scripted)
                          (<["theme" := VStr (str "Sound")]> ∅)
                          (seven_replies, []) (str "Sound") [] _))
            eq_refl eq_refl).
  right. left.
Defined.

Lemma study_material_replies_witness :
  Forall2 (fun c k => exists content,
                        call_reply c = inl content
                        /\ example_record !! k = Some (VStr content))
    (trace (generate_study_material scripted (str "Force and Pressure")
              (str "Class 8") (str "Physics") None None) seven_replies)
    section_keys.
Proof. apply study_material_replies. reflexivity. Defined.

Lemma study_material_prompt_field_witness :
  example_record !! "prompt"%string = Some (VStr []).
Proof.
  apply (study_material_prompt_field scripted (str "Force and Pressure")
           (str "Class 8") (str "Physics") None None seven_replies).
  reflexivity.
Defined.

Section TestProperties.

Variable llm : client.
Variables theme class_name subject : text.
Variables num_mcq num_true_false num_fill_blanks num_short_qa num_medium_qa
  num_long_qa : Z.

#[local] Abbreviation test_prompt :=
  (generate_test_prompt theme class_name subject num_mcq num_true_false
     num_fill_blanks num_short_qa num_medium_qa num_long_qa).

#[local] Abbreviation test_workflow :=
  (generate_test llm theme class_name subject num_mcq num_true_false
     num_fill_blanks num_short_qa num_medium_qa num_long_qa).

(** The state [generate_test] starts the graph from. *)
#[local] Abbreviation test_initial_state :=
  (<["corrections" := VJson (JObj [])]>
   (<["user_answers" := VJson (JObj [])]>
   (<["questions" := VJson (JObj [])]>
   (<["num_long_qa" := VInt num_long_qa]>
   (<["num_medium_qa" := VInt num_medium_qa]>
   (<["num_short_qa" := VInt num_short_qa]>
   (<["num_fill_blanks" := VInt num_fill_blanks]>
   (<["num_true_false" := VInt num_true_false]>
   (<["num_mcq" := VInt num_mcq]>
   (<["subject" := VStr subject]>
   (<["class_name" := VStr class_name]>
   (<["theme" := VStr theme]> (∅ : state))))))))))))).

(** The test workflow is one call and one parse, from the initial state. *)
Lemma generate_test_steps w tr :
  test_workflow (w, tr) =
    match invoke llm test_prompt w with
    | (inl reply, w') =>
        (match parse_response raw_response reply with
         | Ok bank => Ok (<["questions" := VJson bank]> test_initial_state)
         | Raise e => Raise e
         | Unmodelled => Unmodelled
         | OutOfFuel => OutOfFuel
         end,
         (w', tr ++ [{| call_prompt := test_prompt;
                        call_reply := inl reply |}]))
    | (inr e, w') =>
        (Raise e,
         (w', tr ++ [{| call_prompt := test_prompt;
                        call_reply := inr e |}]))
    end.
Proof.
  unfold generate_test. rewrite test_graph_runs.
  cbn [run_nodes]. unfold bind at 1.
  unfold generate_test_questions, bind, lift, llm_invoke, ret.
  change (test_state_prompt _) with (Ok test_prompt).
  cbn [fst snd].
  destruct (invoke llm test_prompt w) as [[reply|e] w']; [|done].
  by destruct (parse_response raw_response reply) as [bank|e| |].
Qed.

Lemma generate_test_outcome w :
  outcome test_workflow w =
    match fst (invoke llm test_prompt w) with
    | inl reply =>
        match parse_response raw_response reply with
        | Ok bank => Ok (<["questions" := VJson bank]> test_initial_state)
        | Raise e => Raise e
        | Unmodelled => Unmodelled
        | OutOfFuel => OutOfFuel
        end
    | inr e => Raise e
    end.
Proof.
  unfold outcome, run. rewrite generate_test_steps.
  by destruct (invoke llm test_prompt w) as [[reply|e] w'].
Qed.

Lemma generate_test_trace w :
  trace test_workflow w =
    [{| call_prompt := test_prompt;
        call_reply := fst (invoke llm test_prompt w) |}].
Proof.
  unfold trace, run. rewrite generate_test_steps.
  by destruct (invoke llm test_prompt w) as [[reply|e] w'].
Qed.

(** X11.  The state a run of [generate_test] returns holds the twelve
    fields of [TestState] and no other: the request as it was given, the
    bank under [questions], and [user_answers] and [corrections] as the
    empty dicts they were initialised to, never written. *)
Theorem generate_test_record w st :
  outcome test_workflow w = Ok st ->
  (forall k, is_Some (st !! k) <->
             k ∈ ["theme"; "class_name"; "subject"; "num_mcq";
                  "num_true_false"; "num_fill_blanks"; "num_short_qa";
                  "num_medium_qa"; "num_long_qa"; "questions";
                  "user_answers"; "corrections"]%string)
  /\ st !! "theme"%string = Some (VStr theme)
  /\ st !! "class_name"%string = Some (VStr class_name)
  /\ st !! "subject"%string = Some (VStr subject)
  /\ st !! "num_mcq"%string = Some (VInt num_mcq)
  /\ st !! "num_true_false"%string = Some (VInt num_true_false)
  /\ st !! "num_fill_blanks"%string = Some (VInt num_fill_blanks)
  /\ st !! "num_short_qa"%string = Some (VInt num_short_qa)
  /\ st !! "num_medium_qa"%string = Some (VInt num_medium_qa)
  /\ st !! "num_long_qa"%string = Some (VInt num_long_qa)
  /\ st !! "user_answers"%string = Some (VJson (JObj []))
  /\ st !! "corrections"%string = Some (VJson (JObj [])).
Proof.
  rewrite generate_test_outcome.
  destruct (fst (invoke llm test_prompt w)) as [reply|e]; [|done].
  destruct (parse_response raw_response reply) as [bank|e| |]; try done.
  intros [= <-]. split; [|by split_and!].
  intros k. rewrite <- elem_of_dom, !dom_insert_L, dom_empty_L.
  rewrite !elem_of_union, !elem_of_cons, !elem_of_singleton, elem_of_nil.
  rewrite elem_of_empty. tauto.
Qed.

(** X12.  A run of [generate_test] makes exactly one completion call,
    with the prompt of the request, whatever the reply: a reply the parser
    cannot read is not asked for again.  When the call raises, the run
    raises the same error; when the run returns, the call returned, and
    the bank under [questions] is what the response parser made of its
    reply. *)
Theorem generate_test_one_call w :
  exists reply,
    trace test_workflow w
    = [{| call_prompt := test_prompt; call_reply := reply |}]
    /\ (forall e, reply = inr e -> outcome test_workflow w = Raise e)
    /\ (forall st,
          outcome test_workflow w = Ok st ->
          exists response_text bank,
            reply = inl response_text
            /\ parse_response raw_response response_text = Ok bank
            /\ st !! "questions"%string = Some (VJson bank)).
Proof.
  exists (fst (invoke llm test_prompt w)).
  rewrite generate_test_trace, generate_test_outcome.
  split; [done|].
  destruct (fst (invoke llm test_prompt w)) as [reply|e0].
  - split; [done|]. intros st.
    destruct (parse_response raw_response reply) as [bank|e| |] eqn:E;
      try done.
    intros [= <-]. exists reply, bank. split_and!; [done..|].
    apply lookup_insert_eq.
  - split; [|done]. by intros e [= ->].
Qed.

(** X13.  A bank sent as a fenced block comes back as it was sent: when
    the completion client answers with
    [pre + "```json\n" + json.dumps(O) + "\n```" + post], for an object
    [O] whose serialization holds no [```] and a text [pre] with no
    [```json], the state [generate_test] returns holds [O] under
    [questions]. *)
Theorem generate_test_reads_fenced_bank w w' (pre post : text)
    (members : list (text * json)) :
  wf_json (JObj members) ->
  Py.contains fence (Json.dumps (JObj members)) = false ->
  Py.contains fence_json pre = false ->
  invoke llm test_prompt w
  = (inl (pre ++ fenced (Json.dumps (JObj members)) ++ post), w') ->
  exists st,
    outcome test_workflow w = Ok st
    /\ st !! "questions"%string = Some (VJson (JObj members)).
Proof.
  intros Hwf Hf Hpre Hinv. rewrite generate_test_outcome, Hinv. cbn [fst].
  rewrite parse_fenced_amid by done. eexists. split; [done|].
  apply lookup_insert_eq.
Qed.

End TestProperties.

Lemma generate_test_record_witness :
  exists st,
    outcome (generate_test scripted (str "Sound") (str "Class 8")
               (str "Physics") 5 5 5 3 2 1) [inl mcq_reply] = Ok st
    /\ st !! "num_short_qa"%string = Some (VInt 3)
    /\ st !! "corrections"%string = Some (VJson (JObj [])).
Proof.
  eexists. split; [reflexivity|].
  match goal with
  | |- ?st !! _ = _ /\ _ =>
      pose proof (generate_test_record scripted (str "Sound") (str "Class 8")
                    (str "Physics") 5 5 5 3 2 1 [inl mcq_reply] st eq_refl)
        as H
  end.
  split; [apply H | apply H].
Defined.

Lemma generate_test_reads_fenced_bank_witness :
  exists st,
    outcome (generate_test scripted (str "Sound") (str "Class 8")
               (str "Physics") 5 5 5 3 2 1)
      [inl (str "Here is the test." ++ [newline]
            ++ fenced (Json.dumps (JObj [(str "mcqs", JObj [])]))
            ++ str " Good luck!")]
    = Ok st
    /\ st !! "questions"%string = Some (VJson (JObj [(str "mcqs", JObj [])])).
Proof.
  apply (generate_test_reads_fenced_bank scripted (str "Sound")
           (str "Class 8") (str "Physics") 5 5 5 3 2 1 _ []
           (str "Here is the test." ++ [newline]) (str " Good luck!")
           [(str "mcqs", JObj [])]).
  - wf_literal.
  - reflexivity.
  - reflexivity.
  - cbn [invoke scripted]. by rewrite <- app_assoc.
Defined.

Section TestNode.

Variable llm : client.

(** X14.  [generate_test_questions] called on a state that lacks one of
    the nine fields of the request raises [KeyError] for a missing field
    and makes no completion call. *)
Theorem generate_test_questions_missing_field (st : state) sigma :
  (forall k v, k ∈ ["theme"; "class_name"; "subject"]%string ->
               st !! k = Some v -> exists s, v = VStr s) ->
  (forall k v, k ∈ ["num_mcq"; "num_true_false"; "num_fill_blanks";
                    "num_short_qa"; "num_medium_qa"; "num_long_qa"]%string ->
               st !! k = Some v -> exists n, v = VInt n) ->
  (exists k, k ∈ ["theme"; "class_name"; "subject"; "num_mcq";
                  "num_true_false"; "num_fill_blanks"; "num_short_qa";
                  "num_medium_qa"; "num_long_qa"]%string
             /\ st !! k = None) ->
  exists k,
    st !! k = None
    /\ generate_test_questions llm st sigma = (Raise (KeyError k), sigma).
Proof.
  intros Hs Hn (k0 & Hk0 & Hmiss).
  unfold generate_test_questions, bind, lift, test_state_prompt,
    get_str, get_int.
  repeat
    match goal with
    | |- context [match st !! ?key with _ => _ end] =>
        let E := fresh "E" in
        destruct (st !! key) as [v|] eqn:E;
        [ first [ destruct (Hs key v) as [? ->]; [decide_literal | done |]
                | destruct (Hn key v) as [? ->]; [decide_literal | done |] ];
          cbn [rbind]
        | by exists key ]
    end.
  exfalso.
  repeat (apply elem_of_cons in Hk0 as [->|Hk0]; [congruence|]).
  by apply elem_of_nil in Hk0.
Qed.

(** X15.  [evaluate_answers] makes exactly one completion call, with the
    prompt built from the questions and the answers.  When the call
    raises it raises the same error; otherwise its outcome is that of the
    response parser on the reply, the fallback being under
    [raw_feedback]. *)
Theorem evaluate_answers_one_call (questions user_answers : json) w :
  exists reply,
    trace (evaluate_answers llm questions user_answers) w
    = [{| call_prompt := evaluation_prompt questions user_answers;
          call_reply := reply |}]
    /\ match reply with
       | inl response_text =>
           outcome (evaluate_answers llm questions user_answers) w
           = parse_response raw_feedback response_text
       | inr e =>
           outcome (evaluate_answers llm questions user_answers) w = Raise e
       end.
Proof.
  exists (fst (invoke llm (evaluation_prompt questions user_answers) w)).
  unfold trace, outcome, run. rewrite evaluate_answers_runs.
  by destruct (invoke llm _ w) as [[reply|e0] w']; cbn [fst snd].
Qed.

End TestNode.

Lemma generate_test_questions_missing_field_witness :
  exists k,
    generate_test_questions scripted ∅ ([inl mcq_reply], [])
    = (Raise (KeyError k), ([inl mcq_reply], [])).
Proof.
  destruct (generate_test_questions_missing_field scripted ∅
              ([inl mcq_reply], [])) as (k & _ & H).
  - intros k v _ H. by rewrite lookup_empty in H.
  - intros k v _ H. by rewrite lookup_empty in H.
  - exists "theme"%string. split; [decide_literal | done].
  - by exists k.
Defined.

Section PromptProperties.

Lemma contains_middle sub a b : Py.contains sub (a ++ sub ++ b) = true.
Proof.
  apply contains_app_r. unfold Py.contains.
  by rewrite index_of_prefix by apply startswith_app.
Qed.

Lemma join_elem {A : Type} sep (f : A -> text) (l : list A) (d : A) :
  d ∈ l -> exists a b, Py.join sep (map f l) = a ++ f d ++ b.
Proof.
  induction l as [|x l IH]; [by intros ?%elem_of_nil|].
  intros [->|H]%elem_of_cons; cbn [map]; rewrite join_cons.
  - by exists [], (flat_map (fun y => sep ++ y) (map f l)).
  - destruct (IH H) as (a & b & E).
    destruct l as [|y l]; [by apply elem_of_nil in H|].
    cbn [map flat_map]. cbn [map] in E. rewrite join_cons in E.
    exists (f x ++ sep ++ a), b.
    rewrite <- !app_assoc. by do 2 f_equal.
Qed.

(** X16.  Every document handed to [generate_prompt] is in the prompt in
    full: the line [File: ] with its name, then its text, whatever their
    length. *)
Theorem prompt_holds_documents (theme class_name subject : text)
    (user_docs : list doc) (counts : list (text * json)) (d : doc) :
  d ∈ user_docs ->
  Py.contains (doc_entry d)
    (generate_prompt theme class_name subject user_docs counts) = true.
Proof.
  intros Hd. unfold generate_prompt.
  destruct (join_elem [newline] doc_entry user_docs d Hd) as (a & b & E).
  destruct user_docs as [|d0 l]; [by apply elem_of_nil in Hd|].
  rewrite E. do 7 apply contains_app_r.
  rewrite <- !app_assoc. apply contains_middle.
Qed.

Lemma prompt_holds_documents_witness :
  Py.contains (str "File: notes.txt" ++ [newline] ++ str "Sound is a wave.")
    (generate_prompt (str "Sound") (str "Class 8") (str "Physics")
       [{| doc_name := Some (str "notes.txt");
           doc_text := Some (str "Sound is a wave.") |}] [])
  = true.
Proof.
  apply (prompt_holds_documents (str "Sound") (str "Class 8") (str "Physics")
           [{| doc_name := Some (str "notes.txt");
               doc_text := Some (str "Sound is a wave.") |}] []
           {| doc_name := Some (str "notes.txt");
              doc_text := Some (str "Sound is a wave.") |}).
  left.
Defined.

(** X17.  The fields of the request are put into the prompt as they are,
    with nothing to delimit them: a theme that goes on with a line
    [Class: x] gives the same prompt as the theme alone with a class name
    that starts with [x] and goes on with a line [Class: ]. *)
Theorem generate_prompt_splices_fields (theme x class_name subject : text)
    (user_docs : list doc) (counts : list (text * json)) :
  generate_prompt (theme ++ lines [blank; "Class: "] ++ x) class_name
    subject user_docs counts
  = generate_prompt theme (x ++ lines [blank; "Class: "] ++ class_name)
      subject user_docs counts.
Proof. unfold generate_prompt. by rewrite <- !app_assoc. Qed.

End PromptProperties.

(* ===================================================================== *)
(** * app.py: uploads and outputs *)
(* ===================================================================== *)

Section StripFacts.

Implicit Types (s t u : text) (c : ascii).

(** A text that is empty or starts with a character that is not white
    space. *)
#[local] Abbreviation head_ok t :=
  (match t with [] => True | c :: _ => Py.isspace c = false end).

Lemma lstrip_head s : head_ok (Py.lstrip s).
Proof.
  induction s as [|c s IH]; [done|]. simpl.
  by destruct (Py.isspace c) eqn:E.
Qed.

Lemma lstrip_fixed t : head_ok t -> Py.lstrip t = t.
Proof. destruct t as [|c t]; [done|]. intros H. simpl. by rewrite H. Qed.

Lemma lstrip_snoc u c :
  Py.isspace c = false -> exists u', Py.lstrip (u ++ [c]) = u' ++ [c].
Proof.
  intros Hc. induction u as [|x u IH].
  - exists []. simpl. by rewrite Hc.
  - simpl. destruct (Py.isspace x); [done|]. by exists (x :: u).
Qed.

Lemma rstrip_head t : head_ok t -> head_ok (Py.rstrip t).
Proof.
  destruct t as [|c t]; [done|]. intros Hc. unfold Py.rstrip. simpl.
  destruct (lstrip_snoc (rev t) c Hc) as [u' ->].
  by rewrite rev_app_distr.
Qed.

Lemma strip_head s : head_ok (Py.strip s).
Proof. apply rstrip_head, lstrip_head. Qed.

Lemma strip_last s : head_ok (rev (Py.strip s)).
Proof.
  unfold Py.strip, Py.rstrip. rewrite rev_involutive. apply lstrip_head.
Qed.

(** Stripping twice is stripping once. *)
Lemma strip_strip s : Py.strip (Py.strip s) = Py.strip s.
Proof.
  unfold Py.strip at 1. rewrite (lstrip_fixed _ (strip_head s)).
  unfold Py.rstrip. rewrite (lstrip_fixed _ (strip_last s)).
  apply rev_involutive.
Qed.

Lemma text_or_none_strip s t :
  text_or_none (Py.strip s) = Some t -> t <> [] /\ Py.strip t = t.
Proof.
  pose proof (strip_strip s) as H.
  destruct (Py.strip s) as [|c r] eqn:E; [done|]. intros [= <-].
  by split.
Qed.

End StripFacts.

Section Uploads.

Variable lib : readers.

(** X18.  What [extract_text_from_upload] returns is [None] or a text that
    is not empty and has no white space at either end, whatever the file:
    an upload with no text in it never yields an empty string. *)
Theorem extract_text_never_blank (uploaded_file : UploadedFile) (t : text) :
  extract_text_from_upload lib uploaded_file = Ok (Some t) ->
  t <> [] /\ Py.strip t = t.
Proof.
  unfold extract_text_from_upload. cbv zeta.
  destruct (PyStr.endswith_any _ _); [done|].
  destruct (PyStr.endswith (str ".pdf") _).
  { destruct (pdf_pages lib _); [|done].
    intros [= H]. by apply text_or_none_strip in H. }
  destruct (PyStr.endswith (str ".docx") _).
  { destruct (docx_paragraphs lib _); [|done].
    intros [= H]. by apply text_or_none_strip in H. }
  destruct (Codec.utf_8 _) as [code_points|].
  - destruct (Codec.text_of_code_points code_points); cbn [rbind]; try done.
    intros [= H]. by apply text_or_none_strip in H.
  - intros [= H]. by apply text_or_none_strip in H.
Qed.

Lemma lower_app a b : PyStr.lower (a ++ b) = PyStr.lower a ++ PyStr.lower b.
Proof. apply map_app. Qed.

Lemma endswith_app a suffix : PyStr.endswith suffix (a ++ suffix) = true.
Proof. unfold PyStr.endswith. rewrite rev_app_distr. apply startswith_app. Qed.

(** X19.  A file whose name ends, in any letter case, with [.png],
    [.jpg], [.jpeg], [.gif] or [.bmp] yields [None], whatever its content:
    neither reader is called and nothing is decoded. *)
Theorem images_are_skipped (uploaded_file : UploadedFile)
    (stem suffix : text) :
  file_name uploaded_file = stem ++ suffix ->
  PyStr.lower suffix ∈ image_suffixes ->
  extract_text_from_upload lib uploaded_file = Ok None.
Proof.
  intros Hname Hin. unfold extract_text_from_upload. cbv zeta.
  rewrite Hname, lower_app.
  assert (H : PyStr.endswith_any image_suffixes
                (PyStr.lower stem ++ PyStr.lower suffix) = true).
  { apply existsb_exists. exists (PyStr.lower suffix).
    split; [by apply list_elem_of_In | apply endswith_app]. }
  by rewrite H.
Qed.

Lemma utf_8_ascii data :
  Forall (fun b => (Byte.to_N b < 128)%N) data ->
  Codec.utf_8 data = Some (map Byte.to_N data).
Proof.
  induction 1 as [|b data Hb _ IH]; [done|].
  cbn [Codec.utf_8 map]. apply N.ltb_lt in Hb. rewrite Hb, IH. done.
Qed.

Lemma text_of_bytes data :
  Codec.text_of_code_points (map Byte.to_N data) = Ok (Codec.latin_1 data).
Proof.
  unfold Codec.text_of_code_points, Codec.latin_1.
  assert (H : forallb (fun n => (n <? 256)%N) (map Byte.to_N data) = true).
  { apply forallb_forall. intros n [b [<- _]]%in_map_iff.
    pose proof (Byte.to_N_bounded b). apply N.ltb_lt. lia. }
  rewrite H, map_map. f_equal. apply map_ext. intros b.
  symmetry. apply ascii_of_byte_via_N.
Qed.

(** X20.  For a file whose name has none of the known endings and whose
    bytes are all ASCII, the text returned is the content with the white
    space around it removed, [None] when nothing is left. *)
Theorem plain_ascii_upload (uploaded_file : UploadedFile) :
  PyStr.endswith_any (image_suffixes ++ [str ".pdf"; str ".docx"])
    (PyStr.lower (file_name uploaded_file)) = false ->
  Forall (fun b => (Byte.to_N b < 128)%N) (file_value uploaded_file) ->
  extract_text_from_upload lib uploaded_file
  = Ok (text_or_none (Py.strip (Codec.latin_1 (file_value uploaded_file)))).
Proof.
  intros Hname Hascii. unfold extract_text_from_upload. cbv zeta.
  unfold PyStr.endswith_any in *. rewrite existsb_app in Hname.
  apply orb_false_iff in Hname as [-> Hname]. cbn [existsb] in Hname.
  apply orb_false_iff in Hname as [-> Hname].
  apply orb_false_iff in Hname as [-> _].
  rewrite utf_8_ascii by done. by rewrite text_of_bytes.
Qed.

(** The first [k] characters of a text. *)
Lemma slice_prefix s k :
  0 <= k <= Py.len s -> Py.slice s 0 k = take (Z.to_nat k) s.
Proof.
  intros Hk. unfold Py.slice, Py.adjust, Py.len in *.
  change (0 <? 0) with false. cbv iota.
  destruct (Z.ltb_spec k 0); [lia|].
  rewrite !Z.min_r by lia.
  change (Z.to_nat 0) with 0%nat. rewrite Z.sub_0_r. done.
Qed.

(** What the loop adds to the documents kept so far. *)
Lemma store_uploads_spec uploaded_files :
  forall stored docs,
    store_uploads lib uploaded_files stored = Ok docs ->
    exists new,
      docs = stored ++ new
      /\ Forall2 (fun file d =>
                    exists content,
                      extract_text_from_upload lib file = Ok (Some content)
                      /\ doc_name d = Some (file_name file)
                      /\ doc_text d = Some (take (Z.to_nat 12000) content)
                      /\ 0 < Py.len (take (Z.to_nat 12000) content) <= 12000)
           (List.filter (gives_text lib) uploaded_files) new.
Proof.
  induction uploaded_files as [|file files IH]; intros stored docs;
    cbn [store_uploads List.filter].
  { intros [= <-]. exists []. by rewrite app_nil_r. }
  unfold gives_text at 1.
  destruct (extract_text_from_upload lib file) as [[[|c content]|]| | |]
    eqn:E; cbn [rbind]; try done.
  - intros (new & -> & H)%IH. by exists new.
  - intros (new & -> & H)%IH.
    eexists (_ :: new). rewrite <- app_assoc. split; [done|].
    constructor; [|done]. exists (c :: content).
    cbn [doc_name doc_text]. split_and!; [done | done | | |].
    + f_equal.
      destruct (Z.ltb_spec 12000 (Py.len (c :: content))) as [Hlong|Hshort].
      * pose proof (len_nonneg (c :: content)).
        by rewrite slice_prefix by lia.
      * rewrite take_ge; [done|]. unfold Py.len in Hshort. lia.
    + unfold Py.len. rewrite length_take. cbn [length]. lia.
    + unfold Py.len. rewrite length_take. lia.
  - intros (new & -> & H)%IH. by exists new.
Qed.

(** X21.  The documents the upload tab keeps for the generator are those
    of the files that gave a text, one for each and in the order of the
    uploads: a document carries the name of its file and the first 12000
    characters of the text read from it (the whole text when it is not
    longer), which is never empty; a file that gave no text leaves
    nothing behind. *)
Theorem stored_documents_bounded (uploaded_files : list UploadedFile)
    (docs : list doc) :
  store_uploads lib uploaded_files [] = Ok docs ->
  Forall2 (fun file d =>
             exists content,
               extract_text_from_upload lib file = Ok (Some content)
               /\ doc_name d = Some (file_name file)
               /\ doc_text d = Some (take (Z.to_nat 12000) content)
               /\ 0 < Py.len (take (Z.to_nat 12000) content) <= 12000)
    (List.filter (gives_text lib) uploaded_files) docs.
Proof.
  intros (new & -> & H)%store_uploads_spec. done.
Qed.

End Uploads.

Lemma extract_text_never_blank_witness :
  str "Sound is a wave." <> []
  /\ Py.strip (str "Sound is a wave.") = str "Sound is a wave.".
Proof.
  apply (extract_text_never_blank no_readers notes_txt). reflexivity.
Defined.

Lemma images_are_skipped_witness :
  extract_text_from_upload no_readers diagram_png = Ok None.
Proof.
  apply (images_are_skipped no_readers diagram_png (str "Diagram")
           (str ".PNG")).
  - reflexivity.
  - decide_literal.
Defined.

Lemma plain_ascii_upload_witness :
  extract_text_from_upload no_readers notes_txt
  = Ok (Some (str "Sound is a wave.")).
Proof.
  rewrite (plain_ascii_upload no_readers notes_txt);
    [reflexivity | reflexivity | decide_literal].
Defined.

Lemma stored_documents_bounded_witness :
  store_uploads no_readers [diagram_png; notes_txt] []
  = Ok [{| doc_name := Some (str "notes.txt");
           doc_text := Some (str "Sound is a wave.") |}]
  /\ List.filter (gives_text no_readers) [diagram_png; notes_txt]
     = [notes_txt]
  /\ Forall2 (fun file d =>
                exists content,
                  extract_text_from_upload no_readers file
                  = Ok (Some content)
                  /\ doc_name d = Some (file_name file)
                  /\ doc_text d = Some (take (Z.to_nat 12000) content)
                  /\ 0 < Py.len (take (Z.to_nat 12000) content) <= 12000)
       [notes_txt]
       [{| doc_name := Some (str "notes.txt");
           doc_text := Some (str "Sound is a wave.") |}].
Proof.
  split; [reflexivity|]. split; [reflexivity|].
  exact (stored_documents_bounded no_readers [diagram_png; notes_txt]
           [{| doc_name := Some (str "notes.txt");
               doc_text := Some (str "Sound is a wave.") |}]
           eq_refl).
Defined.

Section Outputs.

Variable llm : client.
Variables theme class_name subject : text.
Variable user_docs : option (list doc).
Variable counts : option (list (text * json)).

#[local] Abbreviation initial_state :=
  (<["counts" := VJson (JObj (default [] counts))]>
   (<["user_docs" := VDocs (default [] user_docs)]>
   (<["long_qa" := VStr []]>
   (<["medium_qa" := VStr []]>
   (<["short_qa" := VStr []]>
   (<["fill_blanks" := VStr []]>
   (<["true_false" := VStr []]>
   (<["mcqs" := VStr []]>
   (<["study_content" := VStr []]>
   (<["prompt" := VStr []]>
   (<["subject" := VStr subject]>
   (<["class_name" := VStr class_name]>
   (<["theme" := VStr theme]> (∅ : state)))))))))))))).

#[local] Abbreviation base :=
  (generate_prompt theme class_name subject (default [] user_docs)
     (default [] counts)).

#[local] Abbreviation workflow :=
  (generate_study_material llm theme class_name subject user_docs counts).

#[local] Abbreviation calls :=
  (map (fun s : list string * string => (base ++ lines (fst s), snd s))
     sections).

(** X22.  The outputs of a run that completes are saved without loss: the
    dict [outputs] holds the seven replies under the seven section keys,
    and what [json.dumps] writes for it, [json.loads] reads back as the
    same dict, whatever characters the replies hold. *)
Theorem outputs_round_trip w st' :
  outcome workflow w = Ok st' ->
  exists contents : list text,
    map call_reply (trace workflow w) = map inl contents
    /\ outputs st'
       = Ok (JObj (zip (map str section_keys) (map JStr contents)))
    /\ Json.loads
         (Json.dumps (JObj (zip (map str section_keys) (map JStr contents))))
       = Ok (JObj (zip (map str section_keys) (map JStr contents))).
Proof.
  rewrite outcome_runs, trace_runs. intros Hok.
  destruct (ask_all_replies llm calls ltac:(decide_literal) _ _ _ _ Hok)
    as (new & -> & Hall).
  cbn [app]. unfold sections in Hall. cbn [map fst snd] in Hall.
  repeat
    match goal with
    | H : Forall2 _ _ (_ :: _) |- _ =>
        let c := fresh "c" in
        let content := fresh "content" in
        let Hr := fresh "Hr" in
        let Hk := fresh "Hk" in
        apply Forall2_cons_inv_r in H
          as (c & ? & [_ (content & Hr & Hk)] & H & ->)
    end.
  apply Forall2_nil_inv_r in Hall as ->. cbn [snd] in *.
  exists [content; content0; content1; content2; content3; content4;
          content5].
  split_and!.
  - cbn [map]. by rewrite Hr, Hr0, Hr1, Hr2, Hr3, Hr4, Hr5.
  - unfold outputs, get_section.
    by rewrite Hk, Hk0, Hk1, Hk2, Hk3, Hk4, Hk5.
  - apply loads_dumps. wf_literal.
Qed.

End Outputs.

Lemma outputs_round_trip_witness :
  exists contents : list text,
    map call_reply
      (trace (generate_study_material scripted (str "Force and Pressure")
                (str "Class 8") (str "Physics") None None) seven_replies)
    = map inl contents
    /\ outputs example_record
       = Ok (JObj (zip (map str section_keys) (map JStr contents)))
    /\ Json.loads
         (Json.dumps (JObj (zip (map str section_keys) (map JStr contents))))
       = Ok (JObj (zip (map str section_keys) (map JStr contents))).
Proof. apply outputs_round_trip. reflexivity. Defined.

Section TestPrompt.

Lemma app_sep_inj (c : ascii) (a a' x y : text) :
  c ∉ a -> c ∉ a' -> a ++ c :: x = a' ++ c :: y -> a = a' /\ x = y.
Proof.
  revert a'. induction a as [|e a IH]; intros [|d a'] Ha Ha'; cbn [app].
  - by intros [= ->].
  - intros [= -> _]. exfalso. apply Ha'. by left.
  - intros [= -> _]. exfalso. apply Ha. by left.
  - apply not_elem_of_cons in Ha as [_ Ha].
    apply not_elem_of_cons in Ha' as [_ Ha'].
    intros [= -> H]. by destruct (IH a' Ha Ha' H) as [-> ->].
Qed.

Lemma int_repr_no_space n : " "%char ∉ Json.int_repr n.
Proof.
  assert (H : forall d, " "%char ∉ Json.digits_of_uint d).
  { intros d Hin. pose proof (digits_of_uint_digits d) as Hd.
    rewrite forallb_forall in Hd.
    by specialize (Hd _ (proj1 (list_elem_of_In _ _) Hin)). }
  unfold Json.int_repr. destruct (Z.to_int n) as [d|d]; [apply H|].
  apply not_elem_of_cons. split; [done | apply H].
Qed.

Lemma int_repr_inj n m : Json.int_repr n = Json.int_repr m -> n = m.
Proof.
  intros H. by rewrite <- (parse_int_repr n), <- (parse_int_repr m), H.
Qed.

(** The six counts can be read back from the prompt. *)
Lemma generate_test_prompt_counts theme class_name subject
    (n1 n2 n3 n4 n5 n6 m1 m2 m3 m4 m5 m6 : Z) :
  generate_test_prompt theme class_name subject n1 n2 n3 n4 n5 n6
  = generate_test_prompt theme class_name subject m1 m2 m3 m4 m5 m6 ->
  (n1, n2, n3, n4, n5, n6) = (m1, m2, m3, m4, m5, m6).
Proof.
  unfold generate_test_prompt. intros H. do 7 apply app_inv_head in H.
  repeat
    match type of H with
    | Json.int_repr ?n ++ lines ?l ++ _ = Json.int_repr ?m ++ _ =>
        let Hn := fresh "Hn" in
        change (lines l) with (" "%char :: drop 1 (lines l)) in H;
        cbn [app] in H;
        apply app_sep_inj in H as [Hn H];
        [ apply int_repr_inj in Hn; apply app_inv_head in H
        | apply int_repr_no_space | apply int_repr_no_space ]
    end.
  match type of H with
  | Json.int_repr ?n ++ lines ?l = _ =>
      change (lines l) with (" "%char :: drop 1 (lines l)) in H
  end.
  apply app_sep_inj in H as [Hn6 _];
    [|apply int_repr_no_space|apply int_repr_no_space].
  apply int_repr_inj in Hn6. congruence.
Qed.

(** X23.  Two test requests for the same theme, class and subject that
    differ in one of the six counts are sent different prompts: the counts
    can be read back from the prompt, negative ones included. *)
Theorem generate_test_prompt_tells_counts (theme class_name subject : text)
    (n1 n2 n3 n4 n5 n6 m1 m2 m3 m4 m5 m6 : Z) :
  (n1, n2, n3, n4, n5, n6) <> (m1, m2, m3, m4, m5, m6) ->
  generate_test_prompt theme class_name subject n1 n2 n3 n4 n5 n6
  <> generate_test_prompt theme class_name subject m1 m2 m3 m4 m5 m6.
Proof.
  intros Hne H. apply Hne. by eapply generate_test_prompt_counts.
Qed.

Lemma generate_test_prompt_tells_counts_witness :
  generate_test_prompt (str "Sound") (str "Class 8") (str "Physics")
    5 5 5 3 2 1
  <> generate_test_prompt (str "Sound") (str "Class 8") (str "Physics")
       5 5 5 3 2 (-1).
Proof. by apply generate_test_prompt_tells_counts. Defined.

End TestPrompt.

Section FurtherProperties.

Import Json.

(** An object written by the encoder is read back whatever follows it. *)
Lemma scan_once_dumps_obj members rest depth :
  wf_json (JObj members) ->
  (length (dumps (JObj members)) <= depth)%nat ->
  scan_once depth (dumps (JObj members) ++ rest) = Ok (JObj members, rest).
Proof.
  unfold dumps. intros Hwf Hd.
  destruct depth as [|depth].
  { destruct (encode_head None 0 (JObj members)) as (c & tl & E & _).
    rewrite E in Hd. simpl in Hd. lia. }
  apply wf_json_obj in Hwf as [Hnd Hwf].
  destruct members as [|kv m]; [reflexivity|].
  rewrite encode_obj in Hd |- *. cbn [app]. rewrite <- !app_assoc.
  rewrite scan_once_object. cbn [app].
  repeat (rewrite length_app in Hd || cbn [length] in Hd).
  apply Forall_cons in Hwf as [Hx Hl].
  rewrite <- (dict_of_pairs_nodup (kv :: m)) by done.
  apply JSONObject_encode.
  - intros rest' Hr. apply scan_once_encode; [done | lia | done].
  - rewrite Forall_forall in Hl |- *. intros y Hy rest' Hr.
    apply scan_once_encode; [by apply Hl | | done].
    pose proof (length_flat_map_elem
      (fun y => ","%char :: " "%char :: dquote
            :: flat_map escape_char (fst y)
               ++ dquote :: ":"%char :: " "%char
                  :: encode None 1 (snd y)) m y Hy) as H.
    repeat (rewrite length_app in H || cbn [length] in H). lia.
Qed.

Lemma skip_ws_nonempty a c b : is_ws c = false -> skip_ws (a ++ c :: b) <> [].
Proof.
  intros Hc. induction a as [|x a IH]; simpl.
  - by rewrite Hc.
  - by destruct (is_ws x).
Qed.

(** X24.  The brace extraction reads up to the last [}] of the reply:
    when a complete object [json.dumps(O)] is followed, later in the
    reply, by another [}], [json.loads] finds data after the object and
    the parser returns the fallback object, though the reply holds a
    valid object. *)
Theorem text_after_object_spoils_reply (key pre more post : text)
    (members : list (text * json)) :
  wf_json (JObj members) ->
  Py.contains fence_json
    (pre ++ Json.dumps (JObj members) ++ more ++ rbrace ++ post) = false ->
  Py.contains lbrace pre = false ->
  Py.contains rbrace post = false ->
  parse_response key
    (pre ++ Json.dumps (JObj members) ++ more ++ rbrace ++ post)
  = Ok (JObj [(key, JStr (pre ++ Json.dumps (JObj members) ++ more
                          ++ rbrace ++ post))]).
Proof.
  intros Hwf Hf%contains_false Hpre%contains_false%index_of_present
    Hpost%contains_false%index_of_present.
  destruct (dumps_obj_shape members) as [mid Hd].
  set (t := pre ++ Json.dumps (JObj members) ++ more ++ rbrace ++ post) in *.
  assert (Et : t = pre ++ ("{"%char :: (mid ++ "}"%char :: more) ++ ["}"%char])
                   ++ post).
  { unfold t. rewrite Hd. cbn [app rbrace str list_ascii_of_string].
    by rewrite <- !app_assoc. }
  unfold parse_response.
  rewrite Et in Hf. rewrite Et at 1.
  rewrite (extract_braced pre (mid ++ "}"%char :: more) post Hf) by done.
  replace ("{"%char :: (mid ++ "}"%char :: more) ++ ["}"%char])
    with (Json.dumps (JObj members) ++ (more ++ ["}"%char]))
    by (rewrite Hd; cbn [app]; by rewrite <- !app_assoc).
  unfold Json.loads, Json.decode.
  change (Json.dumps (JObj members)) with (encode None 0 (JObj members)).
  rewrite skip_ws_encode.
  change (encode None 0 (JObj members)) with (Json.dumps (JObj members)).
  rewrite scan_once_dumps_obj by (done || (rewrite length_app; lia)).
  cbn [rbind].
  pose proof (skip_ws_nonempty more "}" [] eq_refl) as Hne.
  by destruct (skip_ws (more ++ ["}"%char])).
Qed.

Lemma text_after_object_spoils_reply_witness :
  parse_response raw_response (tmpl "{^mcqs^: {}} and {^true_false^: {}}")
  = Ok (JObj [(raw_response,
               JStr (tmpl "{^mcqs^: {}} and {^true_false^: {}}"))]).
Proof.
  apply (text_after_object_spoils_reply raw_response []
           (tmpl " and {^true_false^: {}") [] [(str "mcqs", JObj [])]).
  - wf_literal.
  - reflexivity.
  - reflexivity.
  - reflexivity.
Defined.

(** X25.  The counts of a request can be read back from the prompt of the
    study workflow: two requests that differ in the counts only are sent
    different prompts. *)
Theorem generate_prompt_tells_counts (theme class_name subject : text)
    (user_docs : list doc) (counts counts' : list (text * json)) :
  wf_json (JObj counts) -> wf_json (JObj counts') ->
  counts <> counts' ->
  generate_prompt theme class_name subject user_docs counts
  <> generate_prompt theme class_name subject user_docs counts'.
Proof.
  intros Hwf Hwf' Hne H. apply Hne.
  unfold generate_prompt in H. do 9 apply app_inv_head in H.
  apply app_inv_tail in H.
  pose proof (loads_dumps _ Hwf) as H1. pose proof (loads_dumps _ Hwf') as H2.
  rewrite H in H1. congruence.
Qed.

Lemma generate_prompt_tells_counts_witness :
  generate_prompt (str "Sound") (str "Class 8") (str "Physics") []
    [(str "mcq", JInt 6)]
  <> generate_prompt (str "Sound") (str "Class 8") (str "Physics") []
       [(str "mcq", JInt 8)].
Proof.
  apply generate_prompt_tells_counts; [wf_literal | wf_literal | done].
Defined.

End FurtherProperties.

(* ===================================================================== *)
(** * [json.dumps] with an indent *)
(* ===================================================================== *)

Section WhiteSpace.

Import Json.

Lemma skip_ws_app_ws w s : forallb is_ws w = true -> skip_ws (w ++ s) = skip_ws s.
Proof.
  induction w as [|c w IH]; [done|]. cbn [forallb app skip_ws].
  intros [-> H]%andb_true_iff. by apply IH.
Qed.

Lemma number_stop_ws w rest :
  forallb is_ws w = true -> number_stop rest = true ->
  number_stop (w ++ rest) = true.
Proof.
  destruct w as [|c w]; [done|]. cbn [forallb app number_stop].
  intros [H _]%andb_true_iff _. revert H. by ascii_cases c.
Qed.

Lemma newline_indent_ws indent level :
  forallb is_ws (newline_indent indent level) = true.
Proof.
  destruct indent as [k|]; [|done]. cbn [newline_indent forallb].
  induction (k * level)%nat as [|n IH]; [done|]. exact IH.
Qed.

(** The white space after the comma between two items. *)
Lemma item_separator_shape indent level :
  exists w, forallb is_ws w = true
            /\ item_separator indent ++ newline_indent indent level
               = ","%char :: w.
Proof.
  destruct indent as [k|].
  - exists (newline_indent (Some k) level).
    split; [apply newline_indent_ws | done].
  - by exists [" "%char].
Qed.

End WhiteSpace.

Section IndentLoops.

Import Json.

Variable scan : text -> result (json * text).
Variable enc : json -> text.
Variables w1 w2 : text.

Hypothesis enc_head :
  forall v, exists c tl, enc v = c :: tl /\ value_start c = true.
Hypothesis w1_ws : forallb is_ws w1 = true.
Hypothesis w2_ws : forallb is_ws w2 = true.

#[local] Abbreviation reads x :=
  (forall rest, number_stop rest = true -> scan (enc x ++ rest) = Ok (x, rest)).

Lemma JSONArray_loop_indent l :
  Forall (fun x => reads x) l ->
  forall x n values rest,
    reads x ->
    (length l < n)%nat ->
    JSONArray_loop scan n
      (enc x
       ++ flat_map (fun y => ","%char :: w1 ++ enc y) l
       ++ w2 ++ "]"%char :: rest)
      values
    = Ok (JArr (values ++ x :: l), rest).
Proof.
  induction 1 as [|y l Hy Hl IH]; intros x n values rest Hx Hn;
    (destruct n as [|n]; [simpl in Hn; lia|]); cbn [flat_map app].
  - cbn [JSONArray_loop]. rewrite Hx by (by apply number_stop_ws).
    cbn [rbind]. rewrite skip_ws_app_ws by done.
    change (skip_ws ("]"%char :: rest)) with ("]"%char :: rest).
    cbv beta iota. by rewrite Ascii.eqb_refl.
  - rewrite <- !app_assoc. cbn [app].
    cbn [JSONArray_loop]. rewrite Hx by done. cbn [rbind].
    change (skip_ws (","%char :: ?t)) with (","%char :: t).
    cbv beta iota. change (Ascii.eqb "," "]") with false.
    rewrite Ascii.eqb_refl. cbv iota.
    rewrite skip_ws_app_ws by done.
    rewrite (skip_ws_enc enc enc_head).
    rewrite IH by (done || simpl in Hn; lia).
    by rewrite <- app_assoc.
Qed.

Lemma JSONObject_loop_indent m :
  Forall (fun kv => reads (snd kv)) m ->
  forall kv n pairs rest,
    reads (snd kv) ->
    (length m < n)%nat ->
    JSONObject_loop scan n
      (flat_map escape_char (fst kv)
       ++ dquote :: ":"%char :: " "%char
          :: enc (snd kv)
             ++ flat_map
                  (fun y => ","%char :: w1 ++ dquote
                            :: flat_map escape_char (fst y)
                               ++ dquote :: ":"%char :: " "%char
                                  :: enc (snd y)) m
             ++ w2 ++ "}"%char :: rest)
      pairs
    = Ok (JObj (dict_of_pairs (pairs ++ kv :: m)), rest).
Proof.
  induction 1 as [|y l Hy Hl IH]; intros [k v] n pairs rest Hx Hn;
    (destruct n as [|n]; [simpl in Hn; lia|]);
    cbn [flat_map fst snd app] in *.
  - eapply JSONObject_loop_close.
    + apply scanstring_encode.
    + change (skip_ws (" "%char :: ?t)) with (skip_ws t).
      rewrite (skip_ws_enc enc enc_head). apply Hx.
      by apply number_stop_ws.
    + by rewrite skip_ws_app_ws.
  - rewrite <- !app_assoc. cbn [app]. rewrite <- !app_assoc. cbn [app].
    erewrite JSONObject_loop_comma; cycle 1.
    + apply scanstring_encode.
    + change (skip_ws (" "%char :: ?t)) with (skip_ws t).
      rewrite (skip_ws_enc enc enc_head). by apply Hx.
    + reflexivity.
    + by rewrite skip_ws_app_ws.
    + rewrite IH by (done || simpl in Hn; lia).
      by rewrite <- app_assoc.
Qed.

End IndentLoops.

Section IndentRoundTrip.

Import Json.

Variable indent : option nat.

Lemma encode_arr_indent lvl x l :
  exists w0 w1 w2,
    forallb is_ws w0 = true /\ forallb is_ws w1 = true
    /\ forallb is_ws w2 = true
    /\ encode indent lvl (JArr (x :: l)) =
       "["%char
       :: w0 ++ encode indent (S lvl) x
          ++ flat_map (fun y => ","%char :: w1 ++ encode indent (S lvl) y) l
          ++ w2 ++ ["]"%char].
Proof.
  destruct (item_separator_shape indent (S lvl)) as (w1 & Hw1 & E).
  exists (newline_indent indent (S lvl)), w1, (newline_indent indent lvl).
  split_and!; [apply newline_indent_ws | done | apply newline_indent_ws |].
  change (encode indent lvl (JArr (x :: l)))
    with ("["%char
          :: newline_indent indent (S lvl)
             ++ Py.join (item_separator indent
                         ++ newline_indent indent (S lvl))
                  (map (encode indent (S lvl)) (x :: l))
             ++ newline_indent indent lvl ++ ["]"%char]).
  rewrite E. cbn [map]. rewrite join_cons, flat_map_map.
  by rewrite <- !app_assoc.
Qed.

Lemma encode_obj_indent lvl kv m :
  exists w0 w1 w2,
    forallb is_ws w0 = true /\ forallb is_ws w1 = true
    /\ forallb is_ws w2 = true
    /\ encode indent lvl (JObj (kv :: m)) =
       "{"%char
       :: w0 ++ dquote
          :: flat_map escape_char (fst kv)
             ++ dquote :: ":"%char :: " "%char
                :: encode indent (S lvl) (snd kv)
                   ++ flat_map
                        (fun y => ","%char :: w1 ++ dquote
                                  :: flat_map escape_char (fst y)
                                     ++ dquote :: ":"%char :: " "%char
                                        :: encode indent (S lvl) (snd y)) m
                   ++ w2 ++ ["}"%char].
Proof.
  destruct (item_separator_shape indent (S lvl)) as (w1 & Hw1 & E).
  exists (newline_indent indent (S lvl)), w1, (newline_indent indent lvl).
  split_and!; [apply newline_indent_ws | done | apply newline_indent_ws |].
  change (encode indent lvl (JObj (kv :: m)))
    with ("{"%char
          :: newline_indent indent (S lvl)
             ++ Py.join (item_separator indent
                         ++ newline_indent indent (S lvl))
                  (map (fun kv => let '(k, v) := kv in
                                  encode_basestring_ascii k ++ key_separator
                                  ++ encode indent (S lvl) v) (kv :: m))
             ++ newline_indent indent lvl ++ ["}"%char]).
  rewrite E. cbn [map]. rewrite join_cons, flat_map_map.
  destruct kv as [k v]. unfold encode_basestring_ascii at 1.
  unfold key_separator at 1. cbn [fst snd str list_ascii_of_string app].
  rewrite (flat_map_ext _
             (fun y => ","%char :: w1 ++ dquote
                       :: flat_map escape_char (fst y)
                          ++ dquote :: ":"%char :: " "%char
                             :: encode indent (S lvl) (snd y))).
  - repeat (rewrite <- app_assoc; cbn [app]). reflexivity.
  - intros [k' v']. unfold encode_basestring_ascii, key_separator.
    cbn [fst snd str list_ascii_of_string app].
    by rewrite <- !app_assoc.
Qed.

End IndentRoundTrip.

Section IndentScan.

Import Json.

Variable indent : option nat.

#[local] Abbreviation reads_at depth lvl x :=
  (forall rest, number_stop rest = true ->
                scan_once depth (encode indent (S lvl) x ++ rest)
                = Ok (x, rest)).

Lemma item_length lvl (w : text) y :
  (2 <= length (","%char :: w ++ encode indent (S lvl) y))%nat.
Proof.
  destruct (encode_head indent (S lvl) y) as (c & tl & -> & _).
  cbn [length]. rewrite length_app. cbn [length]. lia.
Qed.

Lemma JSONArray_indent depth lvl w0 w1 w2 x l rest :
  forallb is_ws w0 = true -> forallb is_ws w1 = true ->
  forallb is_ws w2 = true ->
  reads_at depth lvl x ->
  Forall (fun y => reads_at depth lvl y) l ->
  JSONArray (scan_once depth)
    (w0 ++ encode indent (S lvl) x
     ++ flat_map (fun y => ","%char :: w1 ++ encode indent (S lvl) y) l
     ++ w2 ++ "]"%char :: rest)
  = Ok (JArr (x :: l), rest).
Proof.
  intros H0 H1 H2 Hx Hl. unfold JSONArray. cbv zeta.
  rewrite skip_ws_app_ws by done. rewrite skip_ws_encode.
  destruct (encode_head indent (S lvl) x) as (c & tl & E & Hc).
  apply value_start_facts in Hc as (_ & Hc & _).
  rewrite E at 1. cbn [app]. unfold str. cbn [list_ascii_of_string].
  rewrite startswith_char, Ascii.eqb_sym, Hc.
  apply (JSONArray_loop_indent _ _ w1 w2 (encode_head indent (S lvl)) H1 H2
           l Hl x _ []); [done|].
  rewrite !length_app.
  pose proof (length_flat_map_item
    (fun y => ","%char :: w1 ++ encode indent (S lvl) y) l
    (item_length lvl w1)) as H.
  lia.
Qed.

Lemma JSONObject_indent depth lvl w0 w1 w2 kv m rest :
  forallb is_ws w0 = true -> forallb is_ws w1 = true ->
  forallb is_ws w2 = true ->
  reads_at depth lvl (snd kv) ->
  Forall (fun y => reads_at depth lvl (snd y)) m ->
  JSONObject (scan_once depth)
    (w0 ++ dquote
     :: flat_map escape_char (fst kv)
        ++ dquote :: ":"%char :: " "%char
           :: encode indent (S lvl) (snd kv)
              ++ flat_map
                   (fun y => ","%char :: w1 ++ dquote
                             :: flat_map escape_char (fst y)
                                ++ dquote :: ":"%char :: " "%char
                                   :: encode indent (S lvl) (snd y)) m
              ++ w2 ++ "}"%char :: rest)
  = Ok (JObj (dict_of_pairs (kv :: m)), rest).
Proof.
  intros H0 H1 H2 Hx Hl. unfold JSONObject. cbv zeta.
  rewrite skip_ws_app_ws by done.
  change (skip_ws (dquote :: ?t)) with (dquote :: t).
  unfold str. cbn [list_ascii_of_string].
  rewrite !startswith_char. change (Ascii.eqb "}" dquote) with false.
  rewrite Ascii.eqb_refl. cbv iota. cbn [skipn].
  apply (JSONObject_loop_indent _ _ w1 w2 (encode_head indent (S lvl)) H1 H2
           m Hl kv _ []); [done|].
  repeat (rewrite length_app || cbn [length]).
  pose proof (length_flat_map_item
    (fun y => ","%char :: w1 ++ dquote
              :: flat_map escape_char (fst y)
                 ++ dquote :: ":"%char :: " "%char
                    :: encode indent (S lvl) (snd y)) m) as H.
  specialize (H (fun y => ltac:(cbn [length]; rewrite length_app; cbn [length]; lia))).
  lia.
Qed.

(** What the encoder writes with an indent, the scanner reads back. *)
Lemma scan_once_encode_indent v :
  wf_json v ->
  forall lvl depth rest,
    (length (encode indent lvl v) <= depth)%nat ->
    number_stop rest = true ->
    scan_once depth (encode indent lvl v ++ rest) = Ok (v, rest).
Proof.
  induction v as [|b|n|s|items IH|members IH] using json_ind;
    intros Hwf lvl depth rest Hd Hrest;
    (destruct depth as [|depth];
     [exfalso;
      match type of Hd with
      | (length (encode indent lvl ?w) <= _)%nat =>
          destruct (encode_head indent lvl w) as (c & tl & E & _);
          rewrite E in Hd; simpl in Hd; lia
      end|]).
  - reflexivity.
  - by destruct b.
  - cbn [encode].
    destruct (int_repr_head n) as (c & tl & E & Hc).
    pose proof (match_number_int_repr n rest Hrest) as Hm.
    rewrite E in Hm |- *. cbn [app] in Hm |- *.
    rewrite (scan_once_number depth c _ _ _ Hc Hm).
    by rewrite <- E, parse_int_repr.
  - cbn [encode]. unfold encode_basestring_ascii.
    cbn [app scan_once]. rewrite Ascii.eqb_refl, <- app_assoc.
    cbn [app]. by rewrite scanstring_encode.
  - apply wf_json_arr in Hwf.
    destruct items as [|x l]; [reflexivity|].
    destruct (encode_arr_indent indent lvl x l)
      as (w0 & w1 & w2 & H0 & H1 & H2 & E).
    rewrite E in Hd |- *. cbn [app]. rewrite <- !app_assoc. cbn [app].
    rewrite scan_once_array.
    cbn [length] in Hd. rewrite !length_app in Hd.
    apply Forall_cons in IH as [IHx IHl]. apply Forall_cons in Hwf as [Hx Hl].
    apply JSONArray_indent; try done.
    + intros rest' Hr. apply IHx; [done | lia | done].
    + rewrite Forall_forall in IHl, Hl |- *. intros y Hy rest' Hr.
      apply IHl; [done | by apply Hl | | done].
      pose proof (length_flat_map_elem
        (fun y => ","%char :: w1 ++ encode indent (S lvl) y) l y Hy) as H.
      cbn [length] in H. rewrite length_app in H. lia.
  - apply wf_json_obj in Hwf as [Hnd Hwf].
    destruct members as [|kv m]; [reflexivity|].
    destruct (encode_obj_indent indent lvl kv m)
      as (w0 & w1 & w2 & H0 & H1 & H2 & E).
    rewrite E in Hd |- *. cbn [app].
    repeat (first [rewrite <- app_assoc | progress (cbn [app])]).
    rewrite scan_once_object.
    repeat (rewrite length_app in Hd || cbn [length] in Hd).
    apply Forall_cons in IH as [IHx IHl]. apply Forall_cons in Hwf as [Hx Hl].
    rewrite <- (dict_of_pairs_nodup (kv :: m)) by done.
    apply JSONObject_indent; try done.
    + intros rest' Hr. apply IHx; [done | lia | done].
    + rewrite Forall_forall in IHl, Hl |- *. intros y Hy rest' Hr.
      apply IHl; [done | by apply Hl | | done].
      pose proof (length_flat_map_elem
        (fun y => ","%char :: w1 ++ dquote
              :: flat_map escape_char (fst y)
                 ++ dquote :: ":"%char :: " "%char
                    :: encode indent (S lvl) (snd y)) m y Hy) as H.
      repeat (rewrite length_app in H || cbn [length] in H). lia.
Qed.

End IndentScan.

Section IndentLoads.

Import Json.

(** [json.loads(json.dumps(v, indent=k)) == v]. *)
Lemma loads_dumps_indent k v : wf_json v -> loads (dumps_indent k v) = Ok v.
Proof.
  intros Hwf. unfold loads, decode, dumps_indent.
  rewrite <- (app_nil_r (encode (Some k) 0 v)) at 2.
  rewrite skip_ws_encode, scan_once_encode_indent by (done || lia).
  done.
Qed.

End IndentLoads.

Section EvaluationPrompt.

Import Json.

(** A value written with an indent, followed by a line break, is read
    back with the text after it. *)
Lemma scan_dumps_indent k v rest depth :
  wf_json v ->
  (length (dumps_indent k v) <= depth)%nat ->
  scan_once depth (dumps_indent k v ++ newline :: rest)
  = Ok (v, newline :: rest).
Proof. intros Hwf Hd. by apply scan_once_encode_indent. Qed.

Lemma evaluation_prompt_inputs (q a q' a' : json) :
  wf_json q -> wf_json a -> wf_json q' -> wf_json a' ->
  evaluation_prompt q a = evaluation_prompt q' a' -> q = q' /\ a = a'.
Proof.
  intros Hq Ha Hq' Ha' H. unfold evaluation_prompt in H.
  apply app_inv_head in H.
  match type of H with
  | _ ++ lines ?l ++ _ = _ =>
      change (lines l) with (newline :: drop 1 (lines l)) in H
  end.
  cbn [app] in H.
  match type of H with
  | dumps_indent 2 q ++ newline :: ?r = dumps_indent 2 q' ++ newline :: ?r' =>
      pose proof (scan_dumps_indent 2 q r
                    (length (dumps_indent 2 q ++ newline :: r)) Hq) as H1;
      pose proof (scan_dumps_indent 2 q' r'
                    (length (dumps_indent 2 q' ++ newline :: r')) Hq') as H2
  end.
  rewrite length_app in H1, H2.
  specialize (H1 ltac:(lia)). specialize (H2 ltac:(lia)).
  rewrite <- !length_app in H1, H2. rewrite H in H1. rewrite H1 in H2.
  injection H2 as -> Hr. split; [done|].
  repeat (apply app_inv_head in Hr). apply app_inv_tail in Hr.
  pose proof (loads_dumps_indent 2 a Ha) as E1.
  pose proof (loads_dumps_indent 2 a' Ha') as E2.
  rewrite Hr in E1. congruence.
Qed.

(** X26.  What [evaluate_answers] writes in its prompt for the questions
    and for the answers, with [indent=2], is read back by [json.loads] as
    the values given; and the values can be told from the prompt: two
    evaluations that differ in the questions or in the answers are sent
    different prompts. *)
Theorem evaluation_prompt_tells_inputs (questions user_answers
    questions' user_answers' : json) :
  wf_json questions -> wf_json user_answers ->
  wf_json questions' -> wf_json user_answers' ->
  Json.loads (Json.dumps_indent 2 questions) = Ok questions
  /\ Json.loads (Json.dumps_indent 2 user_answers) = Ok user_answers
  /\ ((questions, user_answers) <> (questions', user_answers') ->
      evaluation_prompt questions user_answers
      <> evaluation_prompt questions' user_answers').
Proof.
  intros Hq Ha Hq' Ha'. split_and!; [by apply loads_dumps_indent..|].
  intros Hne H. apply Hne.
  by destruct (evaluation_prompt_inputs _ _ _ _ Hq Ha Hq' Ha' H) as [-> ->].
Qed.

Lemma evaluation_prompt_tells_inputs_witness :
  evaluation_prompt (JObj [(str "mcqs", JObj [(str "EASY", JArr [])])])
    (JObj [(str "mcq_EASY_0", JStr (str "A"))])
  <> evaluation_prompt (JObj [(str "mcqs", JObj [(str "EASY", JArr [])])])
       (JObj [(str "mcq_EASY_0", JStr (str "B"))]).
Proof.
  apply evaluation_prompt_tells_inputs.
  - wf_literal.
  - wf_literal.
  - wf_literal.
  - wf_literal.
  - by intros [=].
Defined.

End EvaluationPrompt.

(** * The answer form of the test tab *)

Section AnswerKeys.

Lemma int_repr_no_underscore n : "_"%char ∉ Json.int_repr n.
Proof.
  assert (H : forall d, "_"%char ∉ Json.digits_of_uint d).
  { intros d Hin. pose proof (digits_of_uint_digits d) as Hd.
    rewrite forallb_forall in Hd.
    by specialize (Hd _ (proj1 (list_elem_of_In _ _) Hin)). }
  unfold Json.int_repr. destruct (Z.to_int n) as [d|d]; [apply H|].
  apply not_elem_of_cons. split; [done | apply H].
Qed.

(** A key tells the difficulty and the index of its question, also when
    the difficulty holds an underscore. *)
Lemma question_key_inj prefix d d' i j :
  question_key prefix d i = question_key prefix d' j -> d = d' /\ i = j.
Proof.
  unfold question_key. change (str "_") with ["_"%char]. cbn [app].
  intros H. apply app_inv_head in H. injection H as H.
  apply (f_equal (@rev ascii)) in H.
  rewrite !rev_app_distr in H. cbn [rev] in H.
  rewrite <- !app_assoc in H. cbn [app] in H.
  assert (Hno : forall n, "_"%char ∉ rev (Json.int_repr (Z.of_nat n))).
  { intros n Hin. apply (int_repr_no_underscore (Z.of_nat n)).
    apply list_elem_of_In, in_rev, list_elem_of_In, Hin. }
  apply app_sep_inj in H as [Hi Hd]; [|apply Hno|apply Hno].
  apply (f_equal (@rev ascii)) in Hi, Hd.
  rewrite !rev_involutive in Hi, Hd.
  apply int_repr_inj in Hi. split; [done | lia].
Qed.

Lemma question_key_tag prefix d i :
  (2 <= length prefix)%nat ->
  take 2 (question_key prefix d i) = take 2 prefix.
Proof.
  intros H. unfold question_key. by rewrite take_app_le by lia.
Qed.

(** The questions of a category, as pairs of a difficulty and an index. *)
Lemma bands_keys_pairs prefix bands keys :
  bands_keys prefix bands = Ok keys ->
  keys = map (fun p => question_key prefix (fst p) (snd p))
           (flat_map (fun b => map (pair (fst b)) (seq 0 (band_size b)))
              bands).
Proof.
  revert keys. induction bands as [|[d q] bands IH]; intros keys; cbn.
  - by intros [= <-].
  - destruct q as [| | | |items|]; try done.
    destruct (forallb is_dict items); [|done]. cbn.
    destruct (bands_keys prefix bands) as [keys'| | |]; try done.
    intros [= <-]. rewrite map_app, map_map, <- (IH keys' eq_refl).
    f_equal. unfold band_size. cbn [snd fst].
    by rewrite imap_seq_0.
Qed.

Lemma band_pairs_NoDup (bands : list (text * json)) :
  NoDup (map fst bands) ->
  NoDup (flat_map (fun b => map (pair (fst b)) (seq 0 (band_size b))) bands).
Proof.
  induction bands as [|[d q] bands IH]; cbn [flat_map map fst].
  - intros _. apply NoDup_nil_2.
  - intros Hnd. apply NoDup_cons in Hnd as [Hd Hnd].
    apply NoDup_app. split; [|split; [|by apply IH]].
    + apply (NoDup_fmap_2 _). apply NoDup_seq.
    + intros [d' i] Hin Hin'.
      apply list_elem_of_In, in_map_iff in Hin as (i' & [= Hd' _] & _).
      apply list_elem_of_In, in_flat_map in Hin' as ([d2 q2] & Hb & Hp).
      apply in_map_iff in Hp as (i2 & [= Hd2 _] & _).
      cbn [fst] in Hd', Hd2. subst d' d2.
      apply Hd, list_elem_of_In, in_map_iff. by exists (d, q2).
Qed.

Lemma band_pairs_length (bands : list (text * json)) :
  length (flat_map (fun b => map (pair (fst b)) (seq 0 (band_size b))) bands)
  = list_sum (map band_size bands).
Proof.
  induction bands as [|b bands IH]; [done|]. cbn [flat_map map list_sum].
  cbn. by rewrite length_app, length_map, length_seq, IH.
Qed.

Lemma dict_get_elem k (d : list (text * json)) v :
  dict_get k d = Some v -> (k, v) ∈ d.
Proof.
  induction d as [|[k' v'] d IH]; [done|]. cbn.
  case_bool_decide as Hk.
  - intros [= ->]. subst. by left.
  - intros H. right. by apply IH.
Qed.

(** One block of the form: a key of its own for every question, each
    under the prefix of the block. *)
Lemma category_keys_spec members category prefix keys :
  wf_json (JObj members) ->
  (2 <= length prefix)%nat ->
  category_keys members category prefix = Ok keys ->
  NoDup keys /\ length keys = category_size members category
  /\ Forall (fun k => take 2 k = take 2 prefix) keys.
Proof.
  intros Hwf Hp. unfold category_keys, category_size.
  destruct (dict_get category members) as [v|] eqn:Hget.
  - destruct v as [| | | | |bands]; try done.
    intros Hk. apply bands_keys_pairs in Hk. subst keys.
    apply dict_get_elem in Hget.
    apply wf_json_obj in Hwf as [_ Hwf].
    rewrite List.Forall_forall in Hwf.
    apply list_elem_of_In, Hwf in Hget. cbn [snd] in Hget.
    apply wf_json_obj in Hget as [Hnd _].
    split; [|split].
    + apply NoDup_fmap_2_strong; [|by apply band_pairs_NoDup].
      intros [d i] [d' j] _ _ H. cbn [fst snd] in H.
      apply question_key_inj in H as [-> ->]. done.
    + by rewrite length_map, band_pairs_length.
    + apply List.Forall_forall. intros k Hin.
      apply in_map_iff in Hin as ([d i] & <- & _).
      by apply question_key_tag.
  - intros [= <-]. split; [apply NoDup_nil_2 | split; [done|]].
    apply List.Forall_nil.
Qed.

(** Blocks under different tags share no key. *)
Lemma tagged_NoDup (blocks : list (text * list text)) :
  NoDup (map fst blocks) ->
  Forall (fun b => NoDup (snd b)
                   /\ Forall (fun k : text => take 2 k = fst b) (snd b))
    blocks ->
  NoDup (concat (map snd blocks)).
Proof.
  induction blocks as [|[t ks] blocks IH]; cbn [map concat fst snd].
  - intros _ _. apply NoDup_nil_2.
  - intros Hnd Hall. apply NoDup_cons in Hnd as [Ht Hnd].
    apply List.Forall_cons_iff in Hall as [[Hks Htag] Hall].
    cbn [fst snd] in Hks, Htag.
    apply NoDup_app. split; [done | split; [|by apply IH]].
    intros k Hin Hin'.
    rewrite List.Forall_forall in Htag.
    apply list_elem_of_In, Htag in Hin.
    apply list_elem_of_In, in_concat in Hin' as (ks' & Hks' & Hk).
    apply in_map_iff in Hks' as ([t' ks2] & <- & Hb).
    rewrite List.Forall_forall in Hall.
    destruct (Hall _ Hb) as [_ Htag']. cbn [fst snd] in Htag', Hk.
    rewrite List.Forall_forall in Htag'.
    apply Htag' in Hk. apply Ht.
    apply list_elem_of_In, in_map_iff. exists (t', ks2).
    split; [cbn; congruence | done].
Qed.

(** X27.  On a bank from a well-formed reply for which the answer form is
    drawn, every question of the six categories gets a key, and no two
    questions share one: the form holds as many keys as the bank holds
    questions and the keys are pairwise distinct, so that no answer in
    [user_answers] overwrites another, also when a difficulty name holds
    an underscore. *)
Theorem answer_keys_distinct test_data keys :
  wf_json test_data ->
  answer_keys test_data = Ok keys ->
  NoDup keys /\ length keys = bank_size test_data.
Proof.
  intros Hwf. destruct test_data as [| | | | |members]; try done.
  unfold answer_keys, bank_size.
  destruct (category_keys members (str "mcqs") _) as [k1| | |] eqn:H1;
    try done.
  destruct (category_keys members (str "true_false") _) as [k2| | |] eqn:H2;
    try done.
  destruct (category_keys members (str "fill_blanks") _) as [k3| | |] eqn:H3;
    try done.
  destruct (category_keys members (str "short_qa") _) as [k4| | |] eqn:H4;
    try done.
  destruct (category_keys members (str "medium_qa") _) as [k5| | |] eqn:H5;
    try done.
  destruct (category_keys members (str "long_qa") _) as [k6| | |] eqn:H6;
    try done.
  cbn. intros [= <-].
  apply category_keys_spec in H1 as (N1 & L1 & T1); [|done|vm_compute; lia].
  apply category_keys_spec in H2 as (N2 & L2 & T2); [|done|vm_compute; lia].
  apply category_keys_spec in H3 as (N3 & L3 & T3); [|done|vm_compute; lia].
  apply category_keys_spec in H4 as (N4 & L4 & T4); [|done|vm_compute; lia].
  apply category_keys_spec in H5 as (N5 & L5 & T5); [|done|vm_compute; lia].
  apply category_keys_spec in H6 as (N6 & L6 & T6); [|done|vm_compute; lia].
  split.
  - pose proof (tagged_NoDup
      [(take 2 (str "mcq"), k1); (take 2 (str "tf"), k2);
       (take 2 (str "fill"), k3); (take 2 (str "short"), k4);
       (take 2 (str "medium"), k5); (take 2 (str "long"), k6)]) as H.
    cbn [map concat fst snd] in H. rewrite app_nil_r in H. apply H.
    + by apply (bool_decide_unpack _).
    + repeat (apply List.Forall_cons; [by split|]). apply List.Forall_nil.
  - rewrite !length_app, L1, L2, L3, L4, L5, L6. cbn [map list_sum].
    by rewrite Nat.add_0_r.
Qed.

End AnswerKeys.

Lemma answer_keys_distinct_witness :
  let bank :=
    JObj [(str "mcqs",
           JObj [(str "easy", JArr [JObj []; JObj []]);
                 (str "easy_1", JArr [JObj []])]);
          (str "long_qa", JObj [(str "hard", JArr [JObj []])])] in
  let keys :=
    [str "mcq_easy_0"; str "mcq_easy_1"; str "mcq_easy_1_0";
     str "long_hard_0"] in
  answer_keys bank = Ok keys
  /\ NoDup keys /\ length keys = bank_size bank.
Proof.
  intros bank keys.
  assert (Hk : answer_keys bank = Ok keys) by reflexivity.
  split; [exact Hk|].
  apply (answer_keys_distinct bank keys); [|exact Hk].
  cbn. repeat split; try apply NoDup_nil_2;
    by apply (bool_decide_unpack _).
Defined.
